(** * Resonant Memory Modulation (RMM): the reprocessing cycle of
      [Code.py] and [Code3.py], embedded and verified.

    Conventions of the embedding.
    - Python floats are exact rationals ([Q]); [==] is equality of
      rationals.  Rounding error of binary floating point is not modelled.
    - Python strings are [string] (byte strings); [lower] lowers the ASCII
      letters.
    - The ambient [random] generator is a fixed stream of draws of
      [random.random()] together with a cursor; every call consumes one draw.
    - [print] appends to a log of output lines.
    - A [Memory] object is reachable only through the entry of
      [self.memories] it is stored in; the in-place mutations made by the
      stages of a cycle are rendered by passing the object along and writing
      it back to that entry. *)

From stdpp Require Import gmap strings list fin_maps.
From Stdlib Require Import Ascii String QArith Qminmax Qabs Lqa ZArith Lia.

Local Open Scope Q_scope.
Local Open Scope string_scope.

(** ** Python prelude *)

(** Exceptions the modelled code can raise.  Nothing in the source catches
    an exception, so a raised exception ends the run. *)
Inductive Exn : Type :=
| ZeroDivisionError
| KeyError (key : string).

(** The process-wide random generator: [random.random()] returns
    [draws pos] and advances the cursor. *)
Record RandomSource : Type := mkRandom {
  draws : nat -> Q;
  pos : nat
}.

(** State of a run: the random generator, what was printed so far, and the
    [RMMModel] instance ([self]). *)
Record Process (Out Self : Type) : Type := mkProcess {
  rng : RandomSource;
  stdout : list Out;
  self : Self
}.
Arguments mkProcess {Out Self} _ _ _.
Arguments rng {Out Self} _.
Arguments stdout {Out Self} _.
Arguments self {Out Self} _.

Inductive Res (St A : Type) : Type :=
| Ok (a : A) (s : St)
| Raise (e : Exn).
Arguments Ok {St A} _ _.
Arguments Raise {St A} _.

Definition M (Out Self A : Type) : Type :=
  Process Out Self -> Res (Process Out Self) A.

Definition ret {Out Self A} (a : A) : M Out Self A := fun p => Ok a p.

Definition bind {Out Self A B} (c : M Out Self A) (k : A -> M Out Self B)
  : M Out Self B :=
  fun p => match c p with
           | Ok a p' => k a p'
           | Raise e => Raise e
           end.

Definition raise {Out Self A} (e : Exn) : M Out Self A := fun _ => Raise e.

Declare Scope py_scope.
Delimit Scope py_scope with py.
Notation "'let*' x ':=' c 'in' k" := (bind c (fun x => k))
  (at level 10, x pattern, c at level 100, k at level 200) : py_scope.
Notation "c ';;' k" := (bind c (fun _ => k))
  (at level 100, k at level 200, right associativity) : py_scope.
Local Open Scope py_scope.

(** [random.random()] *)
Definition random {Out Self} : M Out Self Q :=
  fun p => Ok (draws (rng p) (pos (rng p)))
              (mkProcess (mkRandom (draws (rng p)) (S (pos (rng p))))
                         (stdout p) (self p)).

(** [random.uniform(a, b)], which is [a + (b - a) * random()]. *)
Definition uniform {Out Self} (a b : Q) : M Out Self Q :=
  let* u := random in ret (a + (b - a) * u).

(** [print(line)] *)
Definition print {Out Self} (line : Out) : M Out Self unit :=
  fun p => Ok tt (mkProcess (rng p) (stdout p ++ [line]) (self p)).

Definition get_self {Out Self} : M Out Self Self := fun p => Ok (self p) p.

Definition put_self {Out Self} (s : Self) : M Out Self unit :=
  fun p => Ok tt (mkProcess (rng p) (stdout p) s).

(** [x > y] and [x < y] on floats. *)
Definition Qltb (x y : Q) : bool := negb (Qle_bool y x).

(** [str.lower()] on ASCII text. *)
Definition lower_ascii (c : ascii) : ascii :=
  let n := nat_of_ascii c in
  if (65 <=? n)%nat && (n <=? 90)%nat then ascii_of_nat (n + 32) else c.

Fixpoint lower (s : string) : string :=
  match s with
  | EmptyString => EmptyString
  | String c s' => String (lower_ascii c) (lower s')
  end.

(** [w in text] on strings: [w] occurs in [text] as a substring. *)
Fixpoint contains (w text : string) : bool :=
  String.prefix w text ||
  match text with
  | EmptyString => false
  | String _ text' => contains w text'
  end.

(** [round(x, 2)]: the nearest multiple of 1/100, ties to the even one. *)
Definition round_half_even (x : Q) : Z :=
  let n := Qnum x in
  let d := Zpos (Qden x) in
  let q := (n / d)%Z in
  let r := (n mod d)%Z in
  match (2 * r ?= d)%Z with
  | Lt => q
  | Gt => (q + 1)%Z
  | Eq => if Z.even q then q else (q + 1)%Z
  end.

Definition round2 (x : Q) : Q := inject_Z (round_half_even (x * 100)) / 100.

(** [sum(xs)] on floats. *)
Definition Qsum (xs : list Q) : Q := fold_left Qplus xs 0.

(** [d[key]] and [d[key] = v] on a dict kept in insertion order. *)
Fixpoint dict_get {V} (d : list (string * V)) (key : string) : option V :=
  match d with
  | [] => None
  | (k, v) :: d' => if String.eqb k key then Some v else dict_get d' key
  end.

Fixpoint dict_set {V} (d : list (string * V)) (key : string) (v : V)
  : list (string * V) :=
  match d with
  | [] => [(key, v)]
  | (k, v0) :: d' =>
      if String.eqb k key then (k, v) :: d' else (k, v0) :: dict_set d' key v
  end.

(** [x / n] for a float [x] and an int [n]. *)
Definition py_div {Out Self} (x : Q) (n : nat) : M Out Self Q :=
  if Nat.eqb n 0 then raise ZeroDivisionError
  else ret (x / inject_Z (Z.of_nat n)).

(** ** [Code.py]: the threshold-policy engine *)
Module Code.

Record Memory : Type := mkMemory {
  identifier : string;
  content : string;
  current_inference : string;
  initial_valence : Q;
  current_valence : Q;
  strength : Q;
  reprocessing_count : nat;
  is_adaptive : bool;
  value_alignment_scores : list (string * Q);
  agreement_shift : Q;
  mischievous_shift : Q
}.

(** [Memory.__init__] *)
Definition Memory_init (identifier content initial_inference : string)
    (initial_valence strength : Q) : Memory :=
  mkMemory identifier content initial_inference initial_valence
           initial_valence strength 0 false [] 0.0 0.0.

Definition set_current_inference (m : Memory) (s : string) : Memory :=
  mkMemory (identifier m) (content m) s (initial_valence m)
    (current_valence m) (strength m) (reprocessing_count m) (is_adaptive m)
    (value_alignment_scores m) (agreement_shift m) (mischievous_shift m).
Definition set_current_valence (m : Memory) (v : Q) : Memory :=
  mkMemory (identifier m) (content m) (current_inference m)
    (initial_valence m) v (strength m) (reprocessing_count m) (is_adaptive m)
    (value_alignment_scores m) (agreement_shift m) (mischievous_shift m).
Definition set_strength (m : Memory) (v : Q) : Memory :=
  mkMemory (identifier m) (content m) (current_inference m)
    (initial_valence m) (current_valence m) v (reprocessing_count m)
    (is_adaptive m) (value_alignment_scores m) (agreement_shift m)
    (mischievous_shift m).
Definition set_reprocessing_count (m : Memory) (n : nat) : Memory :=
  mkMemory (identifier m) (content m) (current_inference m)
    (initial_valence m) (current_valence m) (strength m) n (is_adaptive m)
    (value_alignment_scores m) (agreement_shift m) (mischievous_shift m).
Definition set_is_adaptive (m : Memory) (b : bool) : Memory :=
  mkMemory (identifier m) (content m) (current_inference m)
    (initial_valence m) (current_valence m) (strength m)
    (reprocessing_count m) b (value_alignment_scores m) (agreement_shift m)
    (mischievous_shift m).
Definition set_value_alignment_scores (m : Memory) (d : list (string * Q))
  : Memory :=
  mkMemory (identifier m) (content m) (current_inference m)
    (initial_valence m) (current_valence m) (strength m)
    (reprocessing_count m) (is_adaptive m) d (agreement_shift m)
    (mischievous_shift m).
Definition set_agreement_shift (m : Memory) (v : Q) : Memory :=
  mkMemory (identifier m) (content m) (current_inference m)
    (initial_valence m) (current_valence m) (strength m)
    (reprocessing_count m) (is_adaptive m) (value_alignment_scores m) v
    (mischievous_shift m).
Definition set_mischievous_shift (m : Memory) (v : Q) : Memory :=
  mkMemory (identifier m) (content m) (current_inference m)
    (initial_valence m) (current_valence m) (strength m)
    (reprocessing_count m) (is_adaptive m) (value_alignment_scores m)
    (agreement_shift m) v.

Record EndocannabinoidSystem : Type := mkECS {
  baseline_modulation_strength : Q;
  current_modulation : Q
}.

(** [EndocannabinoidSystem.__init__] *)
Definition ECS_init : EndocannabinoidSystem := mkECS 0.1 0.1.

(** One entry of [value_spectrum_keywords]. *)
Record Spectrum : Type := mkSpectrum {
  sin : list string;
  virtue : list string
}.

Definition value_spectrum_keywords : list (string * Spectrum) :=
  [ ("Pride", mkSpectrum ["superior"; "arrogant"; "boastful"]
                         ["humble"; "modest"]);
    ("Envy", mkSpectrum ["jealous"; "resent"] ["admiration"; "contentment"]);
    ("Gluttony", mkSpectrum ["excessive"; "overeat"]
                            ["temperance"; "moderation"]);
    ("Lust", mkSpectrum ["desire"; "sensual"] ["chastity"; "restraint"]);
    ("Anger", mkSpectrum ["angry"; "furious"] ["patience"; "calm"]);
    ("Greed", mkSpectrum ["selfish"; "hoard"] ["generosity"; "altruism"]);
    ("Sloth", mkSpectrum ["lazy"; "idle"] ["diligence"; "zeal"]) ].

Definition value_principles : list string := map fst value_spectrum_keywords.

(** The [RMMModel] instance; [language_ai_nn] holds only the constant tables
    above. *)
Record RMMModel : Type := mkRMM {
  ecs : EndocannabinoidSystem;
  memories : gmap string Memory
}.

(** [RMMModel.__init__] *)
Definition RMMModel_init : RMMModel := mkRMM ECS_init ∅.

Abbreviation Py := (M string RMMModel).

(** [EndocannabinoidSystem.get_feedback_signal] *)
Definition get_feedback_signal (outcome : string) : Py string :=
  let* model := get_self in
  let e := ecs model in
  let base := baseline_modulation_strength e in
  if String.eqb outcome "inference_corrected" then
    put_self (mkRMM (mkECS base (base * 1.5)) (memories model));;
    ret "plasticity_enhanced"
  else if String.eqb outcome "dissonance_high" then
    put_self (mkRMM (mkECS base (base * 0.5)) (memories model));;
    ret "processing_needed"
  else
    put_self (mkRMM (mkECS base base) (memories model));;
    ret "neutral".

(** [EndocannabinoidSystem.apply_modulation] *)
Definition apply_modulation (memory : Memory) : Py Memory :=
  let* model := get_self in
  let cm := current_modulation (ecs model) in
  let* u := uniform (-0.1) 0.1 in
  let memory := set_strength memory (Qmax 0.1 (strength memory + cm * u)) in
  let* u := uniform (-0.05) 0.05 in
  let memory :=
    set_current_valence memory
      (Qmax (-1.0) (Qmin 1.0 (current_valence memory + cm * u))) in
  ret memory.

(** [sum(1 for word in kws if word in text)] *)
Definition keyword_count (kws : list string) (text : string) : nat :=
  List.length (List.filter (fun word => contains word text) kws).

(** The body of the loop of [ConceptualLanguageAI_NN.predict]. *)
Definition predict_principle (text principle : string)
    (scores : list (string * Q)) : Py (list (string * Q)) :=
  match dict_get value_spectrum_keywords principle with
  | None => raise (KeyError principle)
  | Some kws =>
      let sin_score := keyword_count (sin kws) text in
      let virtue_score := keyword_count (virtue kws) text in
      let* score :=
        if Nat.ltb 0 sin_score && Nat.eqb virtue_score 0 then
          uniform 0.7 1.0
        else if Nat.ltb 0 virtue_score && Nat.eqb sin_score 0 then
          uniform 0.0 0.3
        else if Nat.ltb 0 sin_score && Nat.ltb 0 virtue_score then
          uniform 0.3 0.7
        else
          uniform 0.35 0.65 in
      let* jitter := uniform (-0.05) 0.05 in
      ret (dict_set scores principle
             (round2 (Qmax 0.0 (Qmin 1.0 (score + jitter)))))
  end.

Fixpoint predict_loop (principles : list string) (text : string)
    (scores : list (string * Q)) : Py (list (string * Q)) :=
  match principles with
  | [] => ret scores
  | principle :: rest =>
      let* scores := predict_principle text principle scores in
      predict_loop rest text scores
  end.

(** [ConceptualLanguageAI_NN.predict] *)
Definition predict (text : string) : Py (list (string * Q)) :=
  let text := lower text in
  predict_loop value_principles text [].

(** [RMMModel.add_memory] *)
Definition add_memory (identifier content inference : string) (valence : Q)
  : Py unit :=
  let memory := Memory_init identifier content inference valence 1.0 in
  let* scores := predict inference in
  let memory := set_value_alignment_scores memory scores in
  let* model := get_self in
  put_self (mkRMM (ecs model) (<[identifier := memory]> (memories model))).

(** [RMMModel.reevaluate]; the mutated [memory] is returned next to the
    outcome. *)
Definition reevaluate (memory : Memory) : Py (string * Memory) :=
  let scores := value_alignment_scores memory in
  let issues :=
    map fst (List.filter (fun kv : string * Q => Qltb 0.75 (snd kv)) scores) in
  let trigger := negb (Nat.eqb (List.length issues) 0) in
  let* (outcome, memory) :=
    if trigger then
      let memory :=
        set_current_inference memory
          ("Improved perspective: " ++ content memory) in
      let* scores := predict (current_inference memory) in
      ret ("inference_corrected", set_value_alignment_scores memory scores)
    else
      ret ("no_change", memory) in
  let* signal := get_feedback_signal outcome in
  let* memory := apply_modulation memory in
  ret (outcome, memory).

(** [RMMModel.rewrite] *)
Definition rewrite (memory : Memory) (outcome : string) : Memory :=
  if String.eqb outcome "inference_corrected" then
    let memory := set_strength memory (strength memory * 1.1) in
    set_current_valence memory (Qmin 1.0 (current_valence memory + 0.1))
  else if String.eqb outcome "dissonance_high" then
    let memory := set_strength memory (strength memory * 0.8) in
    set_current_valence memory (Qmax (-1.0) (current_valence memory - 0.1))
  else memory.

(** [RMMModel.retain] *)
Definition retain (memory : Memory) : Memory := set_is_adaptive memory true.

Section RunCycle.

(** [pd.Series(xs).std()], from the pandas library. *)
Variable series_std : list Q -> Q.

(** [RMMModel.run_rmm_cycle] *)
Definition run_rmm_cycle (identifier : string) : Py unit :=
  let* model := get_self in
  match memories model !! identifier with
  | None => print ("Memory '" ++ identifier ++ "' not found.")
  | Some memory =>
      let memory :=
        set_reprocessing_count memory (reprocessing_count memory + 1) in
      let old_scores := value_alignment_scores memory in
      let* old_mean :=
        py_div (Qsum (map snd old_scores)) (List.length old_scores) in
      let old_std := series_std (map snd old_scores) in
      let* (outcome, memory) := reevaluate memory in
      let new_scores := value_alignment_scores memory in
      let* new_mean :=
        py_div (Qsum (map snd new_scores)) (List.length new_scores) in
      let new_std := series_std (map snd new_scores) in
      let memory := set_agreement_shift memory (old_mean - new_mean) in
      let memory := set_mischievous_shift memory (Qabs (new_std - old_std)) in
      let memory := rewrite memory outcome in
      let memory := retain memory in
      let* model := get_self in
      put_self (mkRMM (ecs model) (<[identifier := memory]> (memories model)))
  end.

End RunCycle.

End Code.

(** ** [Code3.py], first part: the keyword-and-chance engine *)
Module Code3.

Record Memory : Type := mkMemory {
  identifier : string;
  content : string;
  current_inference : string;
  initial_valence : Q;
  current_valence : Q;
  strength : Q;
  reprocessing_count : nat;
  is_adaptive : bool
}.

(** [Memory.__init__] *)
Definition Memory_init (identifier content initial_inference : string)
    (initial_valence strength : Q) : Memory :=
  mkMemory identifier content initial_inference initial_valence
           initial_valence strength 0 false.

Definition set_current_inference (m : Memory) (s : string) : Memory :=
  mkMemory (identifier m) (content m) s (initial_valence m)
    (current_valence m) (strength m) (reprocessing_count m) (is_adaptive m).
Definition set_current_valence (m : Memory) (v : Q) : Memory :=
  mkMemory (identifier m) (content m) (current_inference m)
    (initial_valence m) v (strength m) (reprocessing_count m) (is_adaptive m).
Definition set_strength (m : Memory) (v : Q) : Memory :=
  mkMemory (identifier m) (content m) (current_inference m)
    (initial_valence m) (current_valence m) v (reprocessing_count m)
    (is_adaptive m).
Definition set_reprocessing_count (m : Memory) (n : nat) : Memory :=
  mkMemory (identifier m) (content m) (current_inference m)
    (initial_valence m) (current_valence m) (strength m) n (is_adaptive m).
Definition set_is_adaptive (m : Memory) (b : bool) : Memory :=
  mkMemory (identifier m) (content m) (current_inference m)
    (initial_valence m) (current_valence m) (strength m)
    (reprocessing_count m) b.

(** The lines the program prints, one constructor per [print] statement,
    carrying the values interpolated into the line. *)
Inductive Line : Type :=
| Warning_already_exists (identifier : string)
    (* Warning: Memory '..' already exists. Overwriting. *)
| Added_new_memory (memory : Memory)
    (* Added new memory: .. *)
| Error_not_found (memory_id : string)
    (* Error: Memory '..' not found for reactivation. *)
| Reactivating (identifier : string) (count : nat)
    (* --- Reactivating Memory: '..' (Count: ..) --- *)
| Error_no_memory_reevaluation
    (* Error: No memory provided for re-evaluation. *)
| Reevaluating (identifier : string)
    (* --- Re-evaluating Memory: '..' --- *)
| Current_inference (inference : string)
    (* Current Inference: '..' *)
| Value_system_flags (potential_issues : list string)
    (* Value system flags: .., .. *)
| Inference_updated_values (inference : string)
    (* Inference successfully updated to: '..' based on values. *)
| Failed_correction_values
    (* Failed to fully correct inference against value system. Dissonance
       remains high. *)
| Minor_reevaluation
    (* No direct value system clash, but introspection still triggered minor
       re-evaluation. *)
| No_discrepancies_values
    (* No significant discrepancies or value clashes found during
       re-evaluation. *)
| ECS_feedback_signal (ecs_signal : string)
    (* ECS Feedback Signal: .. *)
| Error_no_memory_rewriting
    (* Error: No memory provided for rewriting. *)
| Rewriting (identifier : string)
    (* --- Rewriting Memory: '..' --- *)
| Successfully_rewritten (identifier : string) (strength valence : Q)
    (* Memory '..' successfully rewritten. New strength: .., Valence: .. *)
| Rewritten_with_dissonance (identifier : string) (strength valence : Q)
    (* Memory '..' rewritten with persistent dissonance. New strength: ..,
       Valence: .. *)
| Maintained (identifier : string)
    (* Memory '..' maintained without significant changes during
       rewriting. *)
| Error_no_memory_retention
    (* Error: No memory provided for retention. *)
| Retaining (identifier : string)
    (* --- Retaining Memory: '..' --- *)
| Now_retained (identifier : string) (memory : Memory)
    (* Memory '..' is now retained with current state: .. *)
| Starting_cycle (memory_id : string)
    (* --- Starting RMM Cycle for Memory: '..' --- *)
| Cycle_complete (memory_id : string)
    (* --- RMM Cycle Complete for Memory: '..' --- *)
| Cycle_aborted (memory_id : string)
    (* RMM Cycle aborted for '..' due to memory not found. *)
| Introspection_suggests (old_inference new_inference_candidate : string)
    (* Introspection suggests: old inference '..' might need updating to
       '..'. *)
| Inference_updated (inference : string)
    (* Inference successfully updated to: '..' *)
| Failed_correction
    (* Failed to fully correct inference. Dissonance remains high. *)
| No_discrepancies.
    (* No significant discrepancies found during re-evaluation. *)

Record EndocannabinoidSystem : Type := mkECS {
  baseline_modulation_strength : Q;
  current_modulation : Q
}.

(** [EndocannabinoidSystem.__init__] *)
Definition ECS_init : EndocannabinoidSystem := mkECS 0.1 0.1.

(** [EndocannabinoidSystem.get_feedback_signal], on the ECS object. *)
Definition ecs_get_feedback_signal (e : EndocannabinoidSystem)
    (re_evaluation_outcome : string)
  : string * EndocannabinoidSystem :=
  let base := baseline_modulation_strength e in
  if String.eqb re_evaluation_outcome "inference_corrected" then
    ("plasticity_enhanced", mkECS base (base * 1.5))
  else if String.eqb re_evaluation_outcome "dissonance_high" then
    ("processing_needed", mkECS base (base * 0.5))
  else
    ("neutral", mkECS base base).

(** [EndocannabinoidSystem.apply_modulation], given the ECS object's
    [current_modulation]. *)
Definition ecs_apply_modulation {Self} (cm : Q) (memory : Memory)
  : M Line Self Memory :=
  let* u := uniform (-0.1) 0.1 in
  let memory := set_strength memory (Qmax 0.1 (strength memory + cm * u)) in
  let* u := uniform (-0.05) 0.05 in
  let memory :=
    set_current_valence memory
      (Qmax (-1.0) (Qmin 1.0 (current_valence memory + cm * u))) in
  ret memory.

(** [RMMModel.rewrite_memory]; the mutated [memory] is returned. *)
Definition rewrite_memory {Self} (memory : option Memory)
    (re_evaluation_outcome : string) : M Line Self (option Memory) :=
  match memory with
  | None => print Error_no_memory_rewriting;; ret None
  | Some memory =>
      print (Rewriting (identifier memory));;
      if String.eqb re_evaluation_outcome "inference_corrected"
         || String.eqb re_evaluation_outcome "plasticity_enhanced" then
        let memory := set_strength memory (strength memory * 1.1) in
        let memory :=
          set_current_valence memory
            (Qmax (-1.0) (Qmin 1.0 (current_valence memory + 0.1))) in
        print (Successfully_rewritten (identifier memory) (strength memory)
                 (current_valence memory));;
        ret (Some memory)
      else if String.eqb re_evaluation_outcome "dissonance_high" then
        let memory := set_strength memory (strength memory * 0.8) in
        let memory :=
          set_current_valence memory
            (Qmax (-1.0) (Qmin 1.0 (current_valence memory - 0.1))) in
        print (Rewritten_with_dissonance (identifier memory) (strength memory)
                 (current_valence memory));;
        ret (Some memory)
      else
        print (Maintained (identifier memory));;
        ret (Some memory)
  end.

(** [RMMModel.retain_memory]; the mutated [memory] is returned. *)
Definition retain_memory {Self} (memory : option Memory)
  : M Line Self (option Memory) :=
  match memory with
  | None => print Error_no_memory_retention;; ret None
  | Some memory =>
      print (Retaining (identifier memory));;
      let memory := set_is_adaptive memory true in
      print (Now_retained (identifier memory) memory);;
      ret (Some memory)
  end.

Record RMMModel : Type := mkRMM {
  ecs : EndocannabinoidSystem;
  memories : gmap string Memory;
  value_system_principles : list string
}.

(** [RMMModel.__init__] *)
Definition RMMModel_init : RMMModel :=
  mkRMM ECS_init ∅ ["Greedy"; "Angry"; "Affiliational"].

Abbreviation Py := (M Line RMMModel).

Definition set_ecs (model : RMMModel) (e : EndocannabinoidSystem) : RMMModel :=
  mkRMM e (memories model) (value_system_principles model).
Definition set_memories (model : RMMModel) (ms : gmap string Memory)
  : RMMModel :=
  mkRMM (ecs model) ms (value_system_principles model).

(** [self.ecs.get_feedback_signal(outcome)] *)
Definition get_feedback_signal (re_evaluation_outcome : string) : Py string :=
  let* model := get_self in
  let (signal, e) :=
    ecs_get_feedback_signal (ecs model) re_evaluation_outcome in
  put_self (set_ecs model e);;
  ret signal.

(** [self.ecs.apply_modulation(memory)] *)
Definition apply_modulation (memory : Memory) : Py Memory :=
  let* model := get_self in
  ecs_apply_modulation (current_modulation (ecs model)) memory.

(** [RMMModel.add_memory] *)
Definition add_memory (identifier content initial_inference : string)
    (initial_valence : Q) : Py unit :=
  let* model := get_self in
  (if bool_decide (is_Some (memories model !! identifier)) then
     print (Warning_already_exists identifier)
   else ret tt);;
  let memory :=
    Memory_init identifier content initial_inference initial_valence 1.0 in
  put_self (set_memories model (<[identifier := memory]> (memories model)));;
  print (Added_new_memory memory).

(** [RMMModel.reactivate_memory] *)
Definition reactivate_memory (memory_id : string) : Py (option Memory) :=
  let* model := get_self in
  match memories model !! memory_id with
  | None => print (Error_not_found memory_id);; ret None
  | Some memory =>
      let memory :=
        set_reprocessing_count memory (reprocessing_count memory + 1) in
      put_self (set_memories model (<[memory_id := memory]> (memories model)));;
      print (Reactivating (identifier memory) (reprocessing_count memory));;
      ret (Some memory)
  end.

(** One of the three value checks of [reevaluate_memory]:
    [if principle in self.value_system_principles:
       if keyword in memory.current_inference.lower() and random.random() < 0.2:
         potential_issues.append(issue); needs_re_evaluation_trigger = True].
    The draw is taken only when the keyword occurs. *)
Definition value_check (principle keyword issue : string) (memory : Memory)
    (st : bool * list string) : Py (bool * list string) :=
  let* model := get_self in
  if existsb (String.eqb principle) (value_system_principles model) then
    if contains keyword (lower (current_inference memory)) then
      let* r := random in
      if Qltb r 0.2 then ret (true, (snd st ++ [issue])%list) else ret st
    else ret st
  else ret st.

(** [RMMModel.reevaluate_memory]; the mutated [memory] is returned next to
    the outcome. *)
Definition reevaluate_memory (memory : option Memory)
  : Py (string * option Memory) :=
  match memory with
  | None => print Error_no_memory_reevaluation;; ret ("no_memory", None)
  | Some memory =>
      print (Reevaluating (identifier memory));;
      print (Current_inference (current_inference memory));;
      let needs_re_evaluation_trigger := false in
      let potential_issues : list string := [] in
      let* st :=
        value_check "Greedy" "gain"
          "Inference might reflect excessive 'Greedy' value clash."
          memory (needs_re_evaluation_trigger, potential_issues) in
      let* st :=
        value_check "Angry" "upset"
          "Inference might be influenced by or lead to 'Angry' value clash."
          memory st in
      let* st :=
        value_check "Affiliational" "alone"
          ("Inference might clash with 'Affiliational' value "
             ++ "(e.g., promoting isolation).")
          memory st in
      let potential_issues := snd st in
      let* (outcome, memory) :=
        if negb (Nat.eqb (List.length potential_issues) 0) then
          print (Value_system_flags potential_issues);;
          let old_inference := current_inference memory in
          let new_inference_candidate :=
            "updated interpretation based on value system for "
              ++ content memory in
          let* r := random in
          if Qltb r 0.7 then
            let memory :=
              set_current_inference memory new_inference_candidate in
            print (Inference_updated_values (current_inference memory));;
            ret ("inference_corrected", memory)
          else
            print Failed_correction_values;;
            ret ("dissonance_high", memory)
        else
          let* r := random in
          if Qltb r 0.1 then
            print Minor_reevaluation;;
            ret ("no_change", memory)
          else
            print No_discrepancies_values;;
            ret ("no_change", memory) in
      let* ecs_signal := get_feedback_signal outcome in
      print (ECS_feedback_signal ecs_signal);;
      let* memory := apply_modulation memory in
      ret (outcome, Some memory)
  end.

(** The object passed through the stages is the one stored under
    [memory_id]: its final state is the entry's state. *)
Definition write_back (memory_id : string) (memory : option Memory) : Py unit :=
  match memory with
  | None => ret tt
  | Some memory =>
      let* model := get_self in
      put_self (set_memories model (<[memory_id := memory]> (memories model)))
  end.

(** [RMMModel.run_rmm_cycle] *)
Definition run_rmm_cycle (memory_id : string) : Py unit :=
  print (Starting_cycle memory_id);;
  let* memory := reactivate_memory memory_id in
  match memory with
  | Some _ =>
      let* (re_evaluation_outcome, memory) := reevaluate_memory memory in
      let* memory := rewrite_memory memory re_evaluation_outcome in
      let* memory := retain_memory memory in
      write_back memory_id memory;;
      print (Cycle_complete memory_id)
  | None => print (Cycle_aborted memory_id)
  end.

End Code3.

(** ** [Code3.py], second part ("code 4.py"): the pure-chance engine.
    Its [Memory], [EndocannabinoidSystem], [rewrite_memory] and
    [retain_memory] are textually those of the first part. *)
Module Code4.

Import Code3.

Record RMMModel : Type := mkRMM {
  ecs : EndocannabinoidSystem;
  memories : gmap string Memory
}.

(** [RMMModel.__init__] *)
Definition RMMModel_init : RMMModel := mkRMM ECS_init ∅.

Abbreviation Py := (M Line RMMModel).

(** [self.ecs.get_feedback_signal(outcome)] *)
Definition get_feedback_signal (re_evaluation_outcome : string) : Py string :=
  let* model := get_self in
  let (signal, e) :=
    ecs_get_feedback_signal (ecs model) re_evaluation_outcome in
  put_self (mkRMM e (memories model));;
  ret signal.

(** [self.ecs.apply_modulation(memory)] *)
Definition apply_modulation (memory : Memory) : Py Memory :=
  let* model := get_self in
  ecs_apply_modulation (current_modulation (ecs model)) memory.

(** [RMMModel.add_memory] *)
Definition add_memory (identifier content initial_inference : string)
    (initial_valence : Q) : Py unit :=
  let* model := get_self in
  (if bool_decide (is_Some (memories model !! identifier)) then
     print (Warning_already_exists identifier)
   else ret tt);;
  let memory :=
    Memory_init identifier content initial_inference initial_valence 1.0 in
  put_self (mkRMM (ecs model) (<[identifier := memory]> (memories model)));;
  print (Added_new_memory memory).

(** [RMMModel.reactivate_memory] *)
Definition reactivate_memory (memory_id : string) : Py (option Memory) :=
  let* model := get_self in
  match memories model !! memory_id with
  | None => print (Error_not_found memory_id);; ret None
  | Some memory =>
      let memory :=
        set_reprocessing_count memory (reprocessing_count memory + 1) in
      put_self (mkRMM (ecs model) (<[memory_id := memory]> (memories model)));;
      print (Reactivating (Code3.identifier memory)
               (reprocessing_count memory));;
      ret (Some memory)
  end.

(** [RMMModel.reevaluate_memory]; the mutated [memory] is returned next to
    the outcome. *)
Definition reevaluate_memory (memory : option Memory)
  : Py (string * option Memory) :=
  match memory with
  | None => print Error_no_memory_reevaluation;; ret ("no_memory", None)
  | Some memory =>
      print (Reevaluating (Code3.identifier memory));;
      print (Current_inference (current_inference memory));;
      let outcome := "no_change" in
      let* r := random in
      let* (outcome, memory) :=
        if Qltb r 0.3 then
          let old_inference := current_inference memory in
          let new_inference_candidate :=
            "updated interpretation for " ++ content memory in
          print (Introspection_suggests old_inference new_inference_candidate);;
          let* r := random in
          if Qltb r 0.7 then
            let memory :=
              set_current_inference memory new_inference_candidate in
            print (Inference_updated (current_inference memory));;
            ret ("inference_corrected", memory)
          else
            print Failed_correction;;
            ret ("dissonance_high", memory)
        else
          print No_discrepancies;;
          ret (outcome, memory) in
      let* ecs_signal := get_feedback_signal outcome in
      print (ECS_feedback_signal ecs_signal);;
      let* memory := apply_modulation memory in
      ret (outcome, Some memory)
  end.

(** The object passed through the stages is the one stored under
    [memory_id]: its final state is the entry's state. *)
Definition write_back (memory_id : string) (memory : option Memory) : Py unit :=
  match memory with
  | None => ret tt
  | Some memory =>
      let* model := get_self in
      put_self (mkRMM (ecs model) (<[memory_id := memory]> (memories model)))
  end.

(** [RMMModel.run_rmm_cycle] *)
Definition run_rmm_cycle (memory_id : string) : Py unit :=
  print (Starting_cycle memory_id);;
  let* memory := reactivate_memory memory_id in
  match memory with
  | Some _ =>
      let* (re_evaluation_outcome, memory) := reevaluate_memory memory in
      let* memory := rewrite_memory memory re_evaluation_outcome in
      let* memory := retain_memory memory in
      write_back memory_id memory;;
      print (Cycle_complete memory_id)
  | None => print (Cycle_aborted memory_id)
  end.

End Code4.

(** * Definitions used to state the properties *)

(** A score as [predict] stores it: in [0, 1] and a multiple of 1/100. *)
Definition two_decimals (v : Q) : Prop := exists k : Z, v == inject_Z k / 100.

(** [advance n p]: the state [p] after [n] more draws and nothing else. *)
Definition advance {Out Self} (n : nat) (p : Process Out Self)
  : Process Out Self :=
  mkProcess (mkRandom (draws (rng p)) (pos (rng p) + n)) (stdout p) (self p).

(** The draw taken [i] calls of [random.random()] after state [p]. *)
Definition draw {Out Self} (p : Process Out Self) (i : nat) : Q :=
  draws (rng p) (pos (rng p) + i).

Definition good_draws {Out Self} (p : Process Out Self) : Prop :=
  forall n, 0 <= draws (rng p) n <= 1.

(** [returns c p post]: run from [p], the computation [c] returns (raises
    nothing) and its result and final state satisfy [post]. *)
Definition returns {Out Self A} (c : M Out Self A) (p : Process Out Self)
    (post : A -> Process Out Self -> Prop) : Prop :=
  exists a p', c p = Ok a p' /\ post a p'.

(** [p'] differs from [p] at most in the cursor of the draws and in what was
    printed: a later state of the same random stream. *)
Definition later_draws {Out Self} (p p' : Process Out Self) : Prop :=
  draws (rng p') = draws (rng p).

(** Clamping, as the data model has it: strength to at least 0.1, valence to
    [-1, 1]. *)
Definition clamp_strength (x : Q) : Q := Qmax 0.1 x.
Definition clamp_valence (x : Q) : Q := Qmax (-1.0) (Qmin 1.0 x).

(** ** The value scorer of [Code.py], draw by draw *)
Module CodeSpec.
Import Code.

(** The score [predict] stores for a principle with keyword lists [kws],
    from the band draw [u1] and the jitter draw [u2]. *)
Definition principle_score (kws : Spectrum) (text : string) (u1 u2 : Q) : Q :=
  let sin_score := keyword_count (sin kws) text in
  let virtue_score := keyword_count (virtue kws) text in
  let score :=
    if Nat.ltb 0 sin_score && Nat.eqb virtue_score 0 then
      0.7 + (1.0 - 0.7) * u1
    else if Nat.ltb 0 virtue_score && Nat.eqb sin_score 0 then
      0.0 + (0.3 - 0.0) * u1
    else if Nat.ltb 0 sin_score && Nat.ltb 0 virtue_score then
      0.3 + (0.7 - 0.3) * u1
    else
      0.35 + (0.65 - 0.35) * u1 in
  round2 (Qmax 0.0 (Qmin 1.0 (score + (-0.05 + (0.05 - -0.05) * u2)))).

(** The scores [predict] appends for the table entries [entries], reading
    the draws from offset [i] on. *)
Fixpoint scored (entries : list (string * Spectrum)) (text : string)
    (ds : nat -> Q) (i : nat) : list (string * Q) :=
  match entries with
  | [] => []
  | (principle, kws) :: rest =>
      (principle, principle_score kws text (ds i) (ds (i + 1)%nat))
        :: scored rest text ds (i + 2)
  end.

(** Some stored score exceeds the trigger threshold. *)
Definition flagged (scores : list (string * Q)) : Prop :=
  exists principle v, In (principle, v) scores /\ 0.75 < v.

(** The memory after the correction branch of [reevaluate], with the scores
    read from the draws at offset [i] on. *)
Definition corrected (m : Memory) (ds : nat -> Q) (i : nat) : Memory :=
  let inference := "Improved perspective: " ++ content m in
  set_value_alignment_scores (set_current_inference m inference)
    (scored value_spectrum_keywords (lower inference) ds i).

(** The memory after [apply_modulation] at modulation [cm] with draws [u1]
    (strength) and [u2] (valence). *)
Definition modulated (cm u1 u2 : Q) (m : Memory) : Memory :=
  set_current_valence
    (set_strength m (Qmax 0.1 (strength m + cm * (-0.1 + (0.1 - -0.1) * u1))))
    (Qmax (-1.0)
       (Qmin 1.0 (current_valence m + cm * (-0.05 + (0.05 - -0.05) * u2)))).

(** The state [p] with the ECS object's [current_modulation] set to [cm]. *)
Definition with_modulation (cm : Q) (p : Process string RMMModel)
  : Process string RMMModel :=
  mkProcess (rng p) (stdout p)
    (mkRMM (mkECS (baseline_modulation_strength (ecs (self p))) cm)
           (memories (self p))).

(** The state [p] with [m] stored under [identifier]. *)
Definition with_memory (identifier : string) (m : Memory)
    (p : Process string RMMModel) : Process string RMMModel :=
  mkProcess (rng p) (stdout p)
    (mkRMM (ecs (self p)) (<[identifier := m]> (memories (self p)))).

(** [sum(scores.values()) / len(scores)] *)
Definition mean (scores : list (string * Q)) : Q :=
  Qsum (map snd scores) / inject_Z (Z.of_nat (List.length scores)).

(** The bounds the data model asks of a memory. *)
Definition in_range (m : Memory) : Prop :=
  0.1 <= strength m
  /\ -1.0 <= current_valence m <= 1.0
  /\ forall principle v,
       In (principle, v) (value_alignment_scores m) -> 0 <= v <= 1.

(** [rewrite] with its [dissonance_high] branch deleted. *)
Definition rewrite_without_dissonance (memory : Memory) (outcome : string)
  : Memory :=
  if String.eqb outcome "inference_corrected" then
    let memory := set_strength memory (strength memory * 1.1) in
    set_current_valence memory (Qmin 1.0 (current_valence memory + 0.1))
  else memory.

(** The memory as [run_rmm_cycle] first mutates it. *)
Definition reactivated (m : Memory) : Memory :=
  set_reprocessing_count m (reprocessing_count m + 1).

(** The memory at the end of a cycle that started with the scores [old] and
    whose re-evaluation returned [outcome] and left the memory as [m]:
    diagnostics, rewrite, retain. *)
Definition completed (series_std : list Q -> Q) (old : list (string * Q))
    (outcome : string) (m : Memory) : Memory :=
  let new := value_alignment_scores m in
  let m := set_agreement_shift m (mean old - mean new) in
  let m :=
    set_mischievous_shift m
      (Qabs (series_std (map snd new) - series_std (map snd old))) in
  retain (rewrite m outcome).

(** The state [p] after printing [line]. *)
Definition printed (line : string) (p : Process string RMMModel)
  : Process string RMMModel :=
  mkProcess (rng p) (stdout p ++ [line]) (self p).

(** The memory [add_memory] stores, with the scores read from the draws at
    offset [i] on. *)
Definition created (identifier content inference : string) (valence : Q)
    (ds : nat -> Q) (i : nat) : Memory :=
  set_value_alignment_scores
    (Memory_init identifier content inference valence 1.0)
    (scored value_spectrum_keywords (lower inference) ds i).

(** [run_rmm_cycle] calling [rewrite_without_dissonance] for [rewrite]. *)
Definition run_rmm_cycle_without_dissonance (series_std : list Q -> Q)
    (identifier : string) : M string RMMModel unit :=
  let* model := get_self in
  match memories model !! identifier with
  | None => print ("Memory '" ++ identifier ++ "' not found.")
  | Some memory =>
      let memory :=
        set_reprocessing_count memory (reprocessing_count memory + 1) in
      let old_scores := value_alignment_scores memory in
      let* old_mean :=
        py_div (Qsum (map snd old_scores)) (List.length old_scores) in
      let old_std := series_std (map snd old_scores) in
      let* (outcome, memory) := reevaluate memory in
      let new_scores := value_alignment_scores memory in
      let* new_mean :=
        py_div (Qsum (map snd new_scores)) (List.length new_scores) in
      let new_std := series_std (map snd new_scores) in
      let memory := set_agreement_shift memory (old_mean - new_mean) in
      let memory := set_mischievous_shift memory (Qabs (new_std - old_std)) in
      let memory := rewrite_without_dissonance memory outcome in
      let memory := retain memory in
      let* model := get_self in
      put_self (mkRMM (ecs model) (<[identifier := memory]> (memories model)))
  end.

(** The threshold policy: the outcome is [inference_corrected] exactly when
    some score of [scores] is flagged, and [no_change] otherwise. *)
Definition threshold_policy (scores : list (string * Q)) (outcome : string)
  : Prop :=
  (outcome = "inference_corrected" <-> flagged scores)
  /\ (~ flagged scores -> outcome = "no_change").

(** The stored scores of [m] are what [predict] returns for the current
    inference of [m] when it reads the draws [ds] from some offset on. *)
Definition scored_by (ds : nat -> Q) (m : Memory) : Prop :=
  exists i,
    value_alignment_scores m
    = scored value_spectrum_keywords (lower (current_inference m)) ds i.

(** The states the program reaches from a fresh model by its two
    operations. *)
Inductive reachable (series_std : list Q -> Q)
  : Process string RMMModel -> Prop :=
| reachable_fresh (ds : nat -> Q) :
    reachable series_std (mkProcess (mkRandom ds 0) [] RMMModel_init)
| reachable_add (p p' : Process string RMMModel)
    (identifier content inference : string) (valence : Q) :
    reachable series_std p ->
    add_memory identifier content inference valence p = Ok tt p' ->
    reachable series_std p'
| reachable_cycle (p p' : Process string RMMModel) (identifier : string) :
    reachable series_std p ->
    run_rmm_cycle series_std identifier p = Ok tt p' ->
    reachable series_std p'.

End CodeSpec.

(** ** The stages of [Code3.py] as functions of the memory *)
Module Code3Spec.
Import Code3.

(** The memory as [reactivate_memory] mutates it. *)
Definition reactivated (m : Memory) : Memory :=
  set_reprocessing_count m (reprocessing_count m + 1).

(** The memory after [rewrite_memory] with outcome [outcome]. *)
Definition rewritten (m : Memory) (outcome : string) : Memory :=
  if String.eqb outcome "inference_corrected"
     || String.eqb outcome "plasticity_enhanced" then
    set_current_valence (set_strength m (strength m * 1.1))
      (Qmax (-1.0) (Qmin 1.0 (current_valence m + 0.1)))
  else if String.eqb outcome "dissonance_high" then
    set_current_valence (set_strength m (strength m * 0.8))
      (Qmax (-1.0) (Qmin 1.0 (current_valence m - 0.1)))
  else m.

(** What [rewrite_memory] prints. *)
Definition rewrite_lines (m : Memory) (outcome : string) : list Line :=
  let m' := rewritten m outcome in
  [ Rewriting (identifier m);
    if String.eqb outcome "inference_corrected"
       || String.eqb outcome "plasticity_enhanced" then
      Successfully_rewritten (identifier m) (strength m') (current_valence m')
    else if String.eqb outcome "dissonance_high" then
      Rewritten_with_dissonance (identifier m) (strength m')
        (current_valence m')
    else Maintained (identifier m) ].

(** The memory after [retain_memory]. *)
Definition retained (m : Memory) : Memory := set_is_adaptive m true.

(** The state [p] after printing [lines]. *)
Definition printed {Self} (lines : list Line) (p : Process Line Self)
  : Process Line Self :=
  mkProcess (rng p) (stdout p ++ lines) (self p).

(** What the stages keep of a memory: everything but inference, valence and
    strength. *)
Definition same_record (m m' : Memory) : Prop :=
  identifier m' = identifier m
  /\ content m' = content m
  /\ initial_valence m' = initial_valence m
  /\ reprocessing_count m' = reprocessing_count m
  /\ is_adaptive m' = is_adaptive m.

(** What [reevaluate_memory] guarantees of the memory [m'] it leaves and of
    the outcome it returns, for the memory [m] it was given. *)
Definition reevaluated (prefix : string) (m : Memory) (outcome : string)
    (m' : Memory) : Prop :=
  same_record m m'
  /\ 0.1 <= strength m'
  /\ -1.0 <= current_valence m' <= 1.0
  /\ ((outcome = "inference_corrected"
       /\ current_inference m' = prefix ++ content m)
      \/ ((outcome = "dissonance_high" \/ outcome = "no_change")
          /\ current_inference m' = current_inference m)).

(** [keyword] occurs in the lower-cased inference of [m]. *)
Definition mentions (keyword : string) (m : Memory) : bool :=
  contains keyword (lower (current_inference m)).

(** The memory after [apply_modulation] at modulation [cm] with draws [u1]
    (strength) and [u2] (valence). *)
Definition modulated (cm u1 u2 : Q) (m : Memory) : Memory :=
  set_current_valence
    (set_strength m (Qmax 0.1 (strength m + cm * (-0.1 + (0.1 - -0.1) * u1))))
    (Qmax (-1.0)
       (Qmin 1.0 (current_valence m + cm * (-0.05 + (0.05 - -0.05) * u2)))).

(** A state reached from [p] by drawing and printing only. *)
Definition drew_and_printed (p p' : Process Line RMMModel) : Prop :=
  self p' = self p /\ later_draws p p'.

(** The prefix of the corrected inference. *)
Definition value_prefix : string :=
  "updated interpretation based on value system for ".

(** What [add_memory] prints when it stores [m] under [identifier], given
    whether the identifier was already present. *)
Definition add_lines (present : bool) (identifier : string) (m : Memory)
  : list Line :=
  (if present then [Warning_already_exists identifier] else [])
    ++ [Added_new_memory m].

End Code3Spec.

(** The prefix of the corrected inference in the second part of [Code3.py]. *)
Definition plain_prefix : string := "updated interpretation for ".

(** ** The three engines of the repository, behind one interface *)

(** What the properties of the cycle need of an [RMMModel] class: its
    collection, the two operations, what a run prints when the identifier is
    absent, and what a stored memory needs for a run to complete. *)
Record Engine : Type := mkEngine {
  Out : Type;
  Model : Type;
  Mem : Type;
  collection : Model -> gmap string Mem;
  count_of : Mem -> nat;
  adaptive_of : Mem -> bool;
  add : string -> string -> string -> Q -> M Out Model unit;
  run_cycle : string -> M Out Model unit;
  not_found_report : string -> list Out;
  runnable : Mem -> Prop
}.

(** [Code.py]; [sum(scores.values()) / len(scores)] raises on a memory
    without scores. *)
Definition code_engine (series_std : list Q -> Q) : Engine :=
  mkEngine string Code.RMMModel Code.Memory
    Code.memories Code.reprocessing_count Code.is_adaptive
    Code.add_memory (Code.run_rmm_cycle series_std)
    (fun identifier => ["Memory '" ++ identifier ++ "' not found."])
    (fun m => Code.value_alignment_scores m <> []).

(** [Code3.py], first part. *)
Definition code3_engine : Engine :=
  mkEngine Code3.Line Code3.RMMModel Code3.Memory
    Code3.memories Code3.reprocessing_count Code3.is_adaptive
    Code3.add_memory Code3.run_rmm_cycle
    (fun memory_id =>
       [Code3.Starting_cycle memory_id; Code3.Error_not_found memory_id;
        Code3.Cycle_aborted memory_id])
    (fun _ => True).

(** [Code3.py], second part. *)
Definition code4_engine : Engine :=
  mkEngine Code3.Line Code4.RMMModel Code3.Memory
    Code4.memories Code3.reprocessing_count Code3.is_adaptive
    Code4.add_memory Code4.run_rmm_cycle
    (fun memory_id =>
       [Code3.Starting_cycle memory_id; Code3.Error_not_found memory_id;
        Code3.Cycle_aborted memory_id])
    (fun _ => True).

Inductive engine : Engine -> Prop :=
| engine_code (series_std : list Q -> Q) : engine (code_engine series_std)
| engine_code3 : engine code3_engine
| engine_code4 : engine code4_engine.

(** ** Sample inputs *)

(** Every draw of [random.random()] is one half. *)
Definition half_draws : nat -> Q := fun _ => 1 # 2.

(** A stand-in for [pd.Series(xs).std()] where a run is evaluated: the
    spread [max(xs) - min(xs)]. *)
Definition range_spread (xs : list Q) : Q :=
  match xs with
  | [] => 0
  | x :: rest => fold_left Qmax rest x - fold_left Qmin rest x
  end.

(** [Code.py] right after [RMMModel()]. *)
Definition code_fresh : Process string Code.RMMModel :=
  mkProcess (mkRandom half_draws 0) [] Code.RMMModel_init.

(** The memory [add_memory("m1", "He brags.", "I am boastful")] stores when
    every draw is one half. *)
Definition boastful : Code.Memory :=
  Code.mkMemory "m1" "He brags." "I am boastful" 0.0 0.0 1.0 0 false
    [("Pride", 0.85); ("Envy", 0.50); ("Gluttony", 0.50); ("Lust", 0.50);
     ("Anger", 0.50); ("Greed", 0.50); ("Sloth", 0.50)] 0.0 0.0.

(** [Code.py] after that [add_memory]. *)
Definition code_sample : Process string Code.RMMModel :=
  mkProcess (mkRandom half_draws 14) []
    (Code.mkRMM Code.ECS_init {[ "m1" := boastful ]}).

(** [Code.py] after [run_rmm_cycle("m1")] from there: Pride is flagged, the
    inference is corrected and rescored, the ECS is at 0.15. *)
Definition code_sample_cycled : Process string Code.RMMModel :=
  CodeSpec.with_memory "m1"
    (CodeSpec.completed range_spread (Code.value_alignment_scores boastful)
       "inference_corrected"
       (CodeSpec.modulated (0.1 * 1.5) (1 # 2) (1 # 2)
          (CodeSpec.corrected (CodeSpec.reactivated boastful) half_draws 14)))
    (CodeSpec.with_modulation (0.1 * 1.5) (advance 16 code_sample)).

(** Draws that make every cycle of [Code3.py] on an inference mentioning
    "gain" end in dissonance: the value check fires (0.1 < 0.2), the
    correction fails (0.9 >= 0.7), and the two modulation draws are neutral. *)
Definition dissonant_draws (n : nat) : Q :=
  match (n mod 4)%nat with
  | 0%nat => 0.1
  | 1%nat => 0.9
  | _ => 0.5
  end.

(** The memory [add_memory("m1", "Lost the bet.", "Nothing to gain here.",
    -0.5)] stores in [Code3.py]. *)
Definition gambler : Code3.Memory :=
  Code3.Memory_init "m1" "Lost the bet." "Nothing to gain here." (-0.5) 1.0.

(** [Code3.py] right after [RMMModel()], with those draws ahead. *)
Definition code3_dissonant_fresh : Process Code3.Line Code3.RMMModel :=
  mkProcess (mkRandom dissonant_draws 0) [] Code3.RMMModel_init.

(** [Code3.py] after that [add_memory], printing left out. *)
Definition code3_sample : Process Code3.Line Code3.RMMModel :=
  mkProcess (mkRandom dissonant_draws 0) []
    (Code3.mkRMM Code3.ECS_init {[ "m1" := gambler ]}
       ["Greedy"; "Angry"; "Affiliational"]).

(** [for _ in range(n): rmm.run_rmm_cycle(memory_id)] on [Code3.py]. *)
Fixpoint code3_cycles (n : nat) (memory_id : string)
  : M Code3.Line Code3.RMMModel unit :=
  match n with
  | O => ret tt
  | S n' => Code3.run_rmm_cycle memory_id;; code3_cycles n' memory_id
  end.

(** A session of [Code3.py]: one memory added, then eleven cycles on it. *)
Definition code3_session : M Code3.Line Code3.RMMModel unit :=
  Code3.add_memory "m1" "Lost the bet." "Nothing to gain here." (-0.5);;
  code3_cycles 11 "m1".

(** The second part of [Code3.py] with the same memory stored. *)
Definition code4_sample : Process Code3.Line Code4.RMMModel :=
  mkProcess (mkRandom dissonant_draws 0) []
    (Code4.mkRMM Code3.ECS_init {[ "m1" := gambler ]}).

(** [Code3.py] right after [RMMModel()], first and second part. *)
Definition code3_fresh : Process Code3.Line Code3.RMMModel :=
  mkProcess (mkRandom half_draws 0) [] Code3.RMMModel_init.

Definition code4_fresh : Process Code3.Line Code4.RMMModel :=
  mkProcess (mkRandom half_draws 0) [] Code4.RMMModel_init.

(** ** Definitions for the further properties *)

(** [for identifier in ids: rmm.run_rmm_cycle(identifier)]: a caller running
    the cycle on one identifier after the other. *)
Fixpoint run_cycles (E : Engine) (ids : list string)
  : M (Out E) (Model E) unit :=
  match ids with
  | [] => ret tt
  | id :: rest => run_cycle E id;; run_cycles E rest
  end.

(** How often [id] is cycled by [run_cycles E ids]. *)
Definition occurrences (id : string) (ids : list string) : nat :=
  List.length (List.filter (String.eqb id) ids).

Module CodeInv.
Import Code CodeSpec.

(** What every memory stored under [key] satisfies in a reachable state of
    [Code.py]. *)
Definition stored_ok (ds : nat -> Q) (key : string) (m : Memory) : Prop :=
  identifier m = key
  /\ 0.1 <= strength m
  /\ scored_by ds m
  /\ (is_adaptive m = true <-> (1 <= reprocessing_count m)%nat)
  /\ ((1 <= reprocessing_count m)%nat \/ -1.0 <= initial_valence m <= 1.0 ->
      -1.0 <= current_valence m <= 1.0).

(** What the ECS object satisfies in a reachable state of [Code.py]. *)
Definition ecs_ok (e : EndocannabinoidSystem) : Prop :=
  baseline_modulation_strength e = 0.1
  /\ (current_modulation e == 0.1 \/ current_modulation e == 0.15).

(** No principle has a negative-indicator keyword in [text] without a
    positive-indicator keyword beside it. *)
Definition no_unopposed_sin (text : string) : Prop :=
  forall principle kws,
    In (principle, kws) value_spectrum_keywords ->
    keyword_count (sin kws) text = 0%nat
    \/ (0 < keyword_count (virtue kws) text)%nat.

End CodeInv.

(** The inference of a memory of [Code3.py] mentions none of the keywords of
    the three value checks. *)
Definition quiet (m : Code3.Memory) : Prop :=
  Code3Spec.mentions "gain" m = false
  /\ Code3Spec.mentions "upset" m = false
  /\ Code3Spec.mentions "alone" m = false.

(** ** Sample inputs for the further properties *)

(** The memory [add_memory("school_nerves", "First day at school, felt
    nervous.", "School makes people anxious.", -0.5)] of the test block of
    [Code.py] stores when every draw is one half: no keyword occurs. *)
Definition school : Code.Memory :=
  Code.mkMemory "school_nerves" "First day at school, felt nervous."
    "School makes people anxious." (-0.5) (-0.5) 1.0 0 false
    [("Pride", 0.50); ("Envy", 0.50); ("Gluttony", 0.50); ("Lust", 0.50);
     ("Anger", 0.50); ("Greed", 0.50); ("Sloth", 0.50)] 0.0 0.0.

(** [Code.py] after that [add_memory] on a fresh model. *)
Definition code_school : Process string Code.RMMModel :=
  mkProcess (mkRandom half_draws 14) []
    (Code.mkRMM Code.ECS_init {[ "school_nerves" := school ]}).

(** The memory [add_memory("bike_fall", "Fell off bike, scraped knee.",
    "Bikes are dangerous.", -0.8)] of the example of [Code3.py] stores. *)
Definition bike : Code3.Memory :=
  Code3.Memory_init "bike_fall" "Fell off bike, scraped knee."
    "Bikes are dangerous." (-0.8) 1.0.

(** [Code3.py], first and second part, with that memory stored. *)
Definition code3_bike : Process Code3.Line Code3.RMMModel :=
  mkProcess (mkRandom half_draws 0) []
    (Code3.mkRMM Code3.ECS_init {[ "bike_fall" := bike ]}
       ["Greedy"; "Angry"; "Affiliational"]).

(** * Verification *)

(** ** The Python prelude on examples *)

Example contains_ex1 : contains "boast" "he is boastful" = true.
Proof. reflexivity. Qed.
Example contains_ex2 : contains "modest" "he is boastful" = false.
Proof. reflexivity. Qed.
Example lower_ex : lower "I am BOASTful." = "i am boastful.".
Proof. reflexivity. Qed.
Example round2_ex1 : round2 (127 # 200) == 16 # 25.   (* 0.635 -> 0.64 *)
Proof. reflexivity. Qed.
Example round2_ex2 : round2 (125 # 200) == 31 # 50.   (* 0.625 -> 0.62 *)
Proof. reflexivity. Qed.
Example round2_ex3 : round2 (-(1 # 300)) == 0.
Proof. reflexivity. Qed.

(** ** Rounding, clamping and the bands of [random.uniform] *)

Lemma round_half_even_ge (k : Z) (x : Q) :
  inject_Z k <= x -> (k <= round_half_even x)%Z.
Proof.
  destruct x as [n d]. unfold Qle, round_half_even. simpl. intros H.
  assert (Hq : (k <= n / Z.pos d)%Z) by (apply Z.div_le_lower_bound; lia).
  destruct (2 * (n mod Z.pos d) ?= Z.pos d)%Z; try lia.
  destruct (Z.even (n / Z.pos d)); lia.
Qed.

Lemma round_half_even_le (k : Z) (x : Q) :
  x <= inject_Z k -> (round_half_even x <= k)%Z.
Proof.
  destruct x as [n d]. unfold Qle, round_half_even. simpl. intros H.
  pose proof (Z.div_mod n (Z.pos d) ltac:(lia)) as Hdm.
  pose proof (Z.mod_pos_bound n (Z.pos d) ltac:(lia)) as Hr.
  assert (Hq : (n / Z.pos d <= k)%Z).
  { apply Z.lt_succ_r. apply Z.div_lt_upper_bound; lia. }
  assert (Hs : (0 < n mod Z.pos d -> n / Z.pos d + 1 <= k)%Z) by nia.
  destruct (2 * (n mod Z.pos d) ?= Z.pos d)%Z eqn:E.
  - apply Z.compare_eq in E. destruct (Z.even (n / Z.pos d)); lia.
  - lia.
  - apply Z.compare_gt_iff in E. lia.
Qed.

Lemma round2_ge (k : Z) (x : Q) :
  inject_Z k / 100 <= x -> inject_Z k / 100 <= round2 x.
Proof.
  intros H. unfold round2.
  assert (Hk : inject_Z k <= x * 100).
  { assert (E : inject_Z k == inject_Z k / 100 * 100) by field.
    revert E H. generalize (inject_Z k / 100). intros y E H. lra. }
  apply round_half_even_ge in Hk.
  rewrite Zle_Qle in Hk. apply Qmult_le_r with (z := 100); [reflexivity|].
  field_simplify. lra.
Qed.

Lemma round2_le (k : Z) (x : Q) :
  x <= inject_Z k / 100 -> round2 x <= inject_Z k / 100.
Proof.
  intros H. unfold round2.
  assert (Hk : x * 100 <= inject_Z k).
  { assert (E : inject_Z k == inject_Z k / 100 * 100) by field.
    revert E H. generalize (inject_Z k / 100). intros y E H. lra. }
  apply round_half_even_le in Hk.
  rewrite Zle_Qle in Hk. apply Qmult_le_r with (z := 100); [reflexivity|].
  field_simplify. lra.
Qed.

Lemma round2_two_decimals (x : Q) : two_decimals (round2 x).
Proof. exists (round_half_even (x * 100)). reflexivity. Qed.

Lemma round2_unit (x : Q) : 0 <= x <= 1 -> 0 <= round2 x <= 1.
Proof.
  intros [H0 H1]. split.
  - apply Qle_trans with (inject_Z 0 / 100); [unfold Qle; simpl; lia|].
    apply round2_ge. apply Qle_trans with 0; [unfold Qle; simpl; lia|exact H0].
  - apply Qle_trans with (inject_Z 100 / 100); [|unfold Qle; simpl; lia].
    apply round2_le. apply Qle_trans with 1; [exact H1|unfold Qle; simpl; lia].
Qed.

Lemma clamp_unit (x : Q) : 0 <= Qmax 0.0 (Qmin 1.0 x) <= 1.
Proof.
  split.
  - pose proof (Q.le_max_l 0.0 (Qmin 1.0 x)). lra.
  - apply Q.max_lub; [lra|]. pose proof (Q.le_min_l 1.0 x). lra.
Qed.

Lemma clamp_unit_ge (c x : Q) : c <= 1 -> c <= x -> c <= Qmax 0.0 (Qmin 1.0 x).
Proof.
  intros Hc Hx. apply Qle_trans with (Qmin 1.0 x); [|apply Q.le_max_r].
  apply Q.min_glb; lra.
Qed.

Lemma uniform_band (a b u : Q) :
  a <= b -> 0 <= u <= 1 -> a <= a + (b - a) * u <= b.
Proof. intros Hab [H0 H1]. split; nra. Qed.

(** ** Runs of the state-and-exception monad *)

Lemma advance_advance {Out Self} (n k : nat) (p : Process Out Self) :
  advance k (advance n p) = advance (n + k) p.
Proof. unfold advance. simpl. rewrite Nat.add_assoc. reflexivity. Qed.

Lemma advance_0 {Out Self} (p : Process Out Self) : advance 0 p = p.
Proof.
  destruct p as [[ds i] out s]. unfold advance. simpl.
  rewrite Nat.add_0_r. reflexivity.
Qed.

Lemma draw_advance {Out Self} (n i : nat) (p : Process Out Self) :
  draw (advance n p) i = draw p (n + i).
Proof. unfold draw, advance. simpl. rewrite Nat.add_assoc. reflexivity. Qed.

Lemma random_eq {Out Self} (p : Process Out Self) :
  random p = Ok (draw p 0) (advance 1 p).
Proof.
  unfold random, draw, advance.
  rewrite Nat.add_0_r, Nat.add_1_r. reflexivity.
Qed.

Lemma uniform_eq {Out Self} (a b : Q) (p : Process Out Self) :
  uniform a b p = Ok (a + (b - a) * draw p 0) (advance 1 p).
Proof. unfold uniform, bind. rewrite random_eq. reflexivity. Qed.

Lemma bind_Ok {Out Self A B} (c : M Out Self A) (k : A -> M Out Self B)
    (p p' : Process Out Self) (a : A) :
  c p = Ok a p' -> bind c k p = k a p'.
Proof. intros H. unfold bind. rewrite H. reflexivity. Qed.

Lemma returns_ret {Out Self A} (a : A) (p : Process Out Self)
    (post : A -> Process Out Self -> Prop) :
  post a p -> returns (ret a) p post.
Proof. intros H. exists a, p. split; [reflexivity|exact H]. Qed.

Lemma returns_bind {Out Self A B} (c : M Out Self A) (k : A -> M Out Self B)
    (p : Process Out Self) (post : B -> Process Out Self -> Prop) :
  returns c p (fun a p' => returns (k a) p' post) ->
  returns (bind c k) p post.
Proof.
  intros (a & p' & Hc & b & p'' & Hk & Hpost).
  exists b, p''. split; [|exact Hpost].
  rewrite (bind_Ok c k p p' a Hc). exact Hk.
Qed.

Lemma returns_mono {Out Self A} (c : M Out Self A) (p : Process Out Self)
    (post post' : A -> Process Out Self -> Prop) :
  returns c p post ->
  (forall a p', post a p' -> post' a p') ->
  returns c p post'.
Proof.
  intros (a & p' & Hc & Hpost) Himp. exists a, p'. split; [exact Hc|].
  apply Himp. exact Hpost.
Qed.

Lemma returns_eq {Out Self A} (c : M Out Self A) (p p' : Process Out Self)
    (a : A) (post : A -> Process Out Self -> Prop) :
  c p = Ok a p' -> post a p' -> returns c p post.
Proof. intros Hc Hpost. exists a, p'. split; assumption. Qed.

Lemma returns_step {Out Self A B} (c : M Out Self A) (k : A -> M Out Self B)
    (p p' : Process Out Self) (a : A)
    (post : B -> Process Out Self -> Prop) :
  c p = Ok a p' -> returns (k a) p' post -> returns (bind c k) p post.
Proof.
  intros Hc Hk. apply returns_bind. apply (returns_eq c p p' a); assumption.
Qed.

(** ** Dictionaries kept in insertion order *)

Lemma dict_set_fresh {V} (d : list (string * V)) (k : string) (v : V) :
  ~ In k (map fst d) -> dict_set d k v = (d ++ [(k, v)])%list.
Proof.
  induction d as [|[k0 v0] d IH]; simpl; intros H; [reflexivity|].
  destruct (String.eqb_spec k0 k) as [E|E].
  - exfalso. apply H. left. exact E.
  - rewrite IH; [reflexivity|]. intros Hin. apply H. right. exact Hin.
Qed.

Lemma dict_get_In {V} (d : list (string * V)) (k : string) (v : V) :
  NoDup (map fst d) -> In (k, v) d -> dict_get d k = Some v.
Proof.
  induction d as [|[k0 v0] d IH]; simpl; intros Hnd Hin; [contradiction|].
  apply NoDup_cons in Hnd as [Hk0 Hnd].
  destruct Hin as [E|Hin].
  - inversion E; subst. rewrite String.eqb_refl. reflexivity.
  - destruct (String.eqb_spec k0 k) as [E|E].
    + subst. exfalso. apply Hk0. apply list_elem_of_In.
      apply (in_map fst) in Hin. exact Hin.
    + apply IH; assumption.
Qed.

(** ** Facts about [Code.py] *)
Module CodeFacts.
Import Code CodeSpec.

(** *** The value scorer *)

Lemma predict_principle_eq (text principle : string) (kws : Spectrum)
    (scores : list (string * Q)) (p : Process string RMMModel) :
  dict_get value_spectrum_keywords principle = Some kws ->
  predict_principle text principle scores p
  = Ok (dict_set scores principle
          (principle_score kws text (draw p 0) (draw p 1)))
       (advance 2 p).
Proof.
  intros Hk. unfold predict_principle, principle_score. rewrite Hk.
  destruct (Nat.ltb 0 (keyword_count (sin kws) text)
            && Nat.eqb (keyword_count (virtue kws) text) 0);
    [|destruct (Nat.ltb 0 (keyword_count (virtue kws) text)
               && Nat.eqb (keyword_count (sin kws) text) 0);
      [|destruct (Nat.ltb 0 (keyword_count (sin kws) text)
                 && Nat.ltb 0 (keyword_count (virtue kws) text))]];
    unfold bind; rewrite uniform_eq; rewrite uniform_eq;
    rewrite advance_advance, draw_advance; reflexivity.
Qed.

Lemma predict_loop_eq (entries : list (string * Spectrum)) (text : string)
    (scores : list (string * Q)) (p : Process string RMMModel) :
  (forall e, In e entries ->
             dict_get value_spectrum_keywords (fst e) = Some (snd e)) ->
  NoDup (map fst scores ++ map fst entries) ->
  predict_loop (map fst entries) text scores p
  = Ok (scores ++ scored entries text (draws (rng p)) (pos (rng p)))%list
       (advance (2 * List.length entries) p).
Proof.
  revert scores p.
  induction entries as [|[principle kws] rest IH]; intros scores p Htab Hnd.
  - simpl. rewrite advance_0, app_nil_r. reflexivity.
  - simpl map. simpl predict_loop. unfold bind at 1.
    rewrite (predict_principle_eq text principle kws);
      [|apply (Htab (principle, kws)); left; reflexivity].
    rewrite dict_set_fresh.
    2:{ simpl in Hnd. apply NoDup_app in Hnd as (_ & Hdis & _).
        intros Hin. apply (Hdis principle).
        - apply list_elem_of_In. exact Hin.
        - left. }
    rewrite IH.
    + rewrite advance_advance. f_equal.
      * rewrite <- app_assoc. unfold draw. simpl.
        rewrite Nat.add_0_r. reflexivity.
      * f_equal. simpl. lia.
    + intros e He. apply Htab. right. exact He.
    + rewrite map_app. simpl. rewrite <- app_assoc. exact Hnd.
Qed.

Lemma value_spectrum_keywords_NoDup : NoDup (map fst value_spectrum_keywords).
Proof.
  apply NoDup_ListNoDup. repeat constructor; simpl; intuition discriminate.
Qed.

(** [predict] never raises: it returns one score per principle, in the
    order of the table, and consumes fourteen draws. *)
Lemma predict_eq (text : string) (p : Process string RMMModel) :
  predict text p
  = Ok (scored value_spectrum_keywords (lower text)
          (draws (rng p)) (pos (rng p)))
       (advance 14 p).
Proof.
  unfold predict, value_principles.
  rewrite predict_loop_eq; [reflexivity| |].
  - intros [k v] Hin. apply dict_get_In; [|exact Hin].
    apply value_spectrum_keywords_NoDup.
  - apply value_spectrum_keywords_NoDup.
Qed.

Lemma principle_score_unit (kws : Spectrum) (text : string) (u1 u2 : Q) :
  0 <= principle_score kws text u1 u2 <= 1.
Proof. unfold principle_score. apply round2_unit. apply clamp_unit. Qed.

Lemma principle_score_two_decimals (kws : Spectrum) (text : string)
    (u1 u2 : Q) :
  two_decimals (principle_score kws text u1 u2).
Proof. unfold principle_score. apply round2_two_decimals. Qed.

(** Negative indicators only: the high band, less the jitter bound. *)
Lemma principle_score_high (kws : Spectrum) (text : string) (u1 u2 : Q) :
  (0 < keyword_count (sin kws) text)%nat ->
  keyword_count (virtue kws) text = 0%nat ->
  0 <= u1 <= 1 -> 0 <= u2 <= 1 ->
  0.65 <= principle_score kws text u1 u2.
Proof.
  intros Hs Hv Hu1 Hu2. unfold principle_score.
  apply Nat.ltb_lt in Hs. rewrite Hs, Hv. simpl andb. cbv iota.
  apply Qle_trans with (inject_Z 65 / 100); [unfold Qle; simpl; lia|].
  apply round2_ge.
  apply Qle_trans with 0.65; [unfold Qle; simpl; lia|].
  apply clamp_unit_ge; [lra|].
  pose proof (uniform_band 0.7 1.0 u1 ltac:(lra) Hu1).
  pose proof (uniform_band (-0.05) 0.05 u2 ltac:(lra) Hu2).
  lra.
Qed.

Lemma scored_keys (entries : list (string * Spectrum)) (text : string)
    (ds : nat -> Q) (i : nat) :
  map fst (scored entries text ds i) = map fst entries.
Proof.
  revert i. induction entries as [|[k kws] rest IH]; intros i; simpl;
    [reflexivity|]. rewrite IH. reflexivity.
Qed.

Lemma scored_In (entries : list (string * Spectrum)) (text : string)
    (ds : nat -> Q) (i : nat) (k : string) (v : Q) :
  In (k, v) (scored entries text ds i) ->
  exists kws j, In (k, kws) entries
                /\ v = principle_score kws text (ds j) (ds (j + 1)%nat).
Proof.
  revert i. induction entries as [|[k0 kws0] rest IH]; intros i; simpl;
    [contradiction|].
  intros [E|Hin].
  - inversion E; subst. exists kws0, i. split; [left|]; reflexivity.
  - destruct (IH _ Hin) as (kws & j & Hk & Hv).
    exists kws, j. split; [right; exact Hk|exact Hv].
Qed.

(** *** The stages of the cycle *)

Lemma get_feedback_signal_eq (outcome : string) (p : Process string RMMModel) :
  let base := baseline_modulation_strength (ecs (self p)) in
  get_feedback_signal outcome p
  = if String.eqb outcome "inference_corrected" then
      Ok "plasticity_enhanced" (with_modulation (base * 1.5) p)
    else if String.eqb outcome "dissonance_high" then
      Ok "processing_needed" (with_modulation (base * 0.5) p)
    else Ok "neutral" (with_modulation base p).
Proof.
  unfold get_feedback_signal, bind, get_self.
  destruct (String.eqb outcome "inference_corrected"); [reflexivity|].
  destruct (String.eqb outcome "dissonance_high"); reflexivity.
Qed.

Lemma apply_modulation_eq (m : Memory) (p : Process string RMMModel) :
  apply_modulation m p
  = Ok (modulated (current_modulation (ecs (self p))) (draw p 0) (draw p 1) m)
       (advance 2 p).
Proof.
  unfold apply_modulation, bind, get_self.
  rewrite uniform_eq, uniform_eq, advance_advance, draw_advance.
  reflexivity.
Qed.

Lemma trigger_flagged (scores : list (string * Q)) :
  negb (Nat.eqb
          (List.length
             (map fst
                (List.filter (fun kv : string * Q => Qltb 0.75 (snd kv))
                   scores))) 0) = true
  <-> flagged scores.
Proof.
  unfold flagged. induction scores as [|[k v] rest IH]; simpl.
  - split; [discriminate|]. intros (? & ? & [] & _).
  - unfold Qltb at 1. destruct (Qle_bool v 0.75) eqn:E; simpl.
    + rewrite IH. apply Qle_bool_iff in E.
      split.
      * intros (k' & v' & Hin & Hv). exists k', v'. auto.
      * intros (k' & v' & [Heq|Hin] & Hv).
        -- inversion Heq; subst. lra.
        -- exists k', v'. auto.
    + split; [|reflexivity]. intros _. exists k, v. split; [left; reflexivity|].
      apply Qnot_le_lt. intros Hle. apply Qle_bool_iff in Hle. congruence.
Qed.

Lemma draw_with_modulation (cm : Q) (p : Process string RMMModel) (i : nat) :
  draw (with_modulation cm p) i = draw p i.
Proof. reflexivity. Qed.

Lemma advance_with_modulation (cm : Q) (p : Process string RMMModel)
    (n : nat) :
  advance n (with_modulation cm p) = with_modulation cm (advance n p).
Proof. reflexivity. Qed.

(** The correction branch of [reevaluate]. *)
Lemma reevaluate_flagged (m : Memory) (p : Process string RMMModel) :
  flagged (value_alignment_scores m) ->
  let base := baseline_modulation_strength (ecs (self p)) in
  reevaluate m p
  = Ok ("inference_corrected",
        modulated (base * 1.5) (draw p 14) (draw p 15)
          (corrected m (draws (rng p)) (pos (rng p))))
       (with_modulation (base * 1.5) (advance 16 p)).
Proof.
  intros Hf. apply trigger_flagged in Hf.
  unfold reevaluate. rewrite Hf. unfold bind at 1. unfold bind at 1.
  simpl current_inference. rewrite predict_eq. unfold ret at 1.
  unfold bind at 1. rewrite get_feedback_signal_eq. simpl String.eqb.
  cbv iota. unfold bind. rewrite apply_modulation_eq. unfold ret.
  rewrite advance_with_modulation, !draw_with_modulation, advance_advance,
    !draw_advance.
  reflexivity.
Qed.

(** The other branch of [reevaluate]. *)
Lemma reevaluate_unflagged (m : Memory) (p : Process string RMMModel) :
  ~ flagged (value_alignment_scores m) ->
  let base := baseline_modulation_strength (ecs (self p)) in
  reevaluate m p
  = Ok ("no_change", modulated base (draw p 0) (draw p 1) m)
       (with_modulation base (advance 2 p)).
Proof.
  intros Hf. rewrite <- trigger_flagged in Hf. apply not_true_is_false in Hf.
  unfold reevaluate. rewrite Hf. unfold bind at 1. unfold ret at 1.
  unfold bind at 1. rewrite get_feedback_signal_eq. simpl String.eqb.
  cbv iota. unfold bind. rewrite apply_modulation_eq. unfold ret.
  rewrite advance_with_modulation, !draw_with_modulation. reflexivity.
Qed.

Lemma flagged_dec (scores : list (string * Q)) :
  flagged scores \/ ~ flagged scores.
Proof.
  destruct (negb (Nat.eqb
          (List.length
             (map fst
                (List.filter (fun kv : string * Q => Qltb 0.75 (snd kv))
                   scores))) 0)) eqn:E.
  - left. apply trigger_flagged. exact E.
  - right. rewrite <- trigger_flagged. congruence.
Qed.

(** *** The cycle *)

Lemma py_div_eq {Out Self} (x : Q) (n : nat) (p : Process Out Self) :
  n <> 0%nat -> py_div x n p = Ok (x / inject_Z (Z.of_nat n)) p.
Proof.
  intros Hn. unfold py_div. apply Nat.eqb_neq in Hn. rewrite Hn. reflexivity.
Qed.

Lemma length_nonempty {A} (l : list A) : l <> [] -> List.length l <> 0%nat.
Proof. destruct l; [congruence|discriminate]. Qed.

Section Cycle.

Variable series_std : list Q -> Q.

Lemma run_rmm_cycle_not_found (id : string) (p : Process string RMMModel) :
  memories (self p) !! id = None ->
  run_rmm_cycle series_std id p
  = Ok tt (printed ("Memory '" ++ id ++ "' not found.") p).
Proof.
  intros Hl. unfold run_rmm_cycle, bind, get_self. rewrite Hl. reflexivity.
Qed.

Lemma run_rmm_cycle_empty_scores (id : string) (m : Memory)
    (p : Process string RMMModel) :
  memories (self p) !! id = Some m ->
  value_alignment_scores m = [] ->
  run_rmm_cycle series_std id p = Raise ZeroDivisionError.
Proof.
  intros Hl He. unfold run_rmm_cycle, bind, get_self. rewrite Hl.
  simpl value_alignment_scores. rewrite He. reflexivity.
Qed.

Lemma run_rmm_cycle_found (id : string) (m m1 : Memory) (outcome : string)
    (p p1 : Process string RMMModel) :
  memories (self p) !! id = Some m ->
  value_alignment_scores m <> [] ->
  reevaluate (reactivated m) p = Ok (outcome, m1) p1 ->
  value_alignment_scores m1 <> [] ->
  run_rmm_cycle series_std id p
  = Ok tt (with_memory id
             (completed series_std (value_alignment_scores m) outcome m1) p1).
Proof.
  intros Hl Hne Hre Hne1. unfold run_rmm_cycle. unfold bind at 1.
  unfold get_self at 1. rewrite Hl. simpl value_alignment_scores.
  unfold bind at 1. rewrite py_div_eq by (apply length_nonempty; exact Hne).
  unfold bind at 1. fold (reactivated m). rewrite Hre.
  unfold bind at 1. rewrite py_div_eq by (apply length_nonempty; exact Hne1).
  reflexivity.
Qed.

Lemma run_rmm_cycle_flagged (id : string) (m : Memory)
    (p : Process string RMMModel) :
  memories (self p) !! id = Some m ->
  flagged (value_alignment_scores m) ->
  let base := baseline_modulation_strength (ecs (self p)) in
  run_rmm_cycle series_std id p
  = Ok tt
      (with_memory id
         (completed series_std (value_alignment_scores m)
            "inference_corrected"
            (modulated (base * 1.5) (draw p 14) (draw p 15)
               (corrected (reactivated m) (draws (rng p)) (pos (rng p)))))
         (with_modulation (base * 1.5) (advance 16 p))).
Proof.
  intros Hl Hf base.
  apply run_rmm_cycle_found; [exact Hl| | |discriminate].
  - destruct Hf as (k & v & Hin & _). intros E. rewrite E in Hin. destruct Hin.
  - apply reevaluate_flagged. exact Hf.
Qed.

Lemma run_rmm_cycle_unflagged (id : string) (m : Memory)
    (p : Process string RMMModel) :
  memories (self p) !! id = Some m ->
  value_alignment_scores m <> [] ->
  ~ flagged (value_alignment_scores m) ->
  let base := baseline_modulation_strength (ecs (self p)) in
  run_rmm_cycle series_std id p
  = Ok tt
      (with_memory id
         (completed series_std (value_alignment_scores m) "no_change"
            (modulated base (draw p 0) (draw p 1) (reactivated m)))
         (with_modulation base (advance 2 p))).
Proof.
  intros Hl Hne Hf base.
  apply run_rmm_cycle_found; [exact Hl|exact Hne| |exact Hne].
  apply reevaluate_unflagged. exact Hf.
Qed.

(** A run on a stored memory returns exactly when the memory has scores, and
    then ends in one of the two states above. *)
Lemma run_rmm_cycle_cases (id : string) (m : Memory)
    (p p' : Process string RMMModel) :
  memories (self p) !! id = Some m ->
  run_rmm_cycle series_std id p = Ok tt p' ->
  exists outcome m1 p1,
    reevaluate (reactivated m) p = Ok (outcome, m1) p1
    /\ (outcome = "inference_corrected" \/ outcome = "no_change")
    /\ memories (self p1) = memories (self p)
    /\ p' = with_memory id
               (completed series_std (value_alignment_scores m) outcome m1) p1.
Proof.
  intros Hl Hrun.
  destruct (value_alignment_scores m) as [|kv rest] eqn:Hs.
  { rewrite (run_rmm_cycle_empty_scores id m p Hl Hs) in Hrun. discriminate. }
  assert (Hne : value_alignment_scores m <> []) by (rewrite Hs; discriminate).
  destruct (flagged_dec (value_alignment_scores m)) as [Hf|Hf].
  - rewrite (run_rmm_cycle_flagged id m p Hl Hf) in Hrun.
    inversion Hrun; subst p'. rewrite <- Hs.
    eexists _, _, _. split; [apply reevaluate_flagged; exact Hf|].
    split; [left; reflexivity|]. split; reflexivity.
  - rewrite (run_rmm_cycle_unflagged id m p Hl Hne Hf) in Hrun.
    inversion Hrun; subst p'. rewrite <- Hs.
    eexists _, _, _. split; [apply reevaluate_unflagged; exact Hf|].
    split; [right; reflexivity|]. split; reflexivity.
Qed.

End Cycle.

End CodeFacts.

(** ** Facts about [Code3.py] *)
Module Code3Facts.
Import Code3 Code3Spec.

Lemma print_eq {Self} (line : Line) (p : Process Line Self) :
  print line p = Ok tt (printed [line] p).
Proof. reflexivity. Qed.

Lemma printed_printed {Self} (l1 l2 : list Line) (p : Process Line Self) :
  printed l2 (printed l1 p) = printed (l1 ++ l2) p.
Proof. unfold printed. simpl. rewrite <- app_assoc. reflexivity. Qed.

(** *** Modulation *)

Lemma ecs_apply_modulation_eq {Self} (cm : Q) (m : Memory)
    (p : Process Line Self) :
  ecs_apply_modulation cm m p
  = Ok (modulated cm (draw p 0) (draw p 1) m) (advance 2 p).
Proof.
  unfold ecs_apply_modulation, bind.
  rewrite uniform_eq, uniform_eq, advance_advance, draw_advance.
  reflexivity.
Qed.

Lemma modulated_same_record (cm u1 u2 : Q) (m : Memory) :
  same_record m (modulated cm u1 u2 m).
Proof. repeat split. Qed.

Lemma modulated_strength (cm u1 u2 : Q) (m : Memory) :
  0.1 <= strength (modulated cm u1 u2 m).
Proof. simpl. apply Q.le_max_l. Qed.

Lemma modulated_valence (cm u1 u2 : Q) (m : Memory) :
  -1.0 <= current_valence (modulated cm u1 u2 m) <= 1.0.
Proof.
  simpl. split; [apply Q.le_max_l|].
  apply Q.max_lub; [lra|apply Q.le_min_l].
Qed.

(** *** Rewrite and retain *)

Lemma rewrite_memory_eq {Self} (m : Memory) (outcome : string)
    (p : Process Line Self) :
  rewrite_memory (Some m) outcome p
  = Ok (Some (rewritten m outcome)) (printed (rewrite_lines m outcome) p).
Proof.
  unfold rewrite_memory, rewritten, rewrite_lines, rewritten.
  destruct (String.eqb outcome "inference_corrected"
            || String.eqb outcome "plasticity_enhanced");
    [|destruct (String.eqb outcome "dissonance_high")];
    unfold bind; rewrite !print_eq; unfold ret; rewrite printed_printed;
    reflexivity.
Qed.

Lemma retain_memory_eq {Self} (m : Memory) (p : Process Line Self) :
  retain_memory (Some m) p
  = Ok (Some (retained m))
       (printed [Retaining (identifier m);
                 Now_retained (identifier m) (retained m)] p).
Proof.
  unfold retain_memory, bind. rewrite !print_eq. unfold ret.
  rewrite printed_printed. reflexivity.
Qed.

(** *** Reactivation *)

Lemma reactivate_memory_not_found3 (id : string) (p : Process Line RMMModel) :
  memories (self p) !! id = None ->
  reactivate_memory id p = Ok None (printed [Error_not_found id] p).
Proof.
  intros Hl. unfold reactivate_memory, bind, get_self. rewrite Hl.
  reflexivity.
Qed.

Lemma reactivate_memory_found3 (id : string) (m : Memory)
    (p : Process Line RMMModel) :
  memories (self p) !! id = Some m ->
  reactivate_memory id p
  = Ok (Some (reactivated m))
       (printed [Reactivating (identifier m) (reprocessing_count m + 1)]
          (mkProcess (rng p) (stdout p)
             (set_memories (self p)
                (<[id := reactivated m]> (memories (self p)))))).
Proof.
  intros Hl. unfold reactivate_memory, bind, get_self. rewrite Hl.
  reflexivity.
Qed.

(** *** Re-evaluation *)

Lemma value_check_returns (principle keyword issue : string) (m : Memory)
    (st : bool * list string) (p : Process Line RMMModel) :
  returns (value_check principle keyword issue m st) p
    (fun st' p' =>
       drew_and_printed p p'
       /\ (mentions keyword m = false -> st' = st /\ p' = p)).
Proof.
  unfold value_check, mentions. apply (returns_step _ _ p p (self p));
    [reflexivity|].
  destruct (existsb (String.eqb principle) (value_system_principles (self p))).
  2:{ apply returns_ret. repeat split. }
  destruct (contains keyword (lower (current_inference m))).
  2:{ apply returns_ret. repeat split. }
  eapply returns_step; [apply random_eq|].
  destruct (Qltb (draw p 0) 0.2); apply returns_ret;
    (split; [split; reflexivity|discriminate]).
Qed.

Lemma get_feedback_signal_returns3 (outcome : string)
    (p : Process Line RMMModel) :
  returns (get_feedback_signal outcome) p
    (fun _ p' =>
       rng p' = rng p /\ stdout p' = stdout p
       /\ memories (self p') = memories (self p)
       /\ value_system_principles (self p')
          = value_system_principles (self p)).
Proof.
  unfold get_feedback_signal. apply (returns_step _ _ p p (self p));
    [reflexivity|].
  destruct (ecs_get_feedback_signal (ecs (self p)) outcome) as [signal e].
  eapply returns_step; [reflexivity|]. apply returns_ret. repeat split.
Qed.

Lemma apply_modulation_returns3 (m : Memory) (p : Process Line RMMModel) :
  returns (apply_modulation m) p
    (fun m' p' =>
       drew_and_printed p p'
       /\ same_record m m'
       /\ current_inference m' = current_inference m
       /\ 0.1 <= strength m'
       /\ -1.0 <= current_valence m' <= 1.0).
Proof.
  unfold apply_modulation. apply (returns_step _ _ p p (self p));
    [reflexivity|].
  eapply returns_eq; [apply ecs_apply_modulation_eq|].
  split; [split; reflexivity|].
  split; [apply modulated_same_record|].
  split; [reflexivity|].
  split; [apply modulated_strength|apply modulated_valence].
Qed.

(** The tail of [reevaluate_memory]: feedback, print, modulation. *)
Lemma feedback_and_modulation_returns3 (prefix : string) (m m1 : Memory)
    (outcome : string) (p0 p : Process Line RMMModel) :
  same_record m m1 ->
  (outcome = "inference_corrected"
   /\ current_inference m1 = prefix ++ content m
   \/ (outcome = "dissonance_high" \/ outcome = "no_change")
      /\ current_inference m1 = current_inference m) ->
  memories (self p) = memories (self p0) ->
  value_system_principles (self p) = value_system_principles (self p0) ->
  later_draws p0 p ->
  returns
    (let* ecs_signal := get_feedback_signal outcome in
     print (ECS_feedback_signal ecs_signal);;
     let* memory := apply_modulation m1 in
     ret (outcome, Some memory)) p
    (fun r p' =>
       exists m', r = (outcome, Some m')
                  /\ reevaluated prefix m outcome m'
                  /\ memories (self p') = memories (self p0)
                  /\ value_system_principles (self p')
                     = value_system_principles (self p0)
                  /\ later_draws p0 p').
Proof.
  intros Hrec Hout Hmem Hvsp Hd.
  apply returns_bind.
  eapply returns_mono; [apply get_feedback_signal_returns3|].
  intros signal p1 (Hrng & _ & Hmem1 & Hvsp1).
  eapply returns_step; [apply print_eq|].
  apply returns_bind.
  eapply returns_mono; [apply apply_modulation_returns3|].
  intros m' p2 ((Hself & Hd2) & Hrec2 & Hinf & Hs & Hv).
  apply returns_ret. exists m'. split; [reflexivity|].
  split.
  - split.
    + destruct Hrec as (? & ? & ? & ? & ?).
      destruct Hrec2 as (? & ? & ? & ? & ?). repeat split; congruence.
    + split; [exact Hs|]. split; [exact Hv|].
      rewrite Hinf. exact Hout.
  - simpl in Hself. rewrite Hself. simpl.
    split; [congruence|]. split; [congruence|].
    unfold later_draws in *. simpl in *. congruence.
Qed.

Lemma reevaluate_memory_returns3 (m : Memory) (p : Process Line RMMModel) :
  returns (reevaluate_memory (Some m)) p
    (fun r p' =>
       exists outcome m',
         r = (outcome, Some m')
         /\ reevaluated value_prefix m outcome m'
         /\ memories (self p') = memories (self p)
         /\ value_system_principles (self p') = value_system_principles (self p)
         /\ later_draws p p'
         /\ (mentions "gain" m = false -> mentions "upset" m = false ->
             mentions "alone" m = false -> outcome = "no_change")).
Proof.
  unfold reevaluate_memory.
  eapply returns_step; [apply print_eq|].
  eapply returns_step; [apply print_eq|].
  apply returns_bind. eapply returns_mono; [apply value_check_returns|].
  intros st1 p1 ((Hs1 & Hd1) & Hno1).
  apply returns_bind. eapply returns_mono; [apply value_check_returns|].
  intros st2 p2 ((Hs2 & Hd2) & Hno2).
  apply returns_bind. eapply returns_mono; [apply value_check_returns|].
  intros st3 p3 ((Hs3 & Hd3) & Hno3).
  assert (Hself : self p3 = self p).
  { rewrite Hs3, Hs2, Hs1. reflexivity. }
  assert (Hd : later_draws p p3).
  { unfold later_draws in *. simpl in *. congruence. }
  assert (Hquiet : mentions "gain" m = false -> mentions "upset" m = false ->
                   mentions "alone" m = false -> snd st3 = []).
  { intros H1 H2 H3. destruct (Hno1 H1) as [-> _].
    destruct (Hno2 H2) as [-> _]. destruct (Hno3 H3) as [-> _]. reflexivity. }
  assert (Hrec : same_record m m) by (repeat split).
  apply returns_bind.
  destruct (negb (Nat.eqb (List.length (snd st3)) 0)) eqn:Eissues.
  - eapply returns_step; [apply print_eq|].
    eapply returns_step; [apply random_eq|].
    destruct (Qltb _ 0.7).
    + eapply returns_step; [apply print_eq|]. apply returns_ret.
      eapply returns_mono.
      * apply (feedback_and_modulation_returns3 value_prefix m _
                 "inference_corrected" p); try (repeat split; fail).
        -- left. split; reflexivity.
        -- simpl. rewrite Hself. reflexivity.
        -- simpl. rewrite Hself. reflexivity.
        -- exact Hd.
      * intros r p' (m' & -> & Hre & Hm & Hv & Hl).
        exists "inference_corrected", m'. split; [reflexivity|].
        split; [exact Hre|]. split; [exact Hm|]. split; [exact Hv|].
        split; [exact Hl|].
        intros H1 H2 H3. rewrite (Hquiet H1 H2 H3) in Eissues. discriminate.
    + eapply returns_step; [apply print_eq|]. apply returns_ret.
      eapply returns_mono.
      * apply (feedback_and_modulation_returns3 value_prefix m m
                 "dissonance_high" p); try (repeat split; fail).
        -- right. split; [left|]; reflexivity.
        -- simpl. rewrite Hself. reflexivity.
        -- simpl. rewrite Hself. reflexivity.
        -- exact Hd.
      * intros r p' (m' & -> & Hre & Hm & Hv & Hl).
        exists "dissonance_high", m'. split; [reflexivity|].
        split; [exact Hre|]. split; [exact Hm|]. split; [exact Hv|].
        split; [exact Hl|].
        intros H1 H2 H3. rewrite (Hquiet H1 H2 H3) in Eissues. discriminate.
  - eapply returns_step; [apply random_eq|].
    assert (Hgoal : forall line,
      returns
        (let* ecs_signal := get_feedback_signal "no_change" in
         print (ECS_feedback_signal ecs_signal);;
         let* memory := apply_modulation m in
         ret ("no_change", Some memory))
        (printed [line] (advance 1 p3))
        (fun r p' =>
           exists outcome m',
             r = (outcome, Some m')
             /\ reevaluated value_prefix m outcome m'
             /\ memories (self p') = memories (self p)
             /\ value_system_principles (self p')
                = value_system_principles (self p)
             /\ later_draws p p'
             /\ (mentions "gain" m = false -> mentions "upset" m = false ->
                 mentions "alone" m = false -> outcome = "no_change"))).
    { intros line. eapply returns_mono.
      - apply (feedback_and_modulation_returns3 value_prefix m m
                 "no_change" p); try (repeat split; fail).
        + right. split; [right|]; reflexivity.
        + simpl. rewrite Hself. reflexivity.
        + simpl. rewrite Hself. reflexivity.
        + exact Hd.
      - intros r p' (m' & -> & Hre & Hm & Hv & Hl).
        exists "no_change", m'. split; [reflexivity|].
        split; [exact Hre|]. split; [exact Hm|]. split; [exact Hv|].
        split; [exact Hl|]. reflexivity. }
    destruct (Qltb _ 0.1);
      (eapply returns_step; [apply print_eq|]); apply returns_ret;
      apply Hgoal.
Qed.

(** *** The cycle *)

Lemma run_rmm_cycle_not_found3 (id : string) (p : Process Line RMMModel) :
  memories (self p) !! id = None ->
  run_rmm_cycle id p
  = Ok tt (printed [Starting_cycle id; Error_not_found id; Cycle_aborted id]
             p).
Proof.
  intros Hl. unfold run_rmm_cycle, bind. rewrite print_eq.
  rewrite reactivate_memory_not_found3 by exact Hl.
  rewrite print_eq, !printed_printed. reflexivity.
Qed.

Lemma run_rmm_cycle_found3 (id : string) (m : Memory)
    (p : Process Line RMMModel) :
  memories (self p) !! id = Some m ->
  returns (run_rmm_cycle id) p
    (fun _ p' =>
       exists outcome m1,
         reevaluated value_prefix (reactivated m) outcome m1
         /\ memories (self p')
            = <[id := retained (rewritten m1 outcome)]> (memories (self p))
         /\ value_system_principles (self p')
            = value_system_principles (self p)
         /\ later_draws p p'
         /\ (mentions "gain" m = false -> mentions "upset" m = false ->
             mentions "alone" m = false -> outcome = "no_change")).
Proof.
  intros Hl. unfold run_rmm_cycle.
  eapply returns_step; [apply print_eq|].
  eapply returns_step; [apply reactivate_memory_found3; exact Hl|].
  apply returns_bind.
  eapply returns_mono; [apply reevaluate_memory_returns3|].
  intros r p1 (outcome & m1 & -> & Hre & Hm & Hv & Hd & Hq).
  eapply returns_step; [apply rewrite_memory_eq|].
  eapply returns_step; [apply retain_memory_eq|].
  eapply returns_step; [reflexivity|].
  eapply returns_eq; [apply print_eq|].
  exists outcome, m1. split; [exact Hre|].
  simpl. rewrite Hm. simpl. split; [apply insert_insert_eq|].
  split; [rewrite Hv; reflexivity|]. split; [exact Hd|exact Hq].
Qed.

End Code3Facts.

(** ** Facts about the second part of [Code3.py] *)
Module Code4Facts.
Import Code3 Code3Spec Code4.

Lemma reactivate_memory_not_found4 (id : string) (p : Process Line RMMModel) :
  memories (self p) !! id = None ->
  reactivate_memory id p = Ok None (printed [Error_not_found id] p).
Proof.
  intros Hl. unfold reactivate_memory, bind, get_self. rewrite Hl.
  reflexivity.
Qed.

Lemma reactivate_memory_found4 (id : string) (m : Memory)
    (p : Process Line RMMModel) :
  memories (self p) !! id = Some m ->
  reactivate_memory id p
  = Ok (Some (reactivated m))
       (printed [Reactivating (identifier m) (reprocessing_count m + 1)]
          (mkProcess (rng p) (stdout p)
             (mkRMM (ecs (self p))
                (<[id := reactivated m]> (memories (self p)))))).
Proof.
  intros Hl. unfold reactivate_memory, bind, get_self. rewrite Hl.
  reflexivity.
Qed.

Lemma get_feedback_signal_returns4 (outcome : string)
    (p : Process Line RMMModel) :
  returns (get_feedback_signal outcome) p
    (fun _ p' =>
       rng p' = rng p /\ stdout p' = stdout p
       /\ memories (self p') = memories (self p)).
Proof.
  unfold get_feedback_signal. apply (returns_step _ _ p p (self p));
    [reflexivity|].
  destruct (ecs_get_feedback_signal (ecs (self p)) outcome) as [signal e].
  eapply returns_step; [reflexivity|]. apply returns_ret. repeat split.
Qed.

Lemma apply_modulation_returns4 (m : Memory) (p : Process Line RMMModel) :
  returns (apply_modulation m) p
    (fun m' p' =>
       self p' = self p
       /\ later_draws p p'
       /\ same_record m m'
       /\ current_inference m' = current_inference m
       /\ 0.1 <= strength m'
       /\ -1.0 <= current_valence m' <= 1.0).
Proof.
  unfold apply_modulation. apply (returns_step _ _ p p (self p));
    [reflexivity|].
  eapply returns_eq; [apply Code3Facts.ecs_apply_modulation_eq|].
  split; [reflexivity|]. split; [reflexivity|].
  split; [apply Code3Facts.modulated_same_record|].
  split; [reflexivity|].
  split; [apply Code3Facts.modulated_strength
         |apply Code3Facts.modulated_valence].
Qed.

(** The tail of [reevaluate_memory]: feedback, print, modulation. *)
Lemma feedback_and_modulation_returns4 (m m1 : Memory) (outcome : string)
    (p0 p : Process Line RMMModel) :
  same_record m m1 ->
  (outcome = "inference_corrected"
   /\ current_inference m1 = plain_prefix ++ content m
   \/ (outcome = "dissonance_high" \/ outcome = "no_change")
      /\ current_inference m1 = current_inference m) ->
  memories (self p) = memories (self p0) ->
  later_draws p0 p ->
  returns
    (let* ecs_signal := get_feedback_signal outcome in
     print (ECS_feedback_signal ecs_signal);;
     let* memory := apply_modulation m1 in
     ret (outcome, Some memory)) p
    (fun r p' =>
       exists outcome' m', r = (outcome', Some m')
                  /\ reevaluated plain_prefix m outcome' m'
                  /\ memories (self p') = memories (self p0)
                  /\ later_draws p0 p').
Proof.
  intros Hrec Hout Hmem Hd.
  apply returns_bind.
  eapply returns_mono; [apply get_feedback_signal_returns4|].
  intros signal p1 (Hrng & _ & Hmem1).
  eapply returns_step; [apply Code3Facts.print_eq|].
  apply returns_bind.
  eapply returns_mono; [apply apply_modulation_returns4|].
  intros m' p2 (Hself & Hd2 & Hrec2 & Hinf & Hs & Hv).
  apply returns_ret. exists outcome, m'. split; [reflexivity|].
  split.
  - split.
    + destruct Hrec as (? & ? & ? & ? & ?).
      destruct Hrec2 as (? & ? & ? & ? & ?). repeat split; congruence.
    + split; [exact Hs|]. split; [exact Hv|].
      rewrite Hinf. exact Hout.
  - simpl in Hself. rewrite Hself. simpl.
    split; [congruence|].
    unfold later_draws in *. simpl in *. congruence.
Qed.

Lemma reevaluate_memory_returns4 (m : Memory) (p : Process Line RMMModel) :
  returns (reevaluate_memory (Some m)) p
    (fun r p' =>
       exists outcome m',
         r = (outcome, Some m')
         /\ reevaluated plain_prefix m outcome m'
         /\ memories (self p') = memories (self p)
         /\ later_draws p p').
Proof.
  unfold reevaluate_memory.
  eapply returns_step; [apply Code3Facts.print_eq|].
  eapply returns_step; [apply Code3Facts.print_eq|].
  eapply returns_step; [apply random_eq|].
  assert (Hrec : same_record m m) by (repeat split).
  apply returns_bind.
  destruct (Qltb _ 0.3).
  - eapply returns_step; [apply Code3Facts.print_eq|].
    eapply returns_step; [apply random_eq|].
    destruct (Qltb _ 0.7);
      (eapply returns_step; [apply Code3Facts.print_eq|]); apply returns_ret.
    + apply (feedback_and_modulation_returns4 m _ "inference_corrected" p);
        try (repeat split; fail).
      left. split; reflexivity.
    + apply (feedback_and_modulation_returns4 m m "dissonance_high" p);
        try (repeat split; fail).
      right. split; [left|]; reflexivity.
  - eapply returns_step; [apply Code3Facts.print_eq|]. apply returns_ret.
    apply (feedback_and_modulation_returns4 m m "no_change" p);
      try (repeat split; fail).
    right. split; [right|]; reflexivity.
Qed.

Lemma run_rmm_cycle_not_found4 (id : string) (p : Process Line RMMModel) :
  memories (self p) !! id = None ->
  run_rmm_cycle id p
  = Ok tt (printed [Starting_cycle id; Error_not_found id; Cycle_aborted id]
             p).
Proof.
  intros Hl. unfold run_rmm_cycle, bind. rewrite Code3Facts.print_eq.
  rewrite reactivate_memory_not_found4 by exact Hl.
  rewrite Code3Facts.print_eq, !Code3Facts.printed_printed. reflexivity.
Qed.

Lemma run_rmm_cycle_found4 (id : string) (m : Memory)
    (p : Process Line RMMModel) :
  memories (self p) !! id = Some m ->
  returns (run_rmm_cycle id) p
    (fun _ p' =>
       exists outcome m1,
         reevaluated plain_prefix (reactivated m) outcome m1
         /\ memories (self p')
            = <[id := retained (rewritten m1 outcome)]> (memories (self p))
         /\ later_draws p p').
Proof.
  intros Hl. unfold run_rmm_cycle.
  eapply returns_step; [apply Code3Facts.print_eq|].
  eapply returns_step; [apply reactivate_memory_found4; exact Hl|].
  apply returns_bind.
  eapply returns_mono; [apply reevaluate_memory_returns4|].
  intros r p1 (outcome & m1 & -> & Hre & Hm & Hd).
  eapply returns_step; [apply Code3Facts.rewrite_memory_eq|].
  eapply returns_step; [apply Code3Facts.retain_memory_eq|].
  eapply returns_step; [reflexivity|].
  eapply returns_eq; [apply Code3Facts.print_eq|].
  exists outcome, m1. split; [exact Hre|].
  simpl. rewrite Hm. simpl. split; [apply insert_insert_eq|exact Hd].
Qed.

End Code4Facts.

(** ** More facts about the cycle of [Code.py] *)
Module CodeCycleFacts.
Import Code CodeSpec CodeFacts.

(** What [reevaluate] keeps of a memory. *)
Lemma reevaluate_returns (m : Memory) (p : Process string RMMModel) :
  exists outcome m1 p1,
    reevaluate m p = Ok (outcome, m1) p1
    /\ (outcome = "inference_corrected" \/ outcome = "no_change")
    /\ memories (self p1) = memories (self p)
    /\ stdout p1 = stdout p
    /\ later_draws p p1
    /\ identifier m1 = identifier m
    /\ content m1 = content m
    /\ reprocessing_count m1 = reprocessing_count m
    /\ is_adaptive m1 = is_adaptive m
    /\ 0.1 <= strength m1
    /\ -1.0 <= current_valence m1 <= 1.0
    /\ (value_alignment_scores m <> [] -> value_alignment_scores m1 <> []).
Proof.
  assert (Hs : forall cm u1 u2 m0, 0.1 <= strength (modulated cm u1 u2 m0)).
  { intros. simpl. apply Q.le_max_l. }
  assert (Hv : forall cm u1 u2 m0,
             -1.0 <= current_valence (modulated cm u1 u2 m0) <= 1.0).
  { intros. simpl. split; [apply Q.le_max_l|].
    apply Q.max_lub; [lra|apply Q.le_min_l]. }
  destruct (flagged_dec (value_alignment_scores m)) as [Hf|Hf].
  - eexists _, _, _. split; [apply reevaluate_flagged; exact Hf|].
    split; [left; reflexivity|]. do 7 (split; [reflexivity|]).
    split; [apply Hs|]. split; [apply Hv|]. intros _. discriminate.
  - eexists _, _, _. split; [apply reevaluate_unflagged; exact Hf|].
    split; [right; reflexivity|]. do 7 (split; [reflexivity|]).
    split; [apply Hs|]. split; [apply Hv|]. intros H. exact H.
Qed.

Section Cycle.

Variable series_std : list Q -> Q.

(** A run on a stored memory that has scores returns. *)
Lemma run_rmm_cycle_returns (id : string) (m : Memory)
    (p : Process string RMMModel) :
  memories (self p) !! id = Some m ->
  value_alignment_scores m <> [] ->
  exists outcome m1 p1,
    reevaluate (reactivated m) p = Ok (outcome, m1) p1
    /\ run_rmm_cycle series_std id p
       = Ok tt (with_memory id
                  (completed series_std (value_alignment_scores m) outcome m1)
                  p1).
Proof.
  intros Hl Hne.
  destruct (reevaluate_returns (reactivated m) p)
    as (outcome & m1 & p1 & Hre & _ & _ & _ & _ & _ & _ & _ & _ & _ & _ & Hne1).
  exists outcome, m1, p1. split; [exact Hre|].
  apply run_rmm_cycle_found; auto.
Qed.

Lemma completed_fields (old : list (string * Q)) (outcome : string)
    (m : Memory) :
  let m' := completed series_std old outcome m in
  identifier m' = identifier m
  /\ content m' = content m
  /\ current_inference m' = current_inference m
  /\ reprocessing_count m' = reprocessing_count m
  /\ is_adaptive m' = true
  /\ value_alignment_scores m' = value_alignment_scores m
  /\ agreement_shift m' = mean old - mean (value_alignment_scores m)
  /\ mischievous_shift m'
     = Qabs (series_std (map snd (value_alignment_scores m))
             - series_std (map snd old)).
Proof.
  unfold completed, retain, rewrite.
  destruct (String.eqb outcome "inference_corrected");
    [|destruct (String.eqb outcome "dissonance_high")];
    repeat split.
Qed.

End Cycle.

End CodeCycleFacts.

(** ** The cycle and the add operation, engine by engine *)

Lemma returns_inv {Out Self A} (c : M Out Self A) (p p' : Process Out Self)
    (a : A) (post : A -> Process Out Self -> Prop) :
  returns c p post -> c p = Ok a p' -> post a p'.
Proof.
  intros (a0 & p0 & Hc & Hpost) Hrun. rewrite Hrun in Hc.
  inversion Hc; subst. exact Hpost.
Qed.

Lemma code_add_memory_eq (id content inference : string) (valence : Q)
    (p : Process string Code.RMMModel) :
  Code.add_memory id content inference valence p
  = Ok tt (CodeSpec.with_memory id
             (CodeSpec.created id content inference valence
                (draws (rng p)) (pos (rng p)))
             (advance 14 p)).
Proof.
  unfold Code.add_memory, bind. rewrite CodeFacts.predict_eq. reflexivity.
Qed.

Lemma code3_add_memory_eq (id content inference : string) (valence : Q)
    (p : Process Code3.Line Code3.RMMModel) :
  let m := Code3.Memory_init id content inference valence 1.0 in
  Code3.add_memory id content inference valence p
  = Ok tt
      (mkProcess (rng p)
         (stdout p
          ++ Code3Spec.add_lines
               (bool_decide (is_Some (Code3.memories (self p) !! id))) id m)
         (Code3.set_memories (self p) (<[id := m]> (Code3.memories (self p))))).
Proof.
  unfold Code3.add_memory, bind, get_self, Code3Spec.add_lines.
  destruct (bool_decide (is_Some (Code3.memories (self p) !! id)));
    unfold print, put_self, ret; simpl; rewrite <- ?app_assoc; reflexivity.
Qed.

Lemma code4_add_memory_eq (id content inference : string) (valence : Q)
    (p : Process Code3.Line Code4.RMMModel) :
  let m := Code3.Memory_init id content inference valence 1.0 in
  Code4.add_memory id content inference valence p
  = Ok tt
      (mkProcess (rng p)
         (stdout p
          ++ Code3Spec.add_lines
               (bool_decide (is_Some (Code4.memories (self p) !! id))) id m)
         (Code4.mkRMM (Code4.ecs (self p))
            (<[id := m]> (Code4.memories (self p))))).
Proof.
  unfold Code4.add_memory, bind, get_self, Code3Spec.add_lines.
  destruct (bool_decide (is_Some (Code4.memories (self p) !! id)));
    unfold print, put_self, ret; simpl; rewrite <- ?app_assoc; reflexivity.
Qed.

Lemma rewritten_retained_record (m : Code3.Memory) (outcome : string) :
  Code3.reprocessing_count (Code3Spec.retained (Code3Spec.rewritten m outcome))
  = Code3.reprocessing_count m
  /\ Code3.is_adaptive (Code3Spec.retained (Code3Spec.rewritten m outcome))
     = true.
Proof.
  unfold Code3Spec.retained, Code3Spec.rewritten.
  destruct (_ || _); [|destruct (String.eqb _ _)]; split; reflexivity.
Qed.

Section Engines.

Variable E : Engine.
Hypothesis HE : engine E.

(** A run on a stored, runnable memory returns; the entry has its count
    increased by one and is retained; the other entries are untouched. *)
Lemma run_cycle_present (id : string) (p : Process (Out E) (Model E))
    (m : Mem E) :
  collection E (self p) !! id = Some m ->
  runnable E m ->
  returns (run_cycle E id) p
    (fun _ p' =>
       exists m',
         collection E (self p') !! id = Some m'
         /\ count_of E m' = (count_of E m + 1)%nat
         /\ adaptive_of E m' = true
         /\ forall k, k <> id ->
              collection E (self p') !! k = collection E (self p) !! k).
Proof.
  destruct HE as [series_std| |]; simpl in *.
  - intros Hl Hne.
    destruct (CodeCycleFacts.run_rmm_cycle_returns series_std id m p Hl Hne)
      as (outcome & m1 & p1 & Hre & Hrun).
    destruct (CodeCycleFacts.reevaluate_returns (CodeSpec.reactivated m) p)
      as (outcome' & m1' & p1' & Hre' & _ & Hmem & _ & _ & _ & _ & Hc & _).
    rewrite Hre in Hre'. inversion Hre'; subst outcome' m1' p1'.
    eapply returns_eq; [exact Hrun|].
    destruct (CodeCycleFacts.completed_fields series_std
                (Code.value_alignment_scores m) outcome m1)
      as (_ & _ & _ & Hcount & Had & _).
    eexists. simpl. split; [apply lookup_insert_eq|].
    split; [rewrite Hcount, Hc; reflexivity|].
    split; [exact Had|].
    intros k Hk. rewrite Hmem. apply lookup_insert_ne. congruence.
  - intros Hl _.
    eapply returns_mono; [apply Code3Facts.run_rmm_cycle_found3; exact Hl|].
    intros _ p' (outcome & m1 & Hre & Hmem & _).
    destruct (rewritten_retained_record m1 outcome) as (Hc & Ha).
    destruct Hre as ((_ & _ & _ & Hc1 & _) & _).
    eexists. rewrite Hmem. split; [apply lookup_insert_eq|].
    split; [rewrite Hc; exact Hc1|]. split; [exact Ha|].
    intros k Hk. apply lookup_insert_ne. congruence.
  - intros Hl _.
    eapply returns_mono; [apply Code4Facts.run_rmm_cycle_found4; exact Hl|].
    intros _ p' (outcome & m1 & Hre & Hmem & _).
    destruct (rewritten_retained_record m1 outcome) as (Hc & Ha).
    destruct Hre as ((_ & _ & _ & Hc1 & _) & _).
    eexists. rewrite Hmem. split; [apply lookup_insert_eq|].
    split; [rewrite Hc; exact Hc1|]. split; [exact Ha|].
    intros k Hk. apply lookup_insert_ne. congruence.
Qed.

(** A run that returns found its memory runnable. *)
Lemma run_cycle_completes_runnable (id : string)
    (p : Process (Out E) (Model E)) (m : Mem E)
    (p' : Process (Out E) (Model E)) :
  collection E (self p) !! id = Some m ->
  run_cycle E id p = Ok tt p' -> runnable E m.
Proof.
  destruct HE as [series_std| |]; simpl in *; [|intros; exact I..].
  intros Hl Hrun He.
  rewrite (CodeFacts.run_rmm_cycle_empty_scores series_std id m p Hl He)
    in Hrun.
  discriminate.
Qed.

(** A run on an absent identifier prints the report and does nothing else. *)
Lemma run_cycle_absent (id : string) (p : Process (Out E) (Model E)) :
  collection E (self p) !! id = None ->
  run_cycle E id p
  = Ok tt (mkProcess (rng p) (stdout p ++ not_found_report E id) (self p)).
Proof.
  intros Hl. destruct HE as [series_std| |]; simpl in *.
  - apply CodeFacts.run_rmm_cycle_not_found. exact Hl.
  - apply Code3Facts.run_rmm_cycle_not_found3. exact Hl.
  - apply Code4Facts.run_rmm_cycle_not_found4. exact Hl.
Qed.

(** The add operation returns; it stores a new memory, never processed and
    not adaptive, under the identifier and touches no other entry. *)
Lemma add_stores_new (id content inference : string) (valence : Q)
    (p : Process (Out E) (Model E)) :
  returns (add E id content inference valence) p
    (fun _ p' =>
       exists m,
         collection E (self p') !! id = Some m
         /\ count_of E m = 0%nat
         /\ adaptive_of E m = false
         /\ forall k, k <> id ->
              collection E (self p') !! k = collection E (self p) !! k).
Proof.
  destruct HE as [series_std| |]; simpl in *.
  - eapply returns_eq; [apply code_add_memory_eq|].
    eexists. simpl. split; [apply lookup_insert_eq|].
    split; [reflexivity|]. split; [reflexivity|].
    intros k Hk. apply lookup_insert_ne. congruence.
  - eapply returns_eq; [apply code3_add_memory_eq|].
    eexists. simpl. split; [apply lookup_insert_eq|].
    split; [reflexivity|]. split; [reflexivity|].
    intros k Hk. apply lookup_insert_ne. congruence.
  - eapply returns_eq; [apply code4_add_memory_eq|].
    eexists. simpl. split; [apply lookup_insert_eq|].
    split; [reflexivity|]. split; [reflexivity|].
    intros k Hk. apply lookup_insert_ne. congruence.
Qed.

End Engines.

(** One cycle of [Code.py] on a stored memory with scores: what it leaves
    of the scores, the two diagnostics and the count. *)
Lemma run_rmm_cycle_shifts (series_std : list Q -> Q) (id : string)
    (p : Process string Code.RMMModel) (m : Code.Memory) :
  Code.memories (self p) !! id = Some m ->
  Code.value_alignment_scores m <> [] ->
  exists outcome mr pr p1 m1,
    Code.reevaluate (CodeSpec.reactivated m) p = Ok (outcome, mr) pr
    /\ Code.run_rmm_cycle series_std id p = Ok tt p1
    /\ Code.memories (self p1) !! id = Some m1
    /\ Code.value_alignment_scores m1 = Code.value_alignment_scores mr
    /\ Code.value_alignment_scores m1 <> []
    /\ Code.reprocessing_count m1 = (Code.reprocessing_count m + 1)%nat
    /\ Code.agreement_shift m1
       = CodeSpec.mean (Code.value_alignment_scores m)
         - CodeSpec.mean (Code.value_alignment_scores m1)
    /\ Code.mischievous_shift m1
       = Qabs (series_std (map snd (Code.value_alignment_scores m1))
               - series_std (map snd (Code.value_alignment_scores m))).
Proof.
  intros Hl Hne.
  destruct (CodeCycleFacts.run_rmm_cycle_returns series_std id m p Hl Hne)
    as (outcome & mr & pr & Hre & Hrun).
  destruct (CodeCycleFacts.reevaluate_returns (CodeSpec.reactivated m) p)
    as (outcome' & mr' & pr' & Hre' & _ & _ & _ & _ & _ & _ & Hc & _ & _ & _
        & Hne').
  rewrite Hre in Hre'. inversion Hre'; subst outcome' mr' pr'.
  destruct (CodeCycleFacts.completed_fields series_std
              (Code.value_alignment_scores m) outcome mr)
    as (_ & _ & _ & Hcount & _ & Hscores & Hagree & Hmis).
  eexists outcome, mr, pr, _, _. split; [exact Hre|].
  split; [exact Hrun|]. simpl. split; [apply lookup_insert_eq|].
  split; [exact Hscores|].
  split; [rewrite Hscores; apply Hne'; exact Hne|].
  split; [rewrite Hcount, Hc; reflexivity|].
  split; [rewrite Hscores; exact Hagree|].
  rewrite Hscores. exact Hmis.
Qed.

(** In every reachable state of [Code.py], the scores of every stored
    memory are a result of [predict] on its current inference. *)
Lemma reachable_scored_by (series_std : list Q -> Q)
    (p : Process string Code.RMMModel) :
  CodeSpec.reachable series_std p ->
  forall id m,
    Code.memories (self p) !! id = Some m ->
    CodeSpec.scored_by (draws (rng p)) m.
Proof.
  induction 1 as [ds|p p' id0 content inference valence Hreach IH Hadd
                    |p p' id0 Hreach IH Hrun]; intros id m Hl.
  - simpl in Hl. rewrite lookup_empty in Hl. discriminate.
  - rewrite code_add_memory_eq in Hadd. inversion Hadd; subst p'.
    simpl in Hl |- *.
    destruct (decide (id0 = id)) as [->|Hne].
    + rewrite lookup_insert_eq in Hl. inversion Hl; subst m.
      exists (pos (rng p)). reflexivity.
    + rewrite lookup_insert_ne in Hl by exact Hne. apply (IH id m Hl).
  - destruct (Code.memories (self p) !! id0) as [m0|] eqn:Hl0.
    + destruct (CodeFacts.run_rmm_cycle_cases series_std id0 m0 p p' Hl0 Hrun)
        as (outcome & m1 & p1 & Hre & _ & Hmem & ->).
      assert (Hm1 : CodeSpec.scored_by (draws (rng p)) m1
                    /\ draws (rng p1) = draws (rng p)).
      { destruct (CodeFacts.flagged_dec
                    (Code.value_alignment_scores (CodeSpec.reactivated m0)))
          as [Hf|Hf].
        - rewrite (CodeFacts.reevaluate_flagged _ p Hf) in Hre.
          inversion Hre; subst. split; [|reflexivity].
          exists (pos (rng p)). reflexivity.
        - rewrite (CodeFacts.reevaluate_unflagged _ p Hf) in Hre.
          inversion Hre; subst. split; [|reflexivity].
          destruct (IH id0 m0 Hl0) as (i & Hi). exists i. exact Hi. }
      destruct Hm1 as (Hm1 & Hds). simpl in Hl |- *. rewrite Hds.
      destruct (decide (id0 = id)) as [->|Hne].
      * rewrite lookup_insert_eq in Hl. inversion Hl; subst m.
        destruct Hm1 as (i & Hi). exists i.
        destruct (CodeCycleFacts.completed_fields series_std
                    (Code.value_alignment_scores m0) outcome m1)
          as (_ & _ & Hinf & _ & _ & Hsc & _).
        rewrite Hsc, Hinf. exact Hi.
      * rewrite lookup_insert_ne in Hl by exact Hne.
        rewrite Hmem in Hl. apply (IH id m Hl).
    + rewrite (CodeFacts.run_rmm_cycle_not_found series_std id0 p Hl0) in Hrun.
      inversion Hrun; subst p'. simpl in Hl |- *. apply (IH id m Hl).
Qed.

(** The ranges of the data model in [Code.py]: after a run of the cycle that
    returns from a reachable state, the memory the run was called on has
    strength at least 0.1, valence within [-1, 1] and scores within [0, 1]. *)
Lemma code_cycle_in_range (series_std : list Q -> Q) (id : string)
    (p p' : Process string Code.RMMModel) (m : Code.Memory) :
  CodeSpec.reachable series_std p ->
  Code.memories (self p) !! id = Some m ->
  Code.run_rmm_cycle series_std id p = Ok tt p' ->
  exists m',
    Code.memories (self p') !! id = Some m' /\ CodeSpec.in_range m'.
Proof.
  intros Hreach Hl Hrun.
  pose proof (CodeSpec.reachable_cycle series_std p p' id Hreach Hrun)
    as Hreach'.
  destruct (CodeFacts.run_rmm_cycle_cases series_std id m p p' Hl Hrun)
    as (outcome & m1 & p1 & Hre & Hout & Hmem & Hp').
  destruct (CodeCycleFacts.reevaluate_returns (CodeSpec.reactivated m) p)
    as (outcome' & m1' & p1' & Hre' & _ & _ & _ & _ & _ & _ & _ & _ & Hs & Hv
        & _).
  rewrite Hre in Hre'. inversion Hre'; subst outcome' m1' p1'.
  assert (Hl' : Code.memories (self p') !! id
                = Some (CodeSpec.completed series_std
                          (Code.value_alignment_scores m) outcome m1)).
  { rewrite Hp'. simpl. apply lookup_insert_eq. }
  eexists. split; [exact Hl'|].
  destruct (reachable_scored_by series_std p' Hreach' id _ Hl') as (i & Hi).
  split; [|split].
  - destruct Hout as [-> | ->]; simpl; lra.
  - destruct Hout as [-> | ->]; simpl; [|exact Hv].
    split; [apply Q.min_glb; lra|apply Q.le_min_l].
  - intros principle v Hin. rewrite Hi in Hin.
    apply CodeFacts.scored_In in Hin as (kws & j & _ & ->).
    apply CodeFacts.principle_score_unit.
Qed.

(** * The properties of the specification *)

(** C3.  In each engine, a run of the cycle on a stored identifier returns
    (in [Code.py]: provided the memory has scores, without which the run
    raises), and then the memory stored under that identifier has its
    [reprocessing_count] increased by exactly one and every other entry of
    the collection is the one it was; a run on an absent identifier returns
    and leaves the collection as it was. *)
Theorem reprocessing_count_increments (E : Engine) (HE : engine E)
    (id : string) (p : Process (Out E) (Model E)) :
  (forall m,
      collection E (self p) !! id = Some m ->
      runnable E m ->
      returns (run_cycle E id) p
        (fun _ p' =>
           exists m',
             collection E (self p') !! id = Some m'
             /\ count_of E m' = (count_of E m + 1)%nat
             /\ forall k, k <> id ->
                  collection E (self p') !! k = collection E (self p) !! k))
  /\ (forall m p',
         collection E (self p) !! id = Some m ->
         run_cycle E id p = Ok tt p' -> runnable E m)
  /\ (collection E (self p) !! id = None ->
      returns (run_cycle E id) p
        (fun _ p' => collection E (self p') = collection E (self p))).
Proof.
  split; [|split].
  - intros m Hl Hr.
    eapply returns_mono; [apply (run_cycle_present E HE id p m Hl Hr)|].
    intros _ p' (m' & Hl' & Hc & _ & Hk). exists m'. auto.
  - apply run_cycle_completes_runnable. exact HE.
  - intros Hl. eapply returns_eq;
      [apply (run_cycle_absent E HE id p Hl)|reflexivity].
Qed.

Example code_sample_added :
  Code.add_memory "m1" "He brags." "I am boastful" 0.0 code_fresh
  = Ok tt code_sample.
Proof. vm_compute. reflexivity. Qed.

Lemma reprocessing_count_increments_witness :
  returns (Code.run_rmm_cycle range_spread "m1") code_sample
    (fun _ p' =>
       exists m',
         Code.memories (self p') !! "m1" = Some m'
         /\ Code.reprocessing_count m' = 1%nat
         /\ forall k, k <> "m1" ->
              Code.memories (self p') !! k
              = Code.memories (self code_sample) !! k)
  /\ returns (Code3.run_rmm_cycle "missing_id") code3_fresh
       (fun _ p' =>
          Code3.memories (self p') = Code3.memories (self code3_fresh)).
Proof.
  split.
  - apply (proj1 (reprocessing_count_increments (code_engine range_spread)
                    (engine_code range_spread) "m1" code_sample) boastful).
    + reflexivity.
    + simpl. discriminate.
  - apply (proj2 (proj2 (reprocessing_count_increments code3_engine
                           engine_code3 "missing_id" code3_fresh))).
    reflexivity.
Defined.

(** C4.  In each engine, a run of the cycle on an identifier absent from the
    collection raises nothing, prints the engine's not-found report and
    changes nothing else: the model object (collection and ECS) and the
    random generator are exactly what they were. *)
Theorem run_cycle_not_found (E : Engine) (HE : engine E) (id : string)
    (p : Process (Out E) (Model E)) :
  collection E (self p) !! id = None ->
  run_cycle E id p
  = Ok tt (mkProcess (rng p) (stdout p ++ not_found_report E id) (self p)).
Proof. apply run_cycle_absent. exact HE. Qed.

Lemma run_cycle_not_found_witness :
  Code4.run_rmm_cycle "missing_id" code4_fresh
  = Ok tt (mkProcess (rng code4_fresh)
             [Code3.Starting_cycle "missing_id";
              Code3.Error_not_found "missing_id";
              Code3.Cycle_aborted "missing_id"]
             (self code4_fresh))
  /\ Code4.memories (self code4_fresh) = ∅.
Proof.
  split; [|reflexivity].
  apply (run_cycle_not_found code4_engine engine_code4 "missing_id"
           code4_fresh).
  reflexivity.
Defined.

(** C6.  For every text and every stream of draws in [0, 1], [predict]
    returns one score per principle; every score lies in [0, 1] and is a
    multiple of 1/100 (rounded to two decimals); and the score of a principle
    with some negative-indicator keyword and no positive-indicator keyword in
    the lower-cased text is at least 0.65. *)
Theorem predict_scores_banded (text : string)
    (p : Process string Code.RMMModel) :
  good_draws p ->
  exists scores,
    Code.predict text p = Ok scores (advance 14 p)
    /\ map fst scores = Code.value_principles
    /\ forall principle v, In (principle, v) scores ->
         0 <= v <= 1
         /\ two_decimals v
         /\ forall kws,
              dict_get Code.value_spectrum_keywords principle = Some kws ->
              (0 < Code.keyword_count (Code.sin kws) (lower text))%nat ->
              Code.keyword_count (Code.virtue kws) (lower text) = 0%nat ->
              0.65 <= v.
Proof.
  intros Hd. eexists. split; [apply CodeFacts.predict_eq|].
  split; [apply CodeFacts.scored_keys|].
  intros principle v Hin.
  apply CodeFacts.scored_In in Hin as (kws & j & Hk & ->).
  split; [apply CodeFacts.principle_score_unit|].
  split; [apply CodeFacts.principle_score_two_decimals|].
  intros kws' Hget Hs Hv.
  apply (dict_get_In _ _ _ CodeFacts.value_spectrum_keywords_NoDup) in Hk.
  rewrite Hk in Hget. inversion Hget; subst kws'.
  apply CodeFacts.principle_score_high; auto.
Qed.

Lemma predict_scores_banded_witness :
  exists scores,
    Code.predict "I am Boastful" code_fresh = Ok scores (advance 14 code_fresh)
    /\ map fst scores = Code.value_principles
    /\ forall principle v, In (principle, v) scores ->
         0 <= v <= 1
         /\ two_decimals v
         /\ forall kws,
              dict_get Code.value_spectrum_keywords principle = Some kws ->
              (0 < Code.keyword_count (Code.sin kws)
                     (lower "I am Boastful"))%nat ->
              Code.keyword_count (Code.virtue kws) (lower "I am Boastful")
              = 0%nat ->
              0.65 <= v.
Proof.
  apply (predict_scores_banded "I am Boastful" code_fresh).
  intros n. unfold half_draws. simpl. split; unfold Qle; simpl; lia.
Defined.

(** C8.  The retain stage sets [is_adaptive] and is idempotent on the memory
    (in [Code3.py] it also prints, and touches neither the model nor the
    random generator).  In each engine: a memory is created with
    [is_adaptive] false; after a run of the cycle that returns, every stored
    memory has the flag it had, except the one the run was called on, whose
    flag is true -- so the flag is false until a cycle runs on the memory,
    true after, and never goes back; the add operation touches no entry but
    the one it creates. *)
Theorem is_adaptive_lifecycle (E : Engine) (HE : engine E) :
  (forall m : Code.Memory,
      Code.is_adaptive (Code.retain m) = true
      /\ Code.retain (Code.retain m) = Code.retain m)
  /\ (forall (Self : Type) (m : Code3.Memory) (p : Process Code3.Line Self),
         returns (Code3.retain_memory (Some m)) p
           (fun r p' =>
              exists m',
                r = Some m'
                /\ Code3.is_adaptive m' = true
                /\ rng p' = rng p /\ self p' = self p
                /\ returns (Code3.retain_memory (Some m')) p'
                     (fun r' p'' =>
                        r' = Some m' /\ rng p'' = rng p /\ self p'' = self p)))
  /\ (forall id content inference valence (p : Process (Out E) (Model E)),
         returns (add E id content inference valence) p
           (fun _ p' =>
              exists m,
                collection E (self p') !! id = Some m
                /\ adaptive_of E m = false
                /\ forall k, k <> id ->
                     collection E (self p') !! k = collection E (self p) !! k))
  /\ (forall id (p p' : Process (Out E) (Model E)) k m,
         run_cycle E id p = Ok tt p' ->
         collection E (self p) !! k = Some m ->
         exists m',
           collection E (self p') !! k = Some m'
           /\ adaptive_of E m' = adaptive_of E m || bool_decide (k = id)).
Proof.
  split; [|split; [|split]].
  - intros m. split; reflexivity.
  - intros Self m p.
    eapply returns_eq; [apply Code3Facts.retain_memory_eq|].
    eexists. split; [reflexivity|]. split; [reflexivity|].
    split; [reflexivity|]. split; [reflexivity|].
    eapply returns_eq; [apply Code3Facts.retain_memory_eq|].
    split; [|split]; reflexivity.
  - intros id content inference valence p.
    eapply returns_mono; [apply (add_stores_new E HE)|].
    intros _ p' (m & Hl & _ & Ha & Hk). exists m. auto.
  - intros id p p' k m Hrun Hk.
    destruct (collection E (self p) !! id) as [m0|] eqn:Hl.
    + pose proof (run_cycle_completes_runnable E HE id p m0 p' Hl Hrun) as Hr.
      pose proof (returns_inv _ _ _ _ _
                    (run_cycle_present E HE id p m0 Hl Hr) Hrun)
        as (m0' & Hl' & _ & Ha & Hother).
      destruct (decide (k = id)) as [->|Hne].
      * exists m0'. split; [exact Hl'|].
        rewrite Ha, bool_decide_eq_true_2 by reflexivity.
        symmetry. apply orb_true_r.
      * exists m. rewrite (Hother k Hne). split; [exact Hk|].
        rewrite bool_decide_eq_false_2 by exact Hne.
        symmetry. apply orb_false_r.
    + rewrite (run_cycle_absent E HE id p Hl) in Hrun.
      inversion Hrun; subst p'. simpl.
      exists m. split; [exact Hk|].
      rewrite bool_decide_eq_false_2 by congruence.
      symmetry. apply orb_false_r.
Qed.

Example code_sample_cycled_run :
  Code.run_rmm_cycle range_spread "m1" code_sample = Ok tt code_sample_cycled.
Proof. vm_compute. reflexivity. Qed.

Example code_sample_cycled_memory :
  exists m,
    Code.memories (self code_sample_cycled) !! "m1" = Some m
    /\ Code.current_inference m = "Improved perspective: He brags."
    /\ Code.reprocessing_count m = 1%nat
    /\ Code.strength m == 1.1
    /\ Code.current_valence m == 0.1
    /\ Code.agreement_shift m == 0.05
    /\ Code.mischievous_shift m == 0.35.
Proof. eexists. split; [reflexivity|]. repeat split. Qed.

Lemma is_adaptive_lifecycle_witness :
  exists m',
    Code.memories (self code_sample_cycled) !! "m1" = Some m'
    /\ Code.is_adaptive m'
       = Code.is_adaptive boastful || bool_decide ("m1" = "m1").
Proof.
  apply (proj2 (proj2 (proj2 (is_adaptive_lifecycle (code_engine range_spread)
                                 (engine_code range_spread))))
           "m1" code_sample code_sample_cycled "m1" boastful).
  - vm_compute. reflexivity.
  - reflexivity.
Defined.

(** C7.  In [Code.py], a run of the cycle on a stored memory with scores
    returns, and leaves [agreement_shift] equal to the mean of the scores the
    memory had when the run started minus the mean of the scores
    re-evaluation left it, and [mischievous_shift] equal to the absolute
    difference of the two standard deviations.  A second run right after
    computes both again from its own start and end scores (the end scores of
    the first run are its start scores), and the count is then two more than
    at the start. *)
Theorem shifts_recomputed_each_cycle (series_std : list Q -> Q) (id : string)
    (p : Process string Code.RMMModel) (m : Code.Memory) :
  Code.memories (self p) !! id = Some m ->
  Code.value_alignment_scores m <> [] ->
  let pre := Code.value_alignment_scores m in
  exists outcome1 mr1 pr1 p1 m1 outcome2 mr2 pr2 p2 m2,
    Code.reevaluate (CodeSpec.reactivated m) p = Ok (outcome1, mr1) pr1
    /\ Code.run_rmm_cycle series_std id p = Ok tt p1
    /\ Code.memories (self p1) !! id = Some m1
    /\ Code.agreement_shift m1
       = CodeSpec.mean pre - CodeSpec.mean (Code.value_alignment_scores mr1)
    /\ Code.mischievous_shift m1
       = Qabs (series_std (map snd (Code.value_alignment_scores mr1))
               - series_std (map snd pre))
    /\ Code.value_alignment_scores m1 = Code.value_alignment_scores mr1
    /\ Code.reevaluate (CodeSpec.reactivated m1) p1 = Ok (outcome2, mr2) pr2
    /\ Code.run_rmm_cycle series_std id p1 = Ok tt p2
    /\ Code.memories (self p2) !! id = Some m2
    /\ Code.agreement_shift m2
       = CodeSpec.mean (Code.value_alignment_scores mr1)
         - CodeSpec.mean (Code.value_alignment_scores mr2)
    /\ Code.mischievous_shift m2
       = Qabs (series_std (map snd (Code.value_alignment_scores mr2))
               - series_std (map snd (Code.value_alignment_scores mr1)))
    /\ Code.reprocessing_count m2 = (Code.reprocessing_count m + 2)%nat.
Proof.
  intros Hl Hne pre.
  destruct (run_rmm_cycle_shifts series_std id p m Hl Hne)
    as (outcome1 & mr1 & pr1 & p1 & m1 & Hre1 & Hrun1 & Hl1 & Hs1 & Hne1
        & Hc1 & Ha1 & Hm1).
  destruct (run_rmm_cycle_shifts series_std id p1 m1 Hl1 Hne1)
    as (outcome2 & mr2 & pr2 & p2 & m2 & Hre2 & Hrun2 & Hl2 & Hs2 & Hne2
        & Hc2 & Ha2 & Hm2).
  exists outcome1, mr1, pr1, p1, m1, outcome2, mr2, pr2, p2, m2.
  rewrite Hs1 in *. rewrite Hs2 in *.
  repeat (split; [assumption || reflexivity|]).
  rewrite Hc2, Hc1. lia.
Qed.

Lemma shifts_recomputed_each_cycle_witness :
  let pre := Code.value_alignment_scores boastful in
  exists outcome1 mr1 pr1 p1 m1 outcome2 mr2 pr2 p2 m2,
    Code.reevaluate (CodeSpec.reactivated boastful) code_sample
    = Ok (outcome1, mr1) pr1
    /\ Code.run_rmm_cycle range_spread "m1" code_sample = Ok tt p1
    /\ Code.memories (self p1) !! "m1" = Some m1
    /\ Code.agreement_shift m1
       = CodeSpec.mean pre - CodeSpec.mean (Code.value_alignment_scores mr1)
    /\ Code.mischievous_shift m1
       = Qabs (range_spread (map snd (Code.value_alignment_scores mr1))
               - range_spread (map snd pre))
    /\ Code.value_alignment_scores m1 = Code.value_alignment_scores mr1
    /\ Code.reevaluate (CodeSpec.reactivated m1) p1 = Ok (outcome2, mr2) pr2
    /\ Code.run_rmm_cycle range_spread "m1" p1 = Ok tt p2
    /\ Code.memories (self p2) !! "m1" = Some m2
    /\ Code.agreement_shift m2
       = CodeSpec.mean (Code.value_alignment_scores mr1)
         - CodeSpec.mean (Code.value_alignment_scores mr2)
    /\ Code.mischievous_shift m2
       = Qabs (range_spread (map snd (Code.value_alignment_scores mr2))
               - range_spread (map snd (Code.value_alignment_scores mr1)))
    /\ Code.reprocessing_count m2 = (Code.reprocessing_count boastful + 2)%nat.
Proof.
  apply (shifts_recomputed_each_cycle range_spread "m1" code_sample boastful).
  - reflexivity.
  - simpl. discriminate.
Defined.

(** C10.  In [Code.py], [reevaluate] returns, for every memory and every
    stream of draws, and its outcome is [inference_corrected] or [no_change];
    so the [dissonance_high] branch of [rewrite] is dead in [run_rmm_cycle]:
    with that branch deleted, [run_rmm_cycle] computes the same result from
    every state. *)
Theorem dissonance_branch_dead (series_std : list Q -> Q) :
  (forall (m : Code.Memory) (p : Process string Code.RMMModel),
      exists outcome m' p',
        Code.reevaluate m p = Ok (outcome, m') p'
        /\ (outcome = "inference_corrected" \/ outcome = "no_change"))
  /\ (forall (id : string) (p : Process string Code.RMMModel),
         Code.run_rmm_cycle series_std id p
         = CodeSpec.run_rmm_cycle_without_dissonance series_std id p).
Proof.
  split.
  - intros m p.
    destruct (CodeCycleFacts.reevaluate_returns m p)
      as (outcome & m' & p' & Hre & Hout & _).
    exists outcome, m', p'. split; assumption.
  - intros id p.
    unfold Code.run_rmm_cycle, CodeSpec.run_rmm_cycle_without_dissonance,
      bind, get_self.
    destruct (Code.memories (self p) !! id) as [m|]; [|reflexivity].
    destruct (py_div _ _ p) as [old_mean p0|e]; [|reflexivity].
    destruct (CodeCycleFacts.reevaluate_returns
                (Code.set_reprocessing_count m (Code.reprocessing_count m + 1))
                p0)
      as (outcome & m' & p' & Hre & Hout & _).
    rewrite Hre.
    destruct (py_div _ _ p') as [new_mean p1|e]; [|reflexivity].
    destruct Hout as [->| ->]; reflexivity.
Qed.

(** C2, as amended.  In [Code.py], [reevaluate] returns, for every memory and
    every stream of draws; its outcome follows the threshold policy on the
    scores stored in the memory (they are not recomputed first); when some
    stored score is flagged, the inference becomes "Improved perspective: "
    followed by the content and the scores become what [predict] returns for
    the new inference; otherwise inference and scores are unchanged.  In
    every reachable state the stored scores of a memory are a result of
    [predict] on its current inference.  In [Code3.py], [reevaluate_memory]
    returns one of three outcomes, [dissonance_high] among them, decided by
    keywords and draws ([no_change] when the first part finds none of its
    keywords). *)
Theorem reevaluate_threshold_policy (series_std : list Q -> Q) :
  (forall (m : Code.Memory) (p : Process string Code.RMMModel),
      exists outcome m' p',
        Code.reevaluate m p = Ok (outcome, m') p'
        /\ CodeSpec.threshold_policy (Code.value_alignment_scores m) outcome
        /\ (CodeSpec.flagged (Code.value_alignment_scores m) ->
            Code.current_inference m'
            = "Improved perspective: " ++ Code.content m
            /\ Code.predict (Code.current_inference m') p
               = Ok (Code.value_alignment_scores m') (advance 14 p))
        /\ (~ CodeSpec.flagged (Code.value_alignment_scores m) ->
            Code.current_inference m' = Code.current_inference m
            /\ Code.value_alignment_scores m' = Code.value_alignment_scores m))
  /\ (forall (p : Process string Code.RMMModel),
         CodeSpec.reachable series_std p ->
         forall id m,
           Code.memories (self p) !! id = Some m ->
           exists q,
             draws (rng q) = draws (rng p)
             /\ Code.predict (Code.current_inference m) q
                = Ok (Code.value_alignment_scores m) (advance 14 q))
  /\ (forall (m : Code3.Memory) (p : Process Code3.Line Code3.RMMModel),
         returns (Code3.reevaluate_memory (Some m)) p
           (fun r _ =>
              exists outcome m',
                r = (outcome, Some m')
                /\ (outcome = "inference_corrected"
                    \/ outcome = "dissonance_high" \/ outcome = "no_change")
                /\ (Code3Spec.mentions "gain" m = false ->
                    Code3Spec.mentions "upset" m = false ->
                    Code3Spec.mentions "alone" m = false ->
                    outcome = "no_change")))
  /\ (forall (m : Code3.Memory) (p : Process Code3.Line Code4.RMMModel),
         returns (Code4.reevaluate_memory (Some m)) p
           (fun r _ =>
              exists outcome m',
                r = (outcome, Some m')
                /\ (outcome = "inference_corrected"
                    \/ outcome = "dissonance_high" \/ outcome = "no_change"))).
Proof.
  split; [|split; [|split]].
  - intros m p.
    destruct (CodeFacts.flagged_dec (Code.value_alignment_scores m))
      as [Hf|Hf].
    + eexists _, _, _. split; [apply CodeFacts.reevaluate_flagged; exact Hf|].
      split; [split; [tauto|intros Hn; contradiction]|].
      split; [|intros Hn; contradiction].
      intros _. split; [reflexivity|]. apply CodeFacts.predict_eq.
    + eexists _, _, _. split; [apply CodeFacts.reevaluate_unflagged; exact Hf|].
      split; [split; [split; [discriminate|intros Hy; contradiction]
                     |reflexivity]|].
      split; [intros Hy; contradiction|].
      intros _. split; reflexivity.
  - intros p Hreach id m Hl.
    destruct (reachable_scored_by series_std p Hreach id m Hl) as (i & Hi).
    exists (mkProcess (mkRandom (draws (rng p)) i) (stdout p) (self p)).
    split; [reflexivity|]. rewrite CodeFacts.predict_eq, Hi. reflexivity.
  - intros m p.
    eapply returns_mono; [apply Code3Facts.reevaluate_memory_returns3|].
    intros r p' (outcome & m' & -> & Hre & _ & _ & _ & Hq).
    exists outcome, m'. split; [reflexivity|]. split; [|exact Hq].
    destruct Hre as (_ & _ & _ & [[-> _]|[[-> | ->] _]]); auto.
  - intros m p.
    eapply returns_mono; [apply Code4Facts.reevaluate_memory_returns4|].
    intros r p' (outcome & m' & -> & Hre & _).
    exists outcome, m'. split; [reflexivity|].
    destruct Hre as (_ & _ & _ & [[-> _]|[[-> | ->] _]]); auto.
Qed.

Lemma reevaluate_threshold_policy_witness :
  exists q,
    draws (rng q) = draws (rng code_sample)
    /\ Code.predict (Code.current_inference boastful) q
       = Ok (Code.value_alignment_scores boastful) (advance 14 q).
Proof.
  apply (proj1 (proj2 (reevaluate_threshold_policy range_spread))
           code_sample) with (id := "m1").
  - apply (CodeSpec.reachable_add range_spread code_fresh code_sample
             "m1" "He brags." "I am boastful" 0.0).
    + apply CodeSpec.reachable_fresh.
    + vm_compute. reflexivity.
  - reflexivity.
Defined.

(** C2 as stated fails: on a memory whose inference mentions "gain",
    [reevaluate_memory] of [Code3.py] can return [dissonance_high], which
    the threshold policy allows for no scores at all. *)
Lemma reevaluation_policy_counterexample :
  exists m' p',
    Code3.reevaluate_memory (Some gambler) code3_sample
    = Ok ("dissonance_high", Some m') p'
    /\ forall scores, ~ CodeSpec.threshold_policy scores "dissonance_high".
Proof.
  eexists _, _. split; [vm_compute; reflexivity|].
  intros scores [Hiff Hno].
  destruct (CodeFacts.flagged_dec scores) as [Hf|Hf].
  - apply Hiff in Hf. discriminate.
  - apply Hno in Hf. discriminate.
Qed.

(** The rewrite stage away from the unclamped product.  It uses no
    randomness: [rewrite] of [Code.py] is a function of the memory and the
    outcome, and [rewrite_memory] of [Code3.py] returns with the random
    generator and the model as they were.  For a memory within its ranges:
    given [inference_corrected] the new strength is [clamp (strength * 1.1)]
    and the new valence [clamp (valence + 0.1)]; given [dissonance_high] the
    new valence is [clamp (valence - 0.1)], and the new strength is
    [clamp (strength * 0.8)] as long as the strength was at least 0.125;
    [rewrite] leaves the memory unchanged on every other outcome, and
    [rewrite_memory] on [no_change]. *)
Lemma rewrite_stage_in_range (Self : Type) (m : Code.Memory)
    (m3 : Code3.Memory) (outcome : string) (p : Process Code3.Line Self) :
  0.1 <= Code.strength m -> -1.0 <= Code.current_valence m <= 1.0 ->
  0.1 <= Code3.strength m3 -> -1.0 <= Code3.current_valence m3 <= 1.0 ->
  let m' := Code.rewrite m outcome in
  (outcome = "inference_corrected" ->
   Code.strength m' == clamp_strength (Code.strength m * 1.1)
   /\ Code.current_valence m' == clamp_valence (Code.current_valence m + 0.1))
  /\ (outcome = "dissonance_high" ->
      Code.current_valence m' == clamp_valence (Code.current_valence m - 0.1)
      /\ (0.125 <= Code.strength m ->
          Code.strength m' == clamp_strength (Code.strength m * 0.8)))
  /\ (outcome <> "inference_corrected" -> outcome <> "dissonance_high" ->
      m' = m)
  /\ exists m3' p',
       Code3.rewrite_memory (Some m3) outcome p = Ok (Some m3') p'
       /\ rng p' = rng p /\ self p' = self p
       /\ (outcome = "inference_corrected" ->
           Code3.strength m3' == clamp_strength (Code3.strength m3 * 1.1)
           /\ Code3.current_valence m3'
              = clamp_valence (Code3.current_valence m3 + 0.1))
       /\ (outcome = "dissonance_high" ->
           Code3.current_valence m3'
           = clamp_valence (Code3.current_valence m3 - 0.1)
           /\ (0.125 <= Code3.strength m3 ->
               Code3.strength m3'
               == clamp_strength (Code3.strength m3 * 0.8)))
       /\ (outcome = "no_change" -> m3' = m3).
Proof.
  intros Hs [Hv0 Hv1] Hs3 [Hv30 Hv31] m'. subst m'.
  split; [|split; [|split]].
  - intros ->. simpl. split.
    + unfold clamp_strength. symmetry. apply Q.max_r. lra.
    + unfold clamp_valence. symmetry. apply Q.max_r.
      apply Q.min_glb; lra.
  - intros ->. simpl. split.
    + unfold clamp_valence.
      rewrite (Q.min_r 1.0 (Code.current_valence m - 0.1)) by lra.
      reflexivity.
    + intros Hs'. unfold clamp_strength. symmetry. apply Q.max_r. lra.
  - intros H1 H2. unfold Code.rewrite.
    apply String.eqb_neq in H1, H2. rewrite H1, H2. reflexivity.
  - eexists _, _. split; [apply Code3Facts.rewrite_memory_eq|].
    split; [reflexivity|]. split; [reflexivity|].
    unfold Code3Spec.rewritten. split; [|split].
    + intros ->. simpl. split; [|reflexivity].
      unfold clamp_strength. symmetry. apply Q.max_r. lra.
    + intros ->. simpl. split; [reflexivity|].
      intros Hs'. unfold clamp_strength. symmetry. apply Q.max_r. lra.
    + intros ->. reflexivity.
Qed.

(** C5 fails on [Code3.py], by the defect of C1.  In the session of C1 the
    eleventh cycle reactivates the memory, [reevaluate_memory] returns
    [dissonance_high] and leaves it within its ranges, with strength 0.8^10,
    and [rewrite_memory] is called on that memory and that outcome.  It uses
    no randomness and clamps the valence, as the claim says, but it returns
    the strength multiplied by 0.8 and not clamped: 0.8^11, below 0.1, where
    the claim says [clamp(strength * 0.8)], which is 0.1. *)
Theorem rewrite_strength_unclamped :
  good_draws code3_dissonant_fresh
  /\ exists p10 pr m pe me pw mw,
       (Code3.add_memory "m1" "Lost the bet." "Nothing to gain here." (-0.5);;
        code3_cycles 10 "m1") code3_dissonant_fresh = Ok tt p10
       /\ (print (Code3.Starting_cycle "m1");; Code3.reactivate_memory "m1")
            p10 = Ok (Some m) pr
       /\ Code3.reevaluate_memory (Some m) pr
          = Ok ("dissonance_high", Some me) pe
       /\ 0.1 <= Code3.strength me
       /\ -1.0 <= Code3.current_valence me <= 1.0
       /\ Code3.rewrite_memory (Some me) "dissonance_high" pe
          = Ok (Some mw) pw
       /\ rng pw = rng pe
       /\ Code3.current_valence mw
          == clamp_valence (Code3.current_valence me - 0.1)
       /\ Code3.strength mw == Code3.strength me * 0.8
       /\ Code3.strength mw == 4194304 # 48828125
       /\ Code3.strength mw < 0.1
       /\ clamp_strength (Code3.strength me * 0.8) == 0.1
       /\ ~ Code3.strength mw == clamp_strength (Code3.strength me * 0.8).
Proof.
  split.
  - intros n. change (0 <= dissonant_draws n <= 1). unfold dissonant_draws.
    destruct (n mod 4)%nat as [|[|k]]; split; discriminate.
  - eexists _, _, _, _, _, _, _.
    split; [vm_compute; reflexivity|].
    split; [vm_compute; reflexivity|].
    split; [vm_compute; reflexivity|].
    split; [vm_compute; discriminate|].
    split; [split; vm_compute; discriminate|].
    split; [vm_compute; reflexivity|].
    split; [reflexivity|].
    split; [vm_compute; reflexivity|].
    split; [vm_compute; reflexivity|].
    split; [vm_compute; reflexivity|].
    split; [vm_compute; reflexivity|].
    split; [vm_compute; reflexivity|].
    vm_compute. discriminate.
Qed.

(** C9, as amended.  In every engine, the add operation called with an
    identifier already present returns and overwrites the entry with the
    newly created memory; it never rejects.  Both parts of [Code3.py] print
    the warning and then the added memory; [Code.py] prints nothing. *)
Theorem add_existing_overwrites (id content inference : string) (valence : Q)
    (p : Process string Code.RMMModel)
    (p3 : Process Code3.Line Code3.RMMModel)
    (p4 : Process Code3.Line Code4.RMMModel) :
  is_Some (Code.memories (self p) !! id) ->
  is_Some (Code3.memories (self p3) !! id) ->
  is_Some (Code4.memories (self p4) !! id) ->
  let new3 := Code3.Memory_init id content inference valence 1.0 in
  (exists new p',
      Code.add_memory id content inference valence p = Ok tt p'
      /\ Code.memories (self p') = <[id := new]> (Code.memories (self p))
      /\ Code.content new = content
      /\ Code.reprocessing_count new = 0%nat
      /\ stdout p' = stdout p)
  /\ (exists p3',
         Code3.add_memory id content inference valence p3 = Ok tt p3'
         /\ Code3.memories (self p3')
            = <[id := new3]> (Code3.memories (self p3))
         /\ stdout p3'
            = (stdout p3
               ++ [Code3.Warning_already_exists id;
                   Code3.Added_new_memory new3])%list)
  /\ (exists p4',
         Code4.add_memory id content inference valence p4 = Ok tt p4'
         /\ Code4.memories (self p4')
            = <[id := new3]> (Code4.memories (self p4))
         /\ stdout p4'
            = (stdout p4
               ++ [Code3.Warning_already_exists id;
                   Code3.Added_new_memory new3])%list).
Proof.
  intros H H3 H4 new3. split; [|split].
  - eexists _, _. split; [apply code_add_memory_eq|].
    repeat split.
  - eexists. split; [apply code3_add_memory_eq|].
    split; [reflexivity|]. simpl.
    rewrite bool_decide_eq_true_2 by exact H3. reflexivity.
  - eexists. split; [apply code4_add_memory_eq|].
    split; [reflexivity|]. simpl.
    rewrite bool_decide_eq_true_2 by exact H4. reflexivity.
Qed.

Lemma add_existing_overwrites_witness :
  let new3 :=
    Code3.Memory_init "m1" "Won the bet." "Much to gain." 0.5 1.0 in
  (exists new p',
      Code.add_memory "m1" "Won the bet." "Much to gain." 0.5 code_sample
      = Ok tt p'
      /\ Code.memories (self p')
         = <["m1" := new]> (Code.memories (self code_sample))
      /\ Code.content new = "Won the bet."
      /\ Code.reprocessing_count new = 0%nat
      /\ stdout p' = stdout code_sample)
  /\ (exists p3',
         Code3.add_memory "m1" "Won the bet." "Much to gain." 0.5 code3_sample
         = Ok tt p3'
         /\ Code3.memories (self p3')
            = <["m1" := new3]> (Code3.memories (self code3_sample))
         /\ stdout p3'
            = (stdout code3_sample
               ++ [Code3.Warning_already_exists "m1";
                   Code3.Added_new_memory new3])%list)
  /\ (exists p4',
         Code4.add_memory "m1" "Won the bet." "Much to gain." 0.5 code4_sample
         = Ok tt p4'
         /\ Code4.memories (self p4')
            = <["m1" := new3]> (Code4.memories (self code4_sample))
         /\ stdout p4'
            = (stdout code4_sample
               ++ [Code3.Warning_already_exists "m1";
                   Code3.Added_new_memory new3])%list).
Proof.
  apply (add_existing_overwrites "m1" "Won the bet." "Much to gain." 0.5
           code_sample code3_sample code4_sample).
  - exists boastful. reflexivity.
  - exists gambler. reflexivity.
  - exists gambler. reflexivity.
Defined.

(** C9 as stated fails: [add_memory] of [Code.py], called with an identifier
    already present, prints no warning and does not reject either: the
    stored memory is replaced. *)
Lemma add_duplicate_counterexample :
  exists p',
    Code.add_memory "m1" "Won the bet." "Much to gain." 0.5 code_sample
    = Ok tt p'
    /\ Code.memories (self code_sample) !! "m1" = Some boastful
    /\ stdout p' = stdout code_sample
    /\ Code.memories (self p') !! "m1" <> Some boastful.
Proof.
  eexists. split; [apply code_add_memory_eq|].
  split; [reflexivity|]. split; [reflexivity|].
  simpl. rewrite lookup_insert_eq. intros H. inversion H.
Qed.

(** C1 fails on [Code3.py].  The draws are legitimate results of
    [random.random()]; the session adds one memory and runs eleven cycles on
    it, each ending in [dissonance_high]; the rewrite stage multiplies the
    strength by 0.8 after the modulation has clamped it, and the memory ends
    with strength 0.8^11, below 0.1. *)
Theorem strength_floor_broken :
  good_draws code3_dissonant_fresh
  /\ exists p' m,
       code3_session code3_dissonant_fresh = Ok tt p'
       /\ Code3.memories (self p') !! "m1" = Some m
       /\ Code3.reprocessing_count m = 11%nat
       /\ Code3.is_adaptive m = true
       /\ Code3.strength m == 4194304 # 48828125
       /\ Code3.strength m < 0.1.
Proof.
  split.
  - intros n. change (0 <= dissonant_draws n <= 1). unfold dissonant_draws.
    destruct (n mod 4)%nat as [|[|k]]; split; discriminate.
  - eexists _, _. split; [vm_compute; reflexivity|].
    split; [vm_compute; reflexivity|].
    split; [reflexivity|]. split; [reflexivity|].
    split; vm_compute; reflexivity.
Qed.

(** * Further properties of the code *)

(** ** [Code.py]: the two ways a cycle ends, and the reachable states *)
Module CodeInvFacts.
Import Code CodeSpec CodeInv.

(** A run on a stored memory that returns ends in one of two states, by
    whether a stored score was flagged. *)
Lemma run_rmm_cycle_shape (series_std : list Q -> Q) (id : string)
    (m : Memory) (p p' : Process string RMMModel) :
  memories (self p) !! id = Some m ->
  run_rmm_cycle series_std id p = Ok tt p' ->
  let base := baseline_modulation_strength (ecs (self p)) in
  value_alignment_scores m <> []
  /\ ((flagged (value_alignment_scores m)
       /\ p' = with_memory id
                 (completed series_std (value_alignment_scores m)
                    "inference_corrected"
                    (modulated (base * 1.5) (draw p 14) (draw p 15)
                       (corrected (reactivated m) (draws (rng p))
                          (pos (rng p)))))
                 (with_modulation (base * 1.5) (advance 16 p)))
      \/ (~ flagged (value_alignment_scores m)
          /\ p' = with_memory id
                    (completed series_std (value_alignment_scores m)
                       "no_change"
                       (modulated base (draw p 0) (draw p 1) (reactivated m)))
                    (with_modulation base (advance 2 p)))).
Proof.
  intros Hl Hrun base.
  assert (Hne : value_alignment_scores m <> []).
  { intros He.
    rewrite (CodeFacts.run_rmm_cycle_empty_scores series_std id m p Hl He)
      in Hrun.
    discriminate. }
  split; [exact Hne|].
  destruct (CodeFacts.flagged_dec (value_alignment_scores m)) as [Hf|Hf].
  - left. split; [exact Hf|].
    rewrite (CodeFacts.run_rmm_cycle_flagged series_std id m p Hl Hf) in Hrun.
    inversion Hrun. reflexivity.
  - right. split; [exact Hf|].
    rewrite (CodeFacts.run_rmm_cycle_unflagged series_std id m p Hl Hne Hf)
      in Hrun.
    inversion Hrun. reflexivity.
Qed.

Lemma modulated_strength_floor (cm u1 u2 : Q) (m : Memory) :
  0.1 <= strength (modulated cm u1 u2 m).
Proof. simpl. apply Q.le_max_l. Qed.

Lemma modulated_valence_range (cm u1 u2 : Q) (m : Memory) :
  -1.0 <= current_valence (modulated cm u1 u2 m) <= 1.0.
Proof.
  simpl. split; [apply Q.le_max_l|].
  apply Q.max_lub; [lra|apply Q.le_min_l].
Qed.

(** The memory a correcting cycle leaves satisfies the invariant. *)
Lemma corrected_stored_ok (series_std : list Q -> Q)
    (old : list (string * Q)) (cm u1 u2 : Q) (m : Memory) (ds : nat -> Q)
    (i : nat) (key : string) :
  identifier m = key ->
  stored_ok ds key
    (completed series_std old "inference_corrected"
       (modulated cm u1 u2 (corrected (reactivated m) ds i))).
Proof.
  intros Hid.
  pose proof (modulated_strength_floor cm u1 u2
                (corrected (reactivated m) ds i)) as Hs.
  pose proof (modulated_valence_range cm u1 u2
                (corrected (reactivated m) ds i)) as Hv.
  split; [exact Hid|]. split; [|split; [|split]].
  - change (0.1 <= strength (modulated cm u1 u2
                               (corrected (reactivated m) ds i)) * 1.1).
    lra.
  - exists i. reflexivity.
  - simpl. split; [intros _; lia|reflexivity].
  - intros _.
    change (-1.0 <= Qmin 1.0
                      (current_valence
                         (modulated cm u1 u2 (corrected (reactivated m) ds i))
                       + 0.1) <= 1.0).
    split; [apply Q.min_glb; lra|apply Q.le_min_l].
Qed.

(** So does the memory a cycle without correction leaves. *)
Lemma unchanged_stored_ok (series_std : list Q -> Q)
    (old : list (string * Q)) (cm u1 u2 : Q) (m : Memory) (ds : nat -> Q)
    (key : string) :
  identifier m = key ->
  scored_by ds m ->
  stored_ok ds key
    (completed series_std old "no_change"
       (modulated cm u1 u2 (reactivated m))).
Proof.
  intros Hid Hsc.
  split; [exact Hid|]. split; [|split; [|split]].
  - apply (modulated_strength_floor cm u1 u2 (reactivated m)).
  - exact Hsc.
  - simpl. split; [intros _; lia|reflexivity].
  - intros _. apply (modulated_valence_range cm u1 u2 (reactivated m)).
Qed.

(** The invariant of the reachable states. *)
Lemma reachable_ok (series_std : list Q -> Q)
    (p : Process string RMMModel) :
  reachable series_std p ->
  ecs_ok (ecs (self p))
  /\ forall key m,
       memories (self p) !! key = Some m ->
       stored_ok (draws (rng p)) key m.
Proof.
  induction 1 as [ds|p p' id0 content inference valence Hreach IH Hadd
                    |p p' id0 Hreach IH Hrun].
  - split.
    + split; [reflexivity|left; reflexivity].
    + intros key m Hl. simpl in Hl. rewrite lookup_empty in Hl. discriminate.
  - destruct IH as (Hecs & IH).
    rewrite code_add_memory_eq in Hadd. inversion Hadd; subst p'.
    split; [exact Hecs|]. intros key m Hl. simpl in Hl |- *.
    destruct (decide (id0 = key)) as [->|Hne].
    + rewrite lookup_insert_eq in Hl. inversion Hl; subst m.
      split; [reflexivity|]. split; [simpl; lra|].
      split; [exists (pos (rng p)); reflexivity|].
      split; [simpl; split; [discriminate|lia]|].
      simpl. intros [Hc|Hv]; [lia|exact Hv].
    + rewrite lookup_insert_ne in Hl by exact Hne. apply (IH key m Hl).
  - destruct IH as (Hecs & IH).
    destruct (memories (self p) !! id0) as [m0|] eqn:Hl0.
    + destruct (run_rmm_cycle_shape series_std id0 m0 p p' Hl0 Hrun)
        as (_ & [(Hf & ->)|(Hf & ->)]);
        destruct Hecs as (Hbase & Hcur);
        destruct (IH id0 m0 Hl0) as (Hid0 & _ & Hsc0 & _).
      * split.
        { split; [exact Hbase|]. right. simpl. rewrite Hbase. reflexivity. }
        intros key m Hl. simpl in Hl |- *.
        destruct (decide (id0 = key)) as [->|Hne].
        -- rewrite lookup_insert_eq in Hl. inversion Hl; subst m.
           apply corrected_stored_ok. exact Hid0.
        -- rewrite lookup_insert_ne in Hl by exact Hne. apply (IH key m Hl).
      * split.
        { split; [exact Hbase|]. left. simpl. rewrite Hbase. reflexivity. }
        intros key m Hl. simpl in Hl |- *.
        destruct (decide (id0 = key)) as [->|Hne].
        -- rewrite lookup_insert_eq in Hl. inversion Hl; subst m.
           apply unchanged_stored_ok; [exact Hid0|exact Hsc0].
        -- rewrite lookup_insert_ne in Hl by exact Hne. apply (IH key m Hl).
    + rewrite (CodeFacts.run_rmm_cycle_not_found series_std id0 p Hl0) in Hrun.
      inversion Hrun; subst p'. split; [exact Hecs|exact IH].
Qed.

Lemma scored_by_scores (ds : nat -> Q) (m : Memory) :
  scored_by ds m ->
  map fst (value_alignment_scores m) = value_principles
  /\ value_alignment_scores m <> []
  /\ forall principle v,
       In (principle, v) (value_alignment_scores m) -> 0 <= v <= 1.
Proof.
  intros (i & Hi). rewrite Hi. split; [apply CodeFacts.scored_keys|].
  split; [discriminate|].
  intros principle v Hin.
  apply CodeFacts.scored_In in Hin as (kws & j & _ & ->).
  apply CodeFacts.principle_score_unit.
Qed.

End CodeInvFacts.

Lemma code_sample_reachable : CodeSpec.reachable range_spread code_sample.
Proof.
  apply (CodeSpec.reachable_add range_spread code_fresh code_sample
           "m1" "He brags." "I am boastful" 0.0).
  - apply CodeSpec.reachable_fresh.
  - vm_compute. reflexivity.
Qed.

Lemma code_sample_cycled_reachable :
  CodeSpec.reachable range_spread code_sample_cycled.
Proof.
  apply (CodeSpec.reachable_cycle range_spread code_sample code_sample_cycled
           "m1").
  - apply code_sample_reachable.
  - vm_compute. reflexivity.
Qed.

(** X1.  In every state [Code.py] reaches from a fresh model by [add_memory]
    and completed [run_rmm_cycle] calls, every stored memory has strength at
    least 0.1 and all its scores within [0, 1]; its valence is within
    [-1, 1] as soon as a cycle has run on it, and before that whenever the
    valence it was added with was. *)
Theorem reachable_memories_in_range (series_std : list Q -> Q)
    (p : Process string Code.RMMModel) (key : string) (m : Code.Memory) :
  CodeSpec.reachable series_std p ->
  Code.memories (self p) !! key = Some m ->
  0.1 <= Code.strength m
  /\ (forall principle v,
         In (principle, v) (Code.value_alignment_scores m) -> 0 <= v <= 1)
  /\ ((1 <= Code.reprocessing_count m)%nat
      \/ -1.0 <= Code.initial_valence m <= 1.0 ->
      -1.0 <= Code.current_valence m <= 1.0).
Proof.
  intros Hreach Hl.
  destruct (CodeInvFacts.reachable_ok series_std p Hreach) as (_ & Hok).
  destruct (Hok key m Hl) as (_ & Hs & Hsc & _ & Hv).
  split; [exact Hs|]. split; [|exact Hv].
  apply (CodeInvFacts.scored_by_scores _ _ Hsc).
Qed.

Lemma reachable_memories_in_range_witness :
  exists m,
    Code.memories (self code_sample_cycled) !! "m1" = Some m
    /\ 0.1 <= Code.strength m
    /\ (forall principle v,
           In (principle, v) (Code.value_alignment_scores m) -> 0 <= v <= 1)
    /\ ((1 <= Code.reprocessing_count m)%nat
        \/ -1.0 <= Code.initial_valence m <= 1.0 ->
        -1.0 <= Code.current_valence m <= 1.0).
Proof.
  eexists. split; [reflexivity|].
  apply (reachable_memories_in_range range_spread code_sample_cycled "m1").
  - apply code_sample_cycled_reachable.
  - reflexivity.
Defined.

(** X2.  In every reachable state of [Code.py], a memory is stored under its
    own identifier, has exactly one score per principle of the table, in the
    table's order, and is adaptive exactly when a cycle has run on it. *)
Theorem reachable_memories_well_formed (series_std : list Q -> Q)
    (p : Process string Code.RMMModel) (key : string) (m : Code.Memory) :
  CodeSpec.reachable series_std p ->
  Code.memories (self p) !! key = Some m ->
  Code.identifier m = key
  /\ map fst (Code.value_alignment_scores m) = Code.value_principles
  /\ (Code.is_adaptive m = true <-> (1 <= Code.reprocessing_count m)%nat).
Proof.
  intros Hreach Hl.
  destruct (CodeInvFacts.reachable_ok series_std p Hreach) as (_ & Hok).
  destruct (Hok key m Hl) as (Hid & _ & Hsc & Ha & _).
  split; [exact Hid|]. split; [|exact Ha].
  apply (CodeInvFacts.scored_by_scores _ _ Hsc).
Qed.

Lemma reachable_memories_well_formed_witness :
  Code.identifier boastful = "m1"
  /\ map fst (Code.value_alignment_scores boastful) = Code.value_principles
  /\ (Code.is_adaptive boastful = true
      <-> (1 <= Code.reprocessing_count boastful)%nat).
Proof.
  apply (reachable_memories_well_formed range_spread code_sample "m1").
  - apply code_sample_reachable.
  - reflexivity.
Defined.

(** X3.  In every reachable state of [Code.py], the ECS object has its
    baseline at 0.1 and a current modulation that is not below the baseline:
    the halved modulation of [dissonance_high] is never in effect.  The
    modulation is the one [get_feedback_signal] sets for [no_change] or for
    [inference_corrected]: called with that outcome again it leaves the
    modulation and the collection as they are. *)
Theorem reachable_modulation_levels (series_std : list Q -> Q)
    (p : Process string Code.RMMModel) :
  CodeSpec.reachable series_std p ->
  Code.baseline_modulation_strength (Code.ecs (self p)) = 0.1
  /\ Code.baseline_modulation_strength (Code.ecs (self p))
     <= Code.current_modulation (Code.ecs (self p))
  /\ exists outcome signal p',
       (outcome = "no_change" \/ outcome = "inference_corrected")
       /\ Code.get_feedback_signal outcome p = Ok signal p'
       /\ Code.current_modulation (Code.ecs (self p'))
          == Code.current_modulation (Code.ecs (self p))
       /\ Code.memories (self p') = Code.memories (self p).
Proof.
  intros Hreach.
  destruct (CodeInvFacts.reachable_ok series_std p Hreach)
    as ((Hbase & Hcm) & _).
  split; [exact Hbase|]. rewrite Hbase. split.
  - destruct Hcm as [E|E]; rewrite E; discriminate.
  - destruct Hcm as [E|E].
    + exists "no_change". eexists _, _. split; [left; reflexivity|].
      split; [rewrite CodeFacts.get_feedback_signal_eq; reflexivity|].
      split; [|reflexivity]. simpl. rewrite Hbase, E. reflexivity.
    + exists "inference_corrected". eexists _, _.
      split; [right; reflexivity|].
      split; [rewrite CodeFacts.get_feedback_signal_eq; reflexivity|].
      split; [|reflexivity]. simpl. rewrite Hbase, E. reflexivity.
Qed.

Lemma reachable_modulation_levels_witness :
  Code.baseline_modulation_strength (Code.ecs (self code_sample_cycled)) = 0.1
  /\ Code.baseline_modulation_strength (Code.ecs (self code_sample_cycled))
     <= Code.current_modulation (Code.ecs (self code_sample_cycled))
  /\ exists outcome signal p',
       (outcome = "no_change" \/ outcome = "inference_corrected")
       /\ Code.get_feedback_signal outcome code_sample_cycled = Ok signal p'
       /\ Code.current_modulation (Code.ecs (self p'))
          == Code.current_modulation (Code.ecs (self code_sample_cycled))
       /\ Code.memories (self p') = Code.memories (self code_sample_cycled).
Proof.
  apply (reachable_modulation_levels range_spread code_sample_cycled).
  apply code_sample_cycled_reachable.
Defined.

(** X4.  From every reachable state of [Code.py] both operations return:
    [run_rmm_cycle] never divides by an empty score map, whatever the
    identifier, and [add_memory] never misses a key of the keyword table. *)
Theorem reachable_never_raises (series_std : list Q -> Q)
    (p : Process string Code.RMMModel) :
  CodeSpec.reachable series_std p ->
  (forall id, exists p', Code.run_rmm_cycle series_std id p = Ok tt p')
  /\ (forall id content inference valence,
         exists p', Code.add_memory id content inference valence p = Ok tt p').
Proof.
  intros Hreach. split.
  - intros id.
    destruct (Code.memories (self p) !! id) as [m|] eqn:Hl.
    + destruct (CodeInvFacts.reachable_ok series_std p Hreach) as (_ & Hok).
      destruct (Hok id m Hl) as (_ & _ & Hsc & _).
      destruct (CodeInvFacts.scored_by_scores _ _ Hsc) as (_ & Hne & _).
      destruct (CodeCycleFacts.run_rmm_cycle_returns series_std id m p Hl Hne)
        as (outcome & m1 & p1 & _ & Hrun).
      eexists. exact Hrun.
    + eexists. apply CodeFacts.run_rmm_cycle_not_found. exact Hl.
  - intros id content inference valence. eexists. apply code_add_memory_eq.
Qed.

Lemma reachable_never_raises_witness :
  (forall id, exists p', Code.run_rmm_cycle range_spread id code_sample = Ok tt p')
  /\ (forall id content inference valence,
         exists p',
           Code.add_memory id content inference valence code_sample = Ok tt p').
Proof.
  apply (reachable_never_raises range_spread code_sample).
  apply code_sample_reachable.
Defined.

(** ** [Code.py]: the four bands of the value scorer *)

Lemma clamp_unit_le (c x : Q) : 0 <= c -> x <= c -> Qmax 0.0 (Qmin 1.0 x) <= c.
Proof.
  intros Hc Hx. apply Q.max_lub; [lra|].
  apply Qle_trans with x; [apply Q.le_min_r|exact Hx].
Qed.

Lemma round2_between (lo hi : Z) (x : Q) :
  inject_Z lo / 100 <= x <= inject_Z hi / 100 ->
  inject_Z lo / 100 <= round2 x <= inject_Z hi / 100.
Proof. intros [H1 H2]. split; [apply round2_ge|apply round2_le]; assumption. Qed.

(** The band of a stored score, by the keyword counts of its principle. *)
Lemma principle_score_bands (kws : Code.Spectrum) (text : string) (u1 u2 : Q) :
  0 <= u1 <= 1 -> 0 <= u2 <= 1 ->
  let s := Code.keyword_count (Code.sin kws) text in
  let v := Code.keyword_count (Code.virtue kws) text in
  let score := CodeSpec.principle_score kws text u1 u2 in
  ((0 < s)%nat /\ v = 0%nat -> 0.65 <= score <= 1)
  /\ ((0 < v)%nat /\ s = 0%nat -> 0 <= score <= 0.35)
  /\ ((0 < s)%nat /\ (0 < v)%nat -> 0.25 <= score <= 0.75)
  /\ (s = 0%nat /\ v = 0%nat -> 0.30 <= score <= 0.70).
Proof.
  intros Hu1 Hu2 s v score. subst s v score. unfold CodeSpec.principle_score.
  pose proof (uniform_band (-0.05) 0.05 u2 ltac:(lra) Hu2) as Hj.
  assert (Hband : forall (lo hi : Z) (a b : Q),
             a <= b ->
             inject_Z lo / 100 == a - 0.05 -> inject_Z hi / 100 == b + 0.05 ->
             0 <= a - 0.05 -> b + 0.05 <= 1 ->
             inject_Z lo / 100
             <= round2 (Qmax 0.0
                          (Qmin 1.0 (a + (b - a) * u1
                                     + (-0.05 + (0.05 - -0.05) * u2)))) 
             <= inject_Z hi / 100).
  { intros lo hi a b Hab Hlo Hhi H0 H1.
    pose proof (uniform_band a b u1 Hab Hu1) as Hs.
    apply round2_between. split.
    - apply clamp_unit_ge; lra.
    - apply clamp_unit_le; lra. }
  split; [|split; [|split]].
  - intros [Hs Hv]. apply Nat.ltb_lt in Hs. rewrite Hs, Hv. simpl andb.
    cbv iota.
    split.
    + apply Qle_trans with (inject_Z 65 / 100); [unfold Qle; simpl; lia|].
      apply round2_ge. apply clamp_unit_ge; [unfold Qle; simpl; lia|].
      pose proof (uniform_band 0.7 1.0 u1 ltac:(lra) Hu1).
      assert (E : inject_Z 65 / 100 == 0.65) by reflexivity. lra.
    + apply round2_unit. apply clamp_unit.
  - intros [Hv Hs]. apply Nat.ltb_lt in Hv. rewrite Hv, Hs. simpl.
    split; [apply round2_unit; apply clamp_unit|].
    apply Qle_trans with (inject_Z 35 / 100); [|unfold Qle; simpl; lia].
    apply round2_le. apply clamp_unit_le; [unfold Qle; simpl; lia|].
    pose proof (uniform_band 0.0 0.3 u1 ltac:(lra) Hu1).
    assert (E : inject_Z 35 / 100 == 0.35) by reflexivity. lra.
  - intros [Hs Hv]. apply Nat.ltb_lt in Hs, Hv. rewrite Hs, Hv.
    destruct (Code.keyword_count (Code.virtue kws) text) as [|nv] eqn:Ev;
      [discriminate|].
    destruct (Code.keyword_count (Code.sin kws) text) as [|ns] eqn:Es;
      [discriminate|].
    simpl.
    destruct (Hband 25%Z 75%Z 0.3 0.7) as [H1 H2];
      [lra|reflexivity|reflexivity|lra|lra|].
    split.
    + apply Qle_trans with (inject_Z 25 / 100); [unfold Qle; simpl; lia|].
      exact H1.
    + apply Qle_trans with (inject_Z 75 / 100); [exact H2|].
      unfold Qle; simpl; lia.
  - intros [Hs Hv]. rewrite Hs, Hv. simpl.
    destruct (Hband 30%Z 70%Z 0.35 0.65) as [H1 H2];
      [lra|reflexivity|reflexivity|lra|lra|].
    split.
    + apply Qle_trans with (inject_Z 30 / 100); [unfold Qle; simpl; lia|].
      exact H1.
    + apply Qle_trans with (inject_Z 70 / 100); [exact H2|].
      unfold Qle; simpl; lia.
Qed.

(** X5.  For draws in [0, 1], every score [predict] returns lies in the band
    of its principle's keyword counts in the lower-cased text: [0.65, 1] with
    negative indicators only, [0, 0.35] with positive indicators only,
    [0.25, 0.75] with both and [0.30, 0.70] with neither.  So a score above
    the 0.75 threshold of [reevaluate] belongs to a principle with a
    negative-indicator keyword and no positive-indicator keyword in the
    text. *)
Theorem predict_bands (text : string) (p : Process string Code.RMMModel) :
  good_draws p ->
  exists scores,
    Code.predict text p = Ok scores (advance 14 p)
    /\ forall principle score,
         In (principle, score) scores ->
         exists kws,
           dict_get Code.value_spectrum_keywords principle = Some kws
           /\ let s := Code.keyword_count (Code.sin kws) (lower text) in
              let v := Code.keyword_count (Code.virtue kws) (lower text) in
              ((0 < s)%nat /\ v = 0%nat -> 0.65 <= score <= 1)
              /\ ((0 < v)%nat /\ s = 0%nat -> 0 <= score <= 0.35)
              /\ ((0 < s)%nat /\ (0 < v)%nat -> 0.25 <= score <= 0.75)
              /\ (s = 0%nat /\ v = 0%nat -> 0.30 <= score <= 0.70)
              /\ (0.75 < score -> (0 < s)%nat /\ v = 0%nat).
Proof.
  intros Hd. eexists. split; [apply CodeFacts.predict_eq|].
  intros principle score Hin.
  apply CodeFacts.scored_In in Hin as (kws & j & Hk & ->).
  exists kws. split.
  { apply dict_get_In; [apply CodeFacts.value_spectrum_keywords_NoDup|exact Hk]. }
  destruct (principle_score_bands kws (lower text)
              (draws (rng p) j) (draws (rng p) (j + 1)) (Hd j) (Hd (j + 1)%nat))
    as (H1 & H2 & H3 & H4).
  cbv zeta. split; [exact H1|]. split; [exact H2|]. split; [exact H3|].
  split; [exact H4|].
  intros Hflag.
  destruct (Code.keyword_count (Code.sin kws) (lower text)) as [|ns];
    destruct (Code.keyword_count (Code.virtue kws) (lower text)) as [|nv].
  - destruct H4 as [_ H]; [split; reflexivity|]. lra.
  - destruct H2 as [_ H]; [split; [lia|reflexivity]|]. lra.
  - split; [lia|reflexivity].
  - destruct H3 as [_ H]; [split; lia|]. lra.
Qed.

Lemma predict_bands_witness :
  exists scores,
    Code.predict "I am the most modest person I know." code_fresh
    = Ok scores (advance 14 code_fresh)
    /\ forall principle score,
         In (principle, score) scores ->
         exists kws,
           dict_get Code.value_spectrum_keywords principle = Some kws
           /\ let s := Code.keyword_count (Code.sin kws)
                         (lower "I am the most modest person I know.") in
              let v := Code.keyword_count (Code.virtue kws)
                         (lower "I am the most modest person I know.") in
              ((0 < s)%nat /\ v = 0%nat -> 0.65 <= score <= 1)
              /\ ((0 < v)%nat /\ s = 0%nat -> 0 <= score <= 0.35)
              /\ ((0 < s)%nat /\ (0 < v)%nat -> 0.25 <= score <= 0.75)
              /\ (s = 0%nat /\ v = 0%nat -> 0.30 <= score <= 0.70)
              /\ (0.75 < score -> (0 < s)%nat /\ v = 0%nat).
Proof.
  apply (predict_bands "I am the most modest person I know." code_fresh).
  intros n. unfold half_draws. simpl. split; unfold Qle; simpl; lia.
Defined.

(** ** [Code.py]: what a cycle without correction does, what a cycle draws,
       and what it reads of the ECS *)

(** X6.  In [Code.py], a cycle on a stored memory none of whose scores
    exceeds 0.75 returns, leaves inference and scores as they were, and sets
    both diagnostics to zero, whatever they were before: [agreement_shift]
    and [mischievous_shift] are nonzero only after a correcting cycle. *)
Theorem unflagged_cycle_zero_shifts (series_std : list Q -> Q) (id : string)
    (p : Process string Code.RMMModel) (m : Code.Memory) :
  Code.memories (self p) !! id = Some m ->
  Code.value_alignment_scores m <> [] ->
  ~ CodeSpec.flagged (Code.value_alignment_scores m) ->
  exists p' m',
    Code.run_rmm_cycle series_std id p = Ok tt p'
    /\ Code.memories (self p') !! id = Some m'
    /\ Code.current_inference m' = Code.current_inference m
    /\ Code.value_alignment_scores m' = Code.value_alignment_scores m
    /\ Code.agreement_shift m' == 0
    /\ Code.mischievous_shift m' == 0.
Proof.
  intros Hl Hne Hf.
  eexists _, _.
  split; [apply (CodeFacts.run_rmm_cycle_unflagged series_std id m p Hl Hne Hf)|].
  split; [simpl; apply lookup_insert_eq|].
  split; [reflexivity|]. split; [reflexivity|].
  split.
  - change (CodeSpec.mean (Code.value_alignment_scores m)
            - CodeSpec.mean (Code.value_alignment_scores m) == 0).
    unfold Qminus. apply Qplus_opp_r.
  - change (Qabs (series_std (map snd (Code.value_alignment_scores m))
                  - series_std (map snd (Code.value_alignment_scores m)))
            == 0).
    assert (E : series_std (map snd (Code.value_alignment_scores m))
                - series_std (map snd (Code.value_alignment_scores m)) == 0)
      by (unfold Qminus; apply Qplus_opp_r).
    rewrite E. reflexivity.
Qed.

Lemma unflagged_cycle_zero_shifts_witness :
  exists p' m',
    Code.run_rmm_cycle range_spread "school_nerves" code_school = Ok tt p'
    /\ Code.memories (self p') !! "school_nerves" = Some m'
    /\ Code.current_inference m' = Code.current_inference school
    /\ Code.value_alignment_scores m' = Code.value_alignment_scores school
    /\ Code.agreement_shift m' == 0
    /\ Code.mischievous_shift m' == 0.
Proof.
  apply (unflagged_cycle_zero_shifts range_spread "school_nerves" code_school
           school).
  - reflexivity.
  - simpl. discriminate.
  - rewrite <- CodeFacts.trigger_flagged. vm_compute. discriminate.
Defined.

(** X7.  In [Code.py], a cycle on a stored memory that returns prints
    nothing, keeps the stream of draws, and takes exactly sixteen draws when
    it corrects (fourteen for the new scores, two for the modulation) and
    exactly two when it does not. *)
Theorem cycle_draws_taken (series_std : list Q -> Q) (id : string)
    (p p' : Process string Code.RMMModel) (m : Code.Memory) :
  Code.memories (self p) !! id = Some m ->
  Code.run_rmm_cycle series_std id p = Ok tt p' ->
  stdout p' = stdout p
  /\ draws (rng p') = draws (rng p)
  /\ ((CodeSpec.flagged (Code.value_alignment_scores m)
       /\ pos (rng p') = (pos (rng p) + 16)%nat)
      \/ (~ CodeSpec.flagged (Code.value_alignment_scores m)
          /\ pos (rng p') = (pos (rng p) + 2)%nat)).
Proof.
  intros Hl Hrun.
  destruct (CodeInvFacts.run_rmm_cycle_shape series_std id m p p' Hl Hrun)
    as (_ & [(Hf & ->)|(Hf & ->)]).
  - split; [reflexivity|]. split; [reflexivity|]. left.
    split; [exact Hf|reflexivity].
  - split; [reflexivity|]. split; [reflexivity|]. right.
    split; [exact Hf|reflexivity].
Qed.

Lemma cycle_draws_taken_witness :
  stdout code_sample_cycled = stdout code_sample
  /\ draws (rng code_sample_cycled) = draws (rng code_sample)
  /\ ((CodeSpec.flagged (Code.value_alignment_scores boastful)
       /\ pos (rng code_sample_cycled) = (pos (rng code_sample) + 16)%nat)
      \/ (~ CodeSpec.flagged (Code.value_alignment_scores boastful)
          /\ pos (rng code_sample_cycled) = (pos (rng code_sample) + 2)%nat)).
Proof.
  apply (cycle_draws_taken range_spread "m1" code_sample code_sample_cycled
           boastful).
  - reflexivity.
  - vm_compute. reflexivity.
Defined.

(** X8.  In [Code.py], a cycle on a stored memory does not depend on the
    modulation the ECS object was left with: [get_feedback_signal] sets
    [current_modulation] from the outcome before [apply_modulation] reads it,
    so the run from a state with any other [current_modulation] gives the
    same result and the same final state. *)
Theorem cycle_ignores_stored_modulation (series_std : list Q -> Q)
    (id : string) (p : Process string Code.RMMModel) (m : Code.Memory)
    (cm : Q) :
  Code.memories (self p) !! id = Some m ->
  Code.run_rmm_cycle series_std id (CodeSpec.with_modulation cm p)
  = Code.run_rmm_cycle series_std id p.
Proof.
  intros Hl.
  assert (Hl' : Code.memories (self (CodeSpec.with_modulation cm p)) !! id
                = Some m) by exact Hl.
  destruct (Code.value_alignment_scores m) as [|kv rest] eqn:Hs.
  - rewrite (CodeFacts.run_rmm_cycle_empty_scores series_std id m _ Hl' Hs).
    rewrite (CodeFacts.run_rmm_cycle_empty_scores series_std id m _ Hl Hs).
    reflexivity.
  - assert (Hne : Code.value_alignment_scores m <> [])
      by (rewrite Hs; discriminate).
    destruct (CodeFacts.flagged_dec (Code.value_alignment_scores m))
      as [Hf|Hf].
    + rewrite (CodeFacts.run_rmm_cycle_flagged series_std id m _ Hl' Hf).
      rewrite (CodeFacts.run_rmm_cycle_flagged series_std id m _ Hl Hf).
      reflexivity.
    + rewrite (CodeFacts.run_rmm_cycle_unflagged series_std id m _ Hl' Hne Hf).
      rewrite (CodeFacts.run_rmm_cycle_unflagged series_std id m _ Hl Hne Hf).
      reflexivity.
Qed.

Lemma cycle_ignores_stored_modulation_witness :
  Code.run_rmm_cycle range_spread "m1"
    (CodeSpec.with_modulation 0.05 code_sample)
  = Code.run_rmm_cycle range_spread "m1" code_sample.
Proof.
  apply (cycle_ignores_stored_modulation range_spread "m1" code_sample
           boastful 0.05).
  reflexivity.
Defined.

(** ** All three engines: what cycles and adds do to the collection *)

Lemma bind_returned {Out Self A B} (c : M Out Self A) (k : A -> M Out Self B)
    (p p'' : Process Out Self) (b : B) :
  bind c k p = Ok b p'' ->
  exists a p', c p = Ok a p' /\ k a p' = Ok b p''.
Proof.
  unfold bind. destruct (c p) as [a p'|e]; [|discriminate].
  intros H. exists a, p'. split; [reflexivity|exact H].
Qed.

Section EngineSteps.

Variable E : Engine.
Hypothesis HE : engine E.

(** One completed run, seen from any entry of the collection. *)
Lemma run_cycle_entry (id : string) (p p' : Process (Out E) (Model E))
    (k : string) (m : Mem E) :
  run_cycle E id p = Ok tt p' ->
  collection E (self p) !! k = Some m ->
  exists m',
    collection E (self p') !! k = Some m'
    /\ count_of E m' = (count_of E m + if String.eqb k id then 1 else 0)%nat
    /\ adaptive_of E m' = adaptive_of E m || String.eqb k id
    /\ (k <> id -> m' = m).
Proof.
  intros Hrun Hk.
  destruct (collection E (self p) !! id) as [m0|] eqn:Hl.
  - pose proof (run_cycle_completes_runnable E HE id p m0 p' Hl Hrun) as Hr.
    pose proof (returns_inv _ _ _ _ _
                  (run_cycle_present E HE id p m0 Hl Hr) Hrun)
      as (m0' & Hl' & Hc & Ha & Hother).
    destruct (String.eqb_spec k id) as [->|Hne].
    + rewrite Hl in Hk. inversion Hk; subst m0.
      exists m0'. split; [exact Hl'|]. split; [exact Hc|].
      split; [rewrite Ha; symmetry; apply orb_true_r|]. congruence.
    + exists m. rewrite (Hother k Hne). split; [exact Hk|].
      split; [lia|]. split; [symmetry; apply orb_false_r|reflexivity].
  - rewrite (run_cycle_absent E HE id p Hl) in Hrun.
    inversion Hrun; subst p'. simpl.
    assert (Hne : k <> id) by congruence.
    apply String.eqb_neq in Hne. rewrite Hne.
    exists m. split; [exact Hk|]. split; [lia|].
    split; [symmetry; apply orb_false_r|reflexivity].
Qed.

(** One completed run keeps the absent entries absent. *)
Lemma run_cycle_absent_entry (id : string) (p p' : Process (Out E) (Model E))
    (k : string) :
  run_cycle E id p = Ok tt p' ->
  collection E (self p) !! k = None ->
  collection E (self p') !! k = None.
Proof.
  intros Hrun Hk.
  destruct (collection E (self p) !! id) as [m0|] eqn:Hl.
  - pose proof (run_cycle_completes_runnable E HE id p m0 p' Hl Hrun) as Hr.
    pose proof (returns_inv _ _ _ _ _
                  (run_cycle_present E HE id p m0 Hl Hr) Hrun)
      as (m0' & _ & _ & _ & Hother).
    rewrite Hother; [exact Hk|]. congruence.
  - rewrite (run_cycle_absent E HE id p Hl) in Hrun.
    inversion Hrun; subst p'. exact Hk.
Qed.

End EngineSteps.

(** X9.  In each engine, a run of the cycle that returns neither adds nor
    removes a memory: the identifiers of the collection are the same before
    and after.  The add operation adds its identifier and keeps all
    others. *)
Theorem collection_keys_kept (E : Engine) (HE : engine E) (id : string)
    (p : Process (Out E) (Model E)) :
  (forall p', run_cycle E id p = Ok tt p' ->
              dom (collection E (self p')) = dom (collection E (self p)))
  /\ (forall content inference valence p',
         add E id content inference valence p = Ok tt p' ->
         dom (collection E (self p')) = {[ id ]} ∪ dom (collection E (self p))).
Proof.
  split.
  - intros p' Hrun. apply set_eq. intros k. rewrite !elem_of_dom.
    destruct (collection E (self p) !! k) as [m|] eqn:Hk.
    + destruct (run_cycle_entry E HE id p p' k m Hrun Hk) as (m' & Hk' & _).
      rewrite Hk'. split; intros _; eexists; reflexivity.
    + rewrite (run_cycle_absent_entry E HE id p p' k Hrun Hk).
      reflexivity.
  - intros content inference valence p' Hadd.
    pose proof (returns_inv _ _ _ _ _
                  (add_stores_new E HE id content inference valence p) Hadd)
      as (m & Hl & _ & _ & Hother).
    apply set_eq. intros k.
    rewrite elem_of_union, elem_of_singleton, !elem_of_dom.
    destruct (decide (k = id)) as [->|Hne].
    + rewrite Hl. split; [intros _; left; reflexivity|].
      intros _. eexists; reflexivity.
    + rewrite (Hother k Hne). split; [intros H; right; exact H|].
      intros [Heq|H]; [contradiction|exact H].
Qed.

Lemma collection_keys_kept_witness :
  dom (Code.memories (self code_sample_cycled))
  = dom (Code.memories (self code_sample)).
Proof.
  apply (proj1 (collection_keys_kept (code_engine range_spread)
                  (engine_code range_spread) "m1" code_sample)
           code_sample_cycled).
  vm_compute. reflexivity.
Defined.

(** X10.  In each engine, after a sequence of cycle runs that all return,
    every memory that was stored is still stored; its [reprocessing_count]
    has grown by the number of runs on its identifier, and it is adaptive
    exactly if it was before or some run was on its identifier. *)
Theorem run_cycles_count (E : Engine) (HE : engine E) (ids : list string)
    (p p' : Process (Out E) (Model E)) (k : string) (m : Mem E) :
  run_cycles E ids p = Ok tt p' ->
  collection E (self p) !! k = Some m ->
  exists m',
    collection E (self p') !! k = Some m'
    /\ count_of E m' = (count_of E m + occurrences k ids)%nat
    /\ adaptive_of E m' = adaptive_of E m || existsb (String.eqb k) ids.
Proof.
  revert p m. induction ids as [|id rest IH]; intros p m Hrun Hk.
  - simpl in Hrun. inversion Hrun; subst p'. exists m.
    split; [exact Hk|]. split; [unfold occurrences; simpl; lia|].
    simpl. symmetry. apply orb_false_r.
  - simpl in Hrun. apply bind_returned in Hrun as ([] & p1 & Hrun1 & Hrest).
    destruct (run_cycle_entry E HE id p p1 k m Hrun1 Hk)
      as (m1 & Hk1 & Hc1 & Ha1 & _).
    destruct (IH p1 m1 Hrest Hk1) as (m' & Hk' & Hc' & Ha').
    exists m'. split; [exact Hk'|]. split.
    + rewrite Hc', Hc1. unfold occurrences. simpl.
      destruct (String.eqb k id); simpl; lia.
    + rewrite Ha', Ha1. simpl. rewrite orb_assoc. reflexivity.
Qed.

Lemma run_cycles_count_witness :
  exists p' m',
    run_cycles code3_engine ["bike_fall"; "missing"; "bike_fall"] code3_bike
    = Ok tt p'
    /\ Code3.memories (self p') !! "bike_fall" = Some m'
    /\ Code3.reprocessing_count m' = 2%nat
    /\ Code3.is_adaptive m' = true.
Proof.
  destruct (run_cycles code3_engine ["bike_fall"; "missing"; "bike_fall"]
              code3_bike) as [[] p'|e] eqn:Hrun; [|vm_compute in Hrun; discriminate].
  exists p'.
  destruct (run_cycles_count code3_engine engine_code3
              ["bike_fall"; "missing"; "bike_fall"] code3_bike p' "bike_fall"
              bike Hrun ltac:(reflexivity))
    as (m' & Hk & Hc & Ha).
  exists m'. split; [reflexivity|]. split; [exact Hk|].
  split; [exact Hc|exact Ha].
Defined.

(** ** [Code.py]: memories that are never corrected *)

(** One completed run keeps inference and scores of every memory without a
    flagged score. *)
Lemma unflagged_kept_by_cycle (series_std : list Q -> Q) (id : string)
    (p p' : Process string Code.RMMModel) (k : string) (m : Code.Memory) :
  Code.run_rmm_cycle series_std id p = Ok tt p' ->
  Code.memories (self p) !! k = Some m ->
  ~ CodeSpec.flagged (Code.value_alignment_scores m) ->
  exists m',
    Code.memories (self p') !! k = Some m'
    /\ Code.current_inference m' = Code.current_inference m
    /\ Code.value_alignment_scores m' = Code.value_alignment_scores m
    /\ Code.content m' = Code.content m.
Proof.
  intros Hrun Hk Hf.
  destruct (decide (k = id)) as [->|Hne].
  - destruct (CodeInvFacts.run_rmm_cycle_shape series_std id m p p' Hk Hrun)
      as (_ & [(Hf' & _)|(_ & ->)]); [contradiction|].
    eexists. split; [simpl; apply lookup_insert_eq|].
    split; [|split]; reflexivity.
  - destruct (run_cycle_entry (code_engine series_std)
                (engine_code series_std) id p p' k m Hrun Hk)
      as (m' & Hk' & _ & _ & Hsame).
    rewrite (Hsame Hne) in Hk'. exists m. split; [exact Hk'|].
    split; [|split]; reflexivity.
Qed.

Lemma unflagged_kept_by_cycles (series_std : list Q -> Q) (ids : list string)
    (p p' : Process string Code.RMMModel) (k : string) (m : Code.Memory) :
  run_cycles (code_engine series_std) ids p = Ok tt p' ->
  Code.memories (self p) !! k = Some m ->
  ~ CodeSpec.flagged (Code.value_alignment_scores m) ->
  exists m',
    Code.memories (self p') !! k = Some m'
    /\ Code.current_inference m' = Code.current_inference m
    /\ Code.value_alignment_scores m' = Code.value_alignment_scores m
    /\ Code.content m' = Code.content m.
Proof.
  revert p m. induction ids as [|id rest IH]; intros p m Hrun Hk Hf.
  - simpl in Hrun. inversion Hrun; subst p'. exists m.
    split; [exact Hk|]. split; [|split]; reflexivity.
  - simpl in Hrun. apply bind_returned in Hrun as ([] & p1 & Hrun1 & Hrest).
    destruct (unflagged_kept_by_cycle series_std id p p1 k m Hrun1 Hk Hf)
      as (m1 & Hk1 & Hi1 & Hs1 & Hc1).
    destruct (IH p1 m1 Hrest Hk1) as (m' & Hk' & Hi' & Hs' & Hc').
    { rewrite Hs1. exact Hf. }
    exists m'. split; [exact Hk'|]. split; [congruence|].
    split; congruence.
Qed.

(** The scores of an inference without an unopposed negative indicator are
    all at most 0.75. *)
Lemma no_unopposed_sin_unflagged (text : string) (ds : nat -> Q) (i : nat) :
  (forall n, 0 <= ds n <= 1) ->
  CodeInv.no_unopposed_sin text ->
  ~ CodeSpec.flagged (CodeSpec.scored Code.value_spectrum_keywords text ds i).
Proof.
  intros Hd Hno (principle & v & Hin & Hv).
  apply CodeFacts.scored_In in Hin as (kws & j & Hk & ->).
  destruct (principle_score_bands kws text (ds j) (ds (j + 1)%nat)
              (Hd j) (Hd (j + 1)%nat))
    as (_ & H2 & H3 & H4).
  destruct (Hno principle kws Hk) as [Hs|Hvt].
  - destruct (Code.keyword_count (Code.virtue kws) text) as [|nv] eqn:Ev.
    + destruct H4 as [_ H]; [split; [exact Hs|reflexivity]|]. lra.
    + destruct H2 as [_ H]; [split; [lia|exact Hs]|]. lra.
  - destruct (Code.keyword_count (Code.sin kws) text) as [|ns] eqn:Es.
    + destruct H2 as [_ H]; [split; [exact Hvt|reflexivity]|]. lra.
    + destruct H3 as [_ H]; [split; [lia|exact Hvt]|]. lra.
Qed.

(** X11.  In [Code.py], no flagged score is an absorbing condition: a stored
    memory none of whose scores exceeds 0.75 keeps its inference, its scores
    and its content through any sequence of completed cycles, on its own
    identifier or on others. *)
Theorem unflagged_is_absorbing (series_std : list Q -> Q) (ids : list string)
    (p p' : Process string Code.RMMModel) (k : string) (m : Code.Memory) :
  run_cycles (code_engine series_std) ids p = Ok tt p' ->
  Code.memories (self p) !! k = Some m ->
  ~ CodeSpec.flagged (Code.value_alignment_scores m) ->
  exists m',
    Code.memories (self p') !! k = Some m'
    /\ Code.current_inference m' = Code.current_inference m
    /\ Code.value_alignment_scores m' = Code.value_alignment_scores m
    /\ ~ CodeSpec.flagged (Code.value_alignment_scores m').
Proof.
  intros Hrun Hk Hf.
  destruct (unflagged_kept_by_cycles series_std ids p p' k m Hrun Hk Hf)
    as (m' & Hk' & Hi & Hs & _).
  exists m'. split; [exact Hk'|]. split; [exact Hi|]. split; [exact Hs|].
  rewrite Hs. exact Hf.
Qed.

Lemma unflagged_is_absorbing_witness :
  exists p' m',
    run_cycles (code_engine range_spread)
      ["school_nerves"; "school_nerves"; "other"] code_school = Ok tt p'
    /\ Code.memories (self p') !! "school_nerves" = Some m'
    /\ Code.current_inference m' = Code.current_inference school
    /\ Code.value_alignment_scores m' = Code.value_alignment_scores school
    /\ ~ CodeSpec.flagged (Code.value_alignment_scores m').
Proof.
  destruct (run_cycles (code_engine range_spread)
              ["school_nerves"; "school_nerves"; "other"] code_school)
    as [[] p'|e] eqn:Hrun; [|vm_compute in Hrun; discriminate].
  exists p'.
  destruct (unflagged_is_absorbing range_spread
              ["school_nerves"; "school_nerves"; "other"] code_school p'
              "school_nerves" school Hrun ltac:(reflexivity))
    as (m' & H).
  - rewrite <- CodeFacts.trigger_flagged. vm_compute. discriminate.
  - exists m'. split; [reflexivity|exact H].
Defined.

(** X12.  In [Code.py], with draws in [0, 1]: a memory added with an
    inference in which no principle has a negative-indicator keyword without
    a positive-indicator keyword is never corrected.  Whatever cycles
    complete after the add, it keeps the inference and the content it was
    added with. *)
Theorem unopposed_sin_needed_for_correction (series_std : list Q -> Q)
    (id content inference : string) (valence : Q) (ids : list string)
    (p p1 p2 : Process string Code.RMMModel) :
  good_draws p ->
  CodeInv.no_unopposed_sin (lower inference) ->
  Code.add_memory id content inference valence p = Ok tt p1 ->
  run_cycles (code_engine series_std) ids p1 = Ok tt p2 ->
  exists m,
    Code.memories (self p2) !! id = Some m
    /\ Code.current_inference m = inference
    /\ Code.content m = content.
Proof.
  intros Hd Hno Hadd Hrun.
  rewrite code_add_memory_eq in Hadd. inversion Hadd; subst p1.
  set (m0 := CodeSpec.created id content inference valence
               (draws (rng p)) (pos (rng p))) in *.
  assert (Hl0 : Code.memories
                  (self (CodeSpec.with_memory id m0 (advance 14 p))) !! id
                = Some m0) by (simpl; apply lookup_insert_eq).
  assert (Hf : ~ CodeSpec.flagged (Code.value_alignment_scores m0)).
  { apply no_unopposed_sin_unflagged; [exact Hd|exact Hno]. }
  destruct (unflagged_kept_by_cycles series_std ids _ p2 id m0 Hrun Hl0 Hf)
    as (m & Hl & Hi & _ & Hc).
  exists m. split; [exact Hl|]. split; [exact Hi|exact Hc].
Qed.

Lemma unopposed_sin_needed_for_correction_witness :
  exists p2 m,
    run_cycles (code_engine range_spread)
      ["school_nerves"; "school_nerves"] code_school = Ok tt p2
    /\ Code.memories (self p2) !! "school_nerves" = Some m
    /\ Code.current_inference m = "School makes people anxious."
    /\ Code.content m = "First day at school, felt nervous.".
Proof.
  destruct (run_cycles (code_engine range_spread)
              ["school_nerves"; "school_nerves"] code_school)
    as [[] p2|e] eqn:Hrun; [|vm_compute in Hrun; discriminate].
  exists p2.
  destruct (unopposed_sin_needed_for_correction range_spread
              "school_nerves" "First day at school, felt nervous."
              "School makes people anxious." (-0.5)
              ["school_nerves"; "school_nerves"]
              (mkProcess (mkRandom half_draws 0) [] Code.RMMModel_init)
              code_school p2)
    as (m & H).
  - intros n. unfold half_draws. simpl. split; unfold Qle; simpl; lia.
  - intros principle kws Hin. simpl in Hin.
    repeat (destruct Hin as [Hin|Hin];
            [inversion Hin; subst; left; reflexivity|]).
    destruct Hin.
  - vm_compute. reflexivity.
  - exact Hrun.
  - exists m. split; [reflexivity|exact H].
Defined.

(** ** What a cycle keeps of the record *)

Lemma rewritten_retained_fields (m : Code3.Memory) (outcome : string) :
  let m' := Code3Spec.retained (Code3Spec.rewritten m outcome) in
  Code3.identifier m' = Code3.identifier m
  /\ Code3.content m' = Code3.content m
  /\ Code3.initial_valence m' = Code3.initial_valence m
  /\ Code3.current_inference m' = Code3.current_inference m.
Proof.
  unfold Code3Spec.retained, Code3Spec.rewritten.
  destruct (_ || _); [|destruct (String.eqb _ _)]; repeat split.
Qed.

(** The entry a cycle of [Code3.py] leaves, from what re-evaluation
    guarantees. *)
Lemma reevaluated_entry (prefix : string) (m m1 : Code3.Memory)
    (outcome : string) :
  Code3Spec.reevaluated prefix (Code3Spec.reactivated m) outcome m1 ->
  let m' := Code3Spec.retained (Code3Spec.rewritten m1 outcome) in
  Code3.identifier m' = Code3.identifier m
  /\ Code3.content m' = Code3.content m
  /\ Code3.initial_valence m' = Code3.initial_valence m
  /\ (Code3.current_inference m' = Code3.current_inference m
      \/ Code3.current_inference m' = prefix ++ Code3.content m).
Proof.
  intros ((Hid & Hc & Hiv & _) & _ & _ & Hinf) m'.
  destruct (rewritten_retained_fields m1 outcome) as (Hid' & Hc' & Hiv' & Hi').
  subst m'. rewrite Hid', Hc', Hiv', Hi'.
  split; [exact Hid|]. split; [exact Hc|]. split; [exact Hiv|].
  destruct Hinf as [[_ H]|[_ H]]; [right|left]; exact H.
Qed.

(** X13.  In each of the three engines, a cycle that returns never rewrites
    the identifier, the content or the initial valence of the memory it runs
    on, and leaves its inference either as it was or as the engine's fixed
    prefix followed by the content: a second correction changes nothing of
    the inference. *)
Theorem cycle_keeps_record (series_std : list Q -> Q) (id : string) :
  (forall (p p' : Process string Code.RMMModel) (m : Code.Memory),
      Code.memories (self p) !! id = Some m ->
      Code.run_rmm_cycle series_std id p = Ok tt p' ->
      exists m',
        Code.memories (self p') !! id = Some m'
        /\ Code.identifier m' = Code.identifier m
        /\ Code.content m' = Code.content m
        /\ Code.initial_valence m' = Code.initial_valence m
        /\ (Code.current_inference m' = Code.current_inference m
            \/ Code.current_inference m'
               = "Improved perspective: " ++ Code.content m))
  /\ (forall (p p' : Process Code3.Line Code3.RMMModel) (m : Code3.Memory),
         Code3.memories (self p) !! id = Some m ->
         Code3.run_rmm_cycle id p = Ok tt p' ->
         exists m',
           Code3.memories (self p') !! id = Some m'
           /\ Code3.identifier m' = Code3.identifier m
           /\ Code3.content m' = Code3.content m
           /\ Code3.initial_valence m' = Code3.initial_valence m
           /\ (Code3.current_inference m' = Code3.current_inference m
               \/ Code3.current_inference m'
                  = "updated interpretation based on value system for "
                    ++ Code3.content m))
  /\ (forall (p p' : Process Code3.Line Code4.RMMModel) (m : Code3.Memory),
         Code4.memories (self p) !! id = Some m ->
         Code4.run_rmm_cycle id p = Ok tt p' ->
         exists m',
           Code4.memories (self p') !! id = Some m'
           /\ Code3.identifier m' = Code3.identifier m
           /\ Code3.content m' = Code3.content m
           /\ Code3.initial_valence m' = Code3.initial_valence m
           /\ (Code3.current_inference m' = Code3.current_inference m
               \/ Code3.current_inference m'
                  = "updated interpretation for " ++ Code3.content m)).
Proof.
  split; [|split].
  - intros p p' m Hl Hrun.
    destruct (CodeInvFacts.run_rmm_cycle_shape series_std id m p p' Hl Hrun)
      as (_ & [(_ & ->)|(_ & ->)]);
      (eexists; split; [simpl; apply lookup_insert_eq|]);
      (do 3 (split; [reflexivity|])); [right|left]; reflexivity.
  - intros p p' m Hl Hrun.
    pose proof (returns_inv _ _ _ _ _
                  (Code3Facts.run_rmm_cycle_found3 id m p Hl) Hrun)
      as (outcome & m1 & Hre & Hmem & _).
    eexists. rewrite Hmem. split; [apply lookup_insert_eq|].
    apply (reevaluated_entry Code3Spec.value_prefix m m1 outcome Hre).
  - intros p p' m Hl Hrun.
    pose proof (returns_inv _ _ _ _ _
                  (Code4Facts.run_rmm_cycle_found4 id m p Hl) Hrun)
      as (outcome & m1 & Hre & Hmem & _).
    eexists. rewrite Hmem. split; [apply lookup_insert_eq|].
    apply (reevaluated_entry plain_prefix m m1 outcome Hre).
Qed.

Lemma cycle_keeps_record_witness :
  exists m',
    Code.memories (self code_sample_cycled) !! "m1" = Some m'
    /\ Code.identifier m' = Code.identifier boastful
    /\ Code.content m' = Code.content boastful
    /\ Code.initial_valence m' = Code.initial_valence boastful
    /\ (Code.current_inference m' = Code.current_inference boastful
        \/ Code.current_inference m'
           = "Improved perspective: " ++ Code.content boastful).
Proof.
  apply (proj1 (cycle_keeps_record range_spread "m1") code_sample
           code_sample_cycled boastful).
  - reflexivity.
  - vm_compute. reflexivity.
Defined.

(** ** [Code3.py], first part: memories the value checks never see *)

(** One completed run keeps the inference and the ranges of a quiet
    memory. *)
Lemma quiet_kept_by_cycle (id : string)
    (p p' : Process Code3.Line Code3.RMMModel) (k : string)
    (m : Code3.Memory) :
  Code3.run_rmm_cycle id p = Ok tt p' ->
  Code3.memories (self p) !! k = Some m ->
  quiet m ->
  exists m',
    Code3.memories (self p') !! k = Some m'
    /\ Code3.current_inference m' = Code3.current_inference m
    /\ (0.1 <= Code3.strength m -> 0.1 <= Code3.strength m')
    /\ (-1.0 <= Code3.current_valence m <= 1.0 ->
        -1.0 <= Code3.current_valence m' <= 1.0).
Proof.
  intros Hrun Hk (Hq1 & Hq2 & Hq3).
  destruct (decide (k = id)) as [->|Hne].
  - pose proof (returns_inv _ _ _ _ _
                  (Code3Facts.run_rmm_cycle_found3 id m p Hk) Hrun)
      as (outcome & m1 & Hre & Hmem & _ & _ & Hquiet).
    rewrite (Hquiet Hq1 Hq2 Hq3) in *.
    destruct Hre as (_ & Hs & Hv & [[Habs _]|[_ Hinf]]); [discriminate|].
    eexists. rewrite Hmem. split; [apply lookup_insert_eq|].
    split; [exact Hinf|]. split; [intros _; exact Hs|intros _; exact Hv].
  - destruct (run_cycle_entry code3_engine engine_code3 id p p' k m Hrun Hk)
      as (m' & Hk' & _ & _ & Hsame).
    rewrite (Hsame Hne) in Hk'. exists m. split; [exact Hk'|].
    split; [reflexivity|]. split; intros H; exact H.
Qed.

(** X14.  In the first part of [Code3.py], a stored memory whose inference
    mentions none of "gain", "upset" and "alone" is never rewritten: through
    any sequence of completed cycles it keeps its inference, its strength
    stays at least 0.1 if it was, and its valence stays within [-1, 1] if
    it was. *)
Theorem quiet_memory_kept (ids : list string)
    (p p' : Process Code3.Line Code3.RMMModel) (k : string)
    (m : Code3.Memory) :
  run_cycles code3_engine ids p = Ok tt p' ->
  Code3.memories (self p) !! k = Some m ->
  quiet m ->
  exists m',
    Code3.memories (self p') !! k = Some m'
    /\ Code3.current_inference m' = Code3.current_inference m
    /\ (0.1 <= Code3.strength m -> 0.1 <= Code3.strength m')
    /\ (-1.0 <= Code3.current_valence m <= 1.0 ->
        -1.0 <= Code3.current_valence m' <= 1.0).
Proof.
  revert p m. induction ids as [|id rest IH]; intros p m Hrun Hk Hq.
  - simpl in Hrun. inversion Hrun; subst p'. exists m.
    split; [exact Hk|]. split; [reflexivity|]. split; intros H; exact H.
  - simpl in Hrun. apply bind_returned in Hrun as ([] & p1 & Hrun1 & Hrest).
    destruct (quiet_kept_by_cycle id p p1 k m Hrun1 Hk Hq)
      as (m1 & Hk1 & Hi1 & Hs1 & Hv1).
    destruct (IH p1 m1 Hrest Hk1) as (m' & Hk' & Hi' & Hs' & Hv').
    { unfold quiet, Code3Spec.mentions in *. rewrite Hi1. exact Hq. }
    exists m'. split; [exact Hk'|]. split; [congruence|].
    split; [intros H; apply Hs', Hs1, H|intros H; apply Hv', Hv1, H].
Qed.

Lemma quiet_memory_kept_witness :
  exists p' m',
    run_cycles code3_engine ["bike_fall"; "bike_fall"] code3_bike = Ok tt p'
    /\ Code3.memories (self p') !! "bike_fall" = Some m'
    /\ Code3.current_inference m' = Code3.current_inference bike
    /\ (0.1 <= Code3.strength bike -> 0.1 <= Code3.strength m')
    /\ (-1.0 <= Code3.current_valence bike <= 1.0 ->
        -1.0 <= Code3.current_valence m' <= 1.0).
Proof.
  destruct (run_cycles code3_engine ["bike_fall"; "bike_fall"] code3_bike)
    as [[] p'|e] eqn:Hrun; [|vm_compute in Hrun; discriminate].
  exists p'.
  destruct (quiet_memory_kept ["bike_fall"; "bike_fall"] code3_bike p'
              "bike_fall" bike Hrun ltac:(reflexivity))
    as (m' & H).
  - repeat split.
  - exists m'. split; [reflexivity|exact H].
Defined.

(** ** The modulation re-establishes the ranges *)

(** X15.  [apply_modulation], in [Code.py] and in both parts of [Code3.py],
    returns for every memory, every modulation and every pair of draws; it
    takes exactly two draws, prints nothing and leaves the model as it was;
    of the memory it changes the strength and the valence only; and it
    leaves the strength at least 0.1 and the valence within [-1, 1] also
    when they were not before. *)
Theorem apply_modulation_restores_ranges (m : Code.Memory)
    (m3 : Code3.Memory) (p : Process string Code.RMMModel)
    (p3 : Process Code3.Line Code3.RMMModel)
    (p4 : Process Code3.Line Code4.RMMModel) :
  (exists m',
      Code.apply_modulation m p = Ok m' (advance 2 p)
      /\ m' = Code.set_current_valence
                (Code.set_strength m (Code.strength m'))
                (Code.current_valence m')
      /\ 0.1 <= Code.strength m'
      /\ -1.0 <= Code.current_valence m' <= 1.0)
  /\ (exists m3',
         Code3.apply_modulation m3 p3 = Ok m3' (advance 2 p3)
         /\ m3' = Code3.set_current_valence
                    (Code3.set_strength m3 (Code3.strength m3'))
                    (Code3.current_valence m3')
         /\ 0.1 <= Code3.strength m3'
         /\ -1.0 <= Code3.current_valence m3' <= 1.0)
  /\ (exists m4',
         Code4.apply_modulation m3 p4 = Ok m4' (advance 2 p4)
         /\ m4' = Code3.set_current_valence
                    (Code3.set_strength m3 (Code3.strength m4'))
                    (Code3.current_valence m4')
         /\ 0.1 <= Code3.strength m4'
         /\ -1.0 <= Code3.current_valence m4' <= 1.0).
Proof.
  split; [|split].
  - eexists. split; [apply CodeFacts.apply_modulation_eq|].
    split; [destruct m; reflexivity|].
    split; [apply CodeInvFacts.modulated_strength_floor|].
    apply CodeInvFacts.modulated_valence_range.
  - eexists. split.
    { unfold Code3.apply_modulation, bind, get_self.
      apply Code3Facts.ecs_apply_modulation_eq. }
    split; [destruct m3; reflexivity|].
    split; [apply Code3Facts.modulated_strength|].
    apply Code3Facts.modulated_valence.
  - eexists. split.
    { unfold Code4.apply_modulation, bind, get_self.
      apply Code3Facts.ecs_apply_modulation_eq. }
    split; [destruct m3; reflexivity|].
    split; [apply Code3Facts.modulated_strength|].
    apply Code3Facts.modulated_valence.
Qed.

(** ** [Code3.py], second part: the outcome does not depend on the memory *)

Lemma get_feedback_signal_eq4 (outcome : string)
    (p : Process Code3.Line Code4.RMMModel) :
  Code4.get_feedback_signal outcome p
  = Ok (fst (Code3.ecs_get_feedback_signal (Code4.ecs (self p)) outcome))
       (mkProcess (rng p) (stdout p)
          (Code4.mkRMM
             (snd (Code3.ecs_get_feedback_signal (Code4.ecs (self p)) outcome))
             (Code4.memories (self p)))).
Proof.
  unfold Code4.get_feedback_signal, bind, get_self.
  destruct (Code3.ecs_get_feedback_signal (Code4.ecs (self p)) outcome)
    as [signal e].
  reflexivity.
Qed.

(** The tail of [reevaluate_memory]: feedback, print, modulation; two draws
    and the inference untouched. *)
Lemma feedback_and_modulation_draws4 (m1 : Code3.Memory) (outcome : string)
    (p : Process Code3.Line Code4.RMMModel) :
  returns
    (let* ecs_signal := Code4.get_feedback_signal outcome in
     print (Code3.ECS_feedback_signal ecs_signal);;
     let* memory := Code4.apply_modulation m1 in
     ret (outcome, Some memory)) p
    (fun r p' =>
       exists m',
         r = (outcome, Some m')
         /\ Code3.current_inference m' = Code3.current_inference m1
         /\ draws (rng p') = draws (rng p)
         /\ pos (rng p') = (pos (rng p) + 2)%nat).
Proof.
  eapply returns_step; [apply get_feedback_signal_eq4|].
  eapply returns_step; [apply Code3Facts.print_eq|].
  apply returns_bind. unfold Code4.apply_modulation.
  eapply returns_step; [reflexivity|].
  eapply returns_eq; [apply Code3Facts.ecs_apply_modulation_eq|].
  apply returns_ret. eexists. split; [reflexivity|].
  split; [reflexivity|]. split; reflexivity.
Qed.

(** A run of [reevaluate_memory], by its branches: the outcome and the
    number of draws follow the two comparisons of the draws, the inference
    follows the outcome. *)
Lemma reevaluate_memory_branches4 (m : Code3.Memory)
    (p : Process Code3.Line Code4.RMMModel) :
  returns (Code4.reevaluate_memory (Some m)) p
    (fun r p' =>
       exists outcome m',
         r = (outcome, Some m')
         /\ (outcome, pos (rng p'))
            = (if Qltb (draw p 0) 0.3 then
                 if Qltb (draw p 1) 0.7
                 then ("inference_corrected", pos (rng p) + 4)%nat
                 else ("dissonance_high", pos (rng p) + 4)%nat
               else ("no_change", pos (rng p) + 3)%nat)
         /\ Code3.current_inference m'
            = (if String.eqb outcome "inference_corrected"
               then "updated interpretation for " ++ Code3.content m
               else Code3.current_inference m)
         /\ draws (rng p') = draws (rng p)).
Proof.
  unfold Code4.reevaluate_memory.
  eapply returns_step; [apply Code3Facts.print_eq|].
  eapply returns_step; [apply Code3Facts.print_eq|].
  eapply returns_step; [apply random_eq|].
  change (draw
            (Code3Spec.printed
               [Code3.Current_inference (Code3.current_inference m)]
               (Code3Spec.printed [Code3.Reevaluating (Code3.identifier m)] p))
            0)
    with (draw p 0).
  apply returns_bind.
  destruct (Qltb (draw p 0) 0.3).
  - eapply returns_step; [apply Code3Facts.print_eq|].
    eapply returns_step; [apply random_eq|].
    match goal with
    | |- context [Qltb (draw ?q 0) 0.7] =>
        replace (draw q 0) with (draw p 1)
          by (unfold draw, advance, Code3Spec.printed; simpl; f_equal; lia)
    end.
    destruct (Qltb (draw p 1) 0.7);
      (eapply returns_step; [apply Code3Facts.print_eq|]); apply returns_ret;
      (eapply returns_mono; [apply feedback_and_modulation_draws4|]);
      intros r p' (m' & -> & Hi & Hd & Hp);
      eexists _, m'; (split; [reflexivity|]);
      (split; [f_equal; rewrite Hp; simpl; lia|]);
      (split; [exact Hi|exact Hd]).
  - eapply returns_step; [apply Code3Facts.print_eq|]. apply returns_ret.
    eapply returns_mono; [apply feedback_and_modulation_draws4|].
    intros r p' (m' & -> & Hi & Hd & Hp).
    eexists _, m'. split; [reflexivity|].
    split; [f_equal; rewrite Hp; simpl; lia|].
    split; [exact Hi|exact Hd].
Qed.

(** X16.  In the second part of [Code3.py], neither the outcome of
    [reevaluate_memory] nor the number of draws it takes depends on the
    memory, on the ECS object or on the collection: two calls that start
    with the random generator in the same state return the same outcome and
    leave the generator in the same state, whatever the memories and the
    models.  The outcome is [no_change], [inference_corrected] or
    [dissonance_high]; the call takes three draws when it is [no_change] and
    four otherwise; and each memory has its inference replaced, by "updated
    interpretation for " and its content, exactly when the outcome is
    [inference_corrected]. *)
Theorem outcome_independent_of_memory (m1 m2 : Code3.Memory)
    (r : RandomSource) (out1 out2 : list Code3.Line)
    (s1 s2 : Code4.RMMModel) :
  exists outcome m1' m2' p1' p2',
    Code4.reevaluate_memory (Some m1) (mkProcess r out1 s1)
    = Ok (outcome, Some m1') p1'
    /\ Code4.reevaluate_memory (Some m2) (mkProcess r out2 s2)
       = Ok (outcome, Some m2') p2'
    /\ rng p1' = rng p2'
    /\ draws (rng p1') = draws r
    /\ pos (rng p1')
       = (pos r + if String.eqb outcome "no_change" then 3 else 4)%nat
    /\ (outcome = "no_change" \/ outcome = "inference_corrected"
        \/ outcome = "dissonance_high")
    /\ Code3.current_inference m1'
       = (if String.eqb outcome "inference_corrected"
          then "updated interpretation for " ++ Code3.content m1
          else Code3.current_inference m1)
    /\ Code3.current_inference m2'
       = (if String.eqb outcome "inference_corrected"
          then "updated interpretation for " ++ Code3.content m2
          else Code3.current_inference m2).
Proof.
  pose proof (reevaluate_memory_branches4 m1 (mkProcess r out1 s1)) as H1.
  pose proof (reevaluate_memory_branches4 m2 (mkProcess r out2 s2)) as H2.
  destruct H1 as (r1 & p1' & Hrun1 & o1 & m1' & -> & Hb1 & Hi1 & Hd1).
  destruct H2 as (r2 & p2' & Hrun2 & o2 & m2' & -> & Hb2 & Hi2 & Hd2).
  change (draw (mkProcess r out2 s2) 0) with (draw (mkProcess r out1 s1) 0)
    in Hb2.
  change (draw (mkProcess r out2 s2) 1) with (draw (mkProcess r out1 s1) 1)
    in Hb2.
  simpl in Hb1, Hb2, Hd1, Hd2.
  assert (Ho : (o2, pos (rng p2')) = (o1, pos (rng p1')))
    by (rewrite Hb1, Hb2; reflexivity).
  inversion Ho as [[Eo Ep]]. subst o2.
  exists o1, m1', m2', p1', p2'.
  split; [exact Hrun1|]. split; [exact Hrun2|].
  split.
  { destruct (rng p1') as [d1 n1], (rng p2') as [d2 n2]. simpl in *.
    subst. reflexivity. }
  split; [exact Hd1|].
  split.
  { destruct (Qltb _ 0.3); [destruct (Qltb _ 0.7)|];
      inversion Hb1 as [[Eo1 Ep1]]; rewrite Ep1; reflexivity. }
  split.
  { destruct (Qltb _ 0.3); [destruct (Qltb _ 0.7)|];
      inversion Hb1 as [[Eo1 Ep1]]; auto. }
  split; [exact Hi1|exact Hi2].
Qed.

(** ** [Code3.py], first part: the ranges after a cycle, on an example *)

(** X17.  The ranges of the data model in the first part of [Code3.py]:
    a run of the cycle on a stored memory returns, and leaves the memory
    stored with its valence within [-1, 1] and its strength at least 0.08:
    the floor 0.1 of the modulation, times the 0.8 of the rewrite. *)
Lemma code3_cycle_bounds (id : string)
    (p : Process Code3.Line Code3.RMMModel) (m : Code3.Memory) :
  Code3.memories (self p) !! id = Some m ->
  returns (Code3.run_rmm_cycle id) p
    (fun _ p' =>
       exists m',
         Code3.memories (self p') !! id = Some m'
         /\ 0.08 <= Code3.strength m'
         /\ -1.0 <= Code3.current_valence m' <= 1.0).
Proof.
  intros Hl.
  eapply returns_mono; [apply Code3Facts.run_rmm_cycle_found3; exact Hl|].
  intros _ p' (outcome & m1 & Hre & Hmem & _).
  destruct Hre as (_ & Hs & Hv & _).
  eexists. rewrite Hmem. split; [apply lookup_insert_eq|].
  unfold Code3Spec.retained, Code3Spec.rewritten.
  destruct (_ || _); [|destruct (String.eqb _ _)]; simpl.
  - split; [lra|].
    split; [apply Q.le_max_l|apply Q.max_lub; [lra|apply Q.le_min_l]].
  - split; [lra|].
    split; [apply Q.le_max_l|apply Q.max_lub; [lra|apply Q.le_min_l]].
  - split; [lra|exact Hv].
Qed.

Lemma code3_cycle_bounds_witness :
  returns (Code3.run_rmm_cycle "m1") code3_sample
    (fun _ p' =>
       exists m',
         Code3.memories (self p') !! "m1" = Some m'
         /\ 0.08 <= Code3.strength m'
         /\ -1.0 <= Code3.current_valence m' <= 1.0).
Proof.
  apply (code3_cycle_bounds "m1" code3_sample gambler). reflexivity.
Defined.
